(** * Metagify / Metatag: batch tag saving and release reconciliation

    A shallow embedding of the tag-writing core of [Metagify.py] and of its
    predecessor [Metatag.py]: the batch save loop, the embedded-picture
    writer and reader, and the MusicBrainz release application.

    Layout:
    - [Py]       the fragments of Python's [str], [os.path] and exception
                 behaviour the code relies on;
    - [Mutagen]  the storage model: what the third-party tag library keeps
                 per file, seen through its "easy" and raw interfaces;
    - [Metagify] the functions of [Metagify.py];
    - [Metatag]  the functions of [Metatag.py];
    - the properties. *)

From Stdlib Require Import ZArith Lia Ascii.
From stdpp Require Import base tactics option list strings gmap pretty sorting.

Local Open Scope Z_scope.
Local Open Scope nat_scope.

(* ===================================================================== *)
(** * Python fragments *)
(* ===================================================================== *)

Module Py.

(** Python exceptions are caught everywhere in this code base with
    [except Exception as e] and only ever formatted with [f"{e}"], so an
    exception is represented by the text [str(e)]. *)
Inductive Result (A : Type) : Type :=
| Ok (a : A)
| Raise (e : string).
Arguments Ok {A} a.
Arguments Raise {A} e.

(** Sequencing: the first exception raised ends the block. *)
Global Instance Result_ret : MRet Result := λ A a, Ok a.
Global Instance Result_bind : MBind Result := λ A B k r,
  match r with
  | Ok a => k a
  | Raise e => Raise e
  end.

(** [bytes] objects. *)
Abbreviation bytes := (list Byte.byte).

Definition slash : ascii := "/"%char.
Definition dot : ascii := "."%char.
Definition quote : ascii := "'"%char.

(** [c in s] for a one-character [c]. *)
Fixpoint contains (c : ascii) (s : string) : bool :=
  match s with
  | EmptyString => false
  | String a r => if Ascii.eqb a c then true else contains c r
  end.

(** [os.path.basename(p)] (posixpath): [p[p.rfind('/') + 1:]]. *)
Fixpoint basename (p : string) : string :=
  match p with
  | EmptyString => EmptyString
  | String a r =>
      if contains slash r then basename r
      else if Ascii.eqb a slash then r else p
  end.

(** [s[s.rfind('.'):]] when [s] has a dot. *)
Fixpoint from_last_dot (s : string) : option string :=
  match s with
  | EmptyString => None
  | String a r =>
      match from_last_dot r with
      | Some e => Some e
      | None => if Ascii.eqb a dot then Some s else None
      end
  end.

(** Drops the leading dots of a file name. *)
Fixpoint skip_dots (s : string) : string :=
  match s with
  | String a r => if Ascii.eqb a dot then skip_dots r else s
  | EmptyString => EmptyString
  end.

(** [os.path.splitext(p)[1]]: the text from the last dot of the last path
    component on; dots that lead the component do not start an
    extension. *)
Definition splitext_ext (p : string) : string :=
  match from_last_dot (skip_dots (basename p)) with
  | Some e => e
  | None => EmptyString
  end.

Definition lower_ascii (a : ascii) : ascii :=
  let n := nat_of_ascii a in
  if (65 <=? n) && (n <=? 90) then ascii_of_nat (n + 32) else a.

(** [s.lower()], on the ASCII letters. *)
Fixpoint lower (s : string) : string :=
  match s with
  | EmptyString => EmptyString
  | String a r => String (lower_ascii a) (lower r)
  end.

Definition upper_ascii (a : ascii) : ascii :=
  let n := nat_of_ascii a in
  if (97 <=? n) && (n <=? 122) then ascii_of_nat (n - 32) else a.

(** [s.upper()], on the ASCII letters. *)
Fixpoint upper (s : string) : string :=
  match s with
  | EmptyString => EmptyString
  | String a r => String (upper_ascii a) (upper r)
  end.

(** [s.endswith(suffix)]. *)
Definition endswith (s suffix : string) : bool :=
  let n := String.length s in
  let k := String.length suffix in
  if k <=? n then String.eqb (String.substring (n - k) k s) suffix else false.

(** [s.split(c)] for a one-character separator: never empty. *)
Fixpoint split (c : ascii) (s : string) : list string :=
  match s with
  | EmptyString => [EmptyString]
  | String a r =>
      if Ascii.eqb a c then EmptyString :: split c r
      else match split c r with
           | w :: ws => String a w :: ws
           | [] => [String a EmptyString]
           end
  end.

(** [l[i]] with Python's [IndexError]. *)
Definition index {A} (l : list A) (i : nat) : Result A :=
  match l !! i with
  | Some x => Ok x
  | None => Raise "list index out of range"
  end.

(** [d[k]] on a dictionary read as an optional field: [KeyError(k)]
    prints as the quoted key. *)
Definition key_error (k : string) : string :=
  String quote (k +:+ String quote EmptyString).

Definition getitem {A} (k : string) (field : option A) : Result A :=
  match field with
  | Some x => Ok x
  | None => Raise (key_error k)
  end.

(** The two kinds of scalar that reach an f-string in this code: text and
    integers. *)
Inductive Scalar : Type :=
| Str (s : string)
| Int (z : Z).

(** [f"{x}"]. *)
Definition format (x : Scalar) : string :=
  match x with
  | Str s => s
  | Int z => pretty z
  end.

(** [s[:4]]. *)
Definition first4 (s : string) : string := String.substring 0 4 s.

(** [l.sort(key=key)] with string keys: a stable sort, written as an
    insertion sort that places an element before the first element whose
    key is not smaller. *)
Fixpoint insert_by {A} (key : A → string) (x : A) (l : list A) : list A :=
  match l with
  | [] => [x]
  | y :: r => if String.leb (key x) (key y) then x :: l else y :: insert_by key x r
  end.

Definition sort_by {A} (key : A → string) (l : list A) : list A :=
  foldr (insert_by key) [] l.

(** [l.pop(i)] for [0 <= i]. *)
Definition pop {A} (i : nat) (l : list A) : Result (A * list A) :=
  match l !! i with
  | Some x => Ok (x, delete i l)
  | None =>
      Raise match l with
            | [] => "pop from empty list"
            | _ => "pop index out of range"
            end
  end.

(** [l.insert(i, x)] for [0 <= i]: at the end when [i] is past it. *)
Definition insert_at {A} (i : nat) (x : A) (l : list A) : list A :=
  take i l ++ x :: drop i l.

(** [l.remove(x)]: the first occurrence goes.  Both uses in this code
    base are guarded by [if x in l], so the [ValueError] of a missing
    element is not modelled. *)
Fixpoint remove_first (x : string) (l : list string) : list string :=
  match l with
  | [] => []
  | y :: r => if String.eqb x y then r else y :: remove_first x r
  end.

End Py.

Export Py.

(* ===================================================================== *)
(** * The tag library's storage model *)
(* ===================================================================== *)

(** [mutagen] is a third-party library, so there is no source of it to
    embed: this module fixes the part of its documented behaviour the
    application relies on.  A file on disk holds scalar tags, addressed by
    the "easy" key names ([title], [artist], ...), and embedded pictures,
    stored in a container-specific way. *)
Module Mutagen.

(** [mutagen.flac.Picture] and the [APIC] frame carry the same fields. *)
Record Picture : Type := {
  pic_type : nat;
  pic_mime : option string;
  pic_desc : string;
  pic_data : bytes;
}.

(** [MP4Cover(data, imageformat)]: a [bytes] subclass with a format code. *)
Record MP4Cover : Type := {
  cover_data : bytes;
  imageformat : nat;
}.

(** Where each container keeps its pictures.
    - ID3 (.mp3): [APIC] frames in the tag dictionary under the hash key
      ["APIC:" + desc]; the map below is keyed by [desc].
    - FLAC: a list of picture blocks, the [pictures] attribute.
    - MP4 (.m4a): the ['covr'] entry of the tag dictionary, a list of
      covers; the entry may be missing.
    - Ogg Vorbis: the ['metadata_block_picture'] comment, a list of
      base64-encoded picture blocks, kept here decoded; the entry may be
      missing. *)
Inductive Art : Type :=
| ID3 (apic : gmap string Picture)
| FLAC (pictures : list Picture)
| MP4 (covr : option (list MP4Cover))
| OggVorbis (metadata_block_picture : option (list Picture)).

(** A parsed audio file.  The last three fields are the environment: the
    keys the easy interface refuses to assign (with the text of the
    exception), and the failure, if any, of persisting through the easy
    and through the raw interface. *)
Record AudioFile : Type := {
  tags : gmap string (list string);
  art : Art;
  rejects : gmap string string;
  save_error : option string;
  raw_save_error : option string;
}.

Definition set_tags (t : gmap string (list string)) (a : AudioFile) : AudioFile :=
  {| tags := t; art := art a; rejects := rejects a;
     save_error := save_error a; raw_save_error := raw_save_error a |}.

Definition set_art (x : Art) (a : AudioFile) : AudioFile :=
  {| tags := tags a; art := x; rejects := rejects a;
     save_error := save_error a; raw_save_error := raw_save_error a |}.

(** What a path holds: a file the library fails on, a file it does not
    recognise, or an audio file. *)
Inductive Stored : Type :=
| Unreadable (e : string)
| Unrecognised
| Audio (f : AudioFile).

(** The file system, with the log of the paths persisted so far (one
    entry per successful [save()]). *)
Record World : Type := {
  files : gmap string Stored;
  writes : list string;
}.

Definition no_such_file (path : string) : string :=
  "[Errno 2] No such file or directory: " +:+ key_error path.

(** [mutagen.File(path)], with or without [easy=True]: raises on a missing
    or unreadable file, returns [None] on an unrecognised one. *)
Definition File (w : World) (path : string) : Result (option AudioFile) :=
  match files w !! path with
  | None => Raise (no_such_file path)
  | Some (Unreadable e) => Raise e
  | Some Unrecognised => Ok None
  | Some (Audio f) => Ok (Some f)
  end.

(** ** The easy interface *)

(** [audio[key] = value] with a [str] value: stored as a one-element list.
    The text is kept as it is given.  The library does so for Vorbis
    comments; ID3 and MP4 files re-encode the text of some keys (time
    stamps, genre references, track numbers) and drop an empty text frame
    when the file is saved.  The statements about the values these
    containers store are restricted to the texts they keep. *)
Definition setitem (key value : string) (audio : AudioFile) : Result AudioFile :=
  match rejects audio !! key with
  | Some e => Raise e
  | None => Ok (set_tags (<[key := [value]]> (tags audio)) audio)
  end.

(** [key in audio]. *)
Definition contains (key : string) (audio : AudioFile) : bool :=
  bool_decide (is_Some (tags audio !! key)).

(** [del audio[key]]. *)
Definition delitem (key : string) (audio : AudioFile) : AudioFile :=
  set_tags (delete key (tags audio)) audio.

(** The scalar tags stored at a path, if it holds an audio file. *)
Definition stored_tags (w : World) (path : string) : option (gmap string (list string)) :=
  match files w !! path with
  | Some (Audio f) => Some (tags f)
  | _ => None
  end.

(** The stored value of one key. *)
Definition stored_tag (w : World) (path key : string) : option (list string) :=
  t ← stored_tags w path; t !! key.

Definition persist (path : string) (audio : AudioFile) (w : World) : World :=
  {| files := <[path := Audio audio]> (files w); writes := writes w ++ [path] |}.

(** [audio.save()] on an object opened with [easy=True]. *)
Definition save (path : string) (audio : AudioFile) (w : World) : Result World :=
  match save_error audio with
  | Some e => Raise e
  | None => Ok (persist path audio w)
  end.

(** [audio.save()] on an object opened with [easy=False]. *)
Definition save_raw (path : string) (audio : AudioFile) (w : World) : Result World :=
  match raw_save_error audio with
  | Some e => Raise e
  | None => Ok (persist path audio w)
  end.

(** ** The raw interface *)

(** The picture operations exist on one container each.  On another
    container the call fails (an [AttributeError] or a [TypeError] whose
    text depends on the library's classes); the text is not modelled. *)
Definition unsupported : string := "operation not supported by this container".

(** [audio.tags.delall('APIC')].  The call needs [audio.tags]: an MP3 file
    without any ID3 tag has none and the call fails there, a state that
    [Art] does not distinguish. *)
Definition delall_APIC (a : Art) : Result Art :=
  match a with
  | ID3 _ => Ok (ID3 ∅)
  | _ => Raise unsupported
  end.

(** [audio.tags.add(frame)] for an [APIC] frame. *)
Definition add_APIC (p : Picture) (a : Art) : Result Art :=
  match a with
  | ID3 fr => Ok (ID3 (<[pic_desc p := p]> fr))
  | _ => Raise unsupported
  end.

(** [audio.clear_pictures()] *)
Definition clear_pictures (a : Art) : Result Art :=
  match a with
  | FLAC _ => Ok (FLAC [])
  | _ => Raise unsupported
  end.

(** [audio.add_picture(pic)].  The library cannot encode a picture whose
    MIME type is [None] and raises there; the statements about written
    pictures take a MIME type. *)
Definition add_picture (p : Picture) (a : Art) : Result Art :=
  match a with
  | FLAC ps => Ok (FLAC (ps ++ [p]))
  | _ => Raise unsupported
  end.

(** [audio.tags['covr'] = covers] *)
Definition set_covr (covers : list MP4Cover) (a : Art) : Result Art :=
  match a with
  | MP4 _ => Ok (MP4 (Some covers))
  | _ => Raise unsupported
  end.

(** ['covr' in audio.tags] *)
Definition has_covr (a : Art) : Result bool :=
  match a with
  | MP4 c => Ok (bool_decide (is_Some c))
  | _ => Raise unsupported
  end.

(** [del audio.tags['covr']] *)
Definition del_covr (a : Art) : Result Art :=
  match a with
  | MP4 _ => Ok (MP4 None)
  | _ => Raise unsupported
  end.

(** [audio.pop("metadata_block_picture", None)] *)
Definition pop_metadata_block_picture (a : Art) : Result Art :=
  match a with
  | OggVorbis _ => Ok (OggVorbis None)
  | _ => Raise unsupported
  end.

(** [audio['metadata_block_picture'] = [base64(pic.write())]]: a Vorbis
    comment, kept here apart from the scalar tags; [pic.write()] needs a
    MIME type, as for [add_picture]. *)
Definition set_metadata_block_picture (p : Picture) (a : Art) : Result Art :=
  match a with
  | OggVorbis _ => Ok (OggVorbis (Some [p]))
  | _ => Raise unsupported
  end.

(** [key in audio_raw] for the two keys the reader asks for.  Vorbis
    comments (FLAC, Ogg) are one dictionary with case-insensitive keys:
    there the question is answered by the scalar tags. *)
Definition contains_raw (key : string) (f : AudioFile) : bool :=
  match art f with
  | ID3 fr => if String.eqb key "APIC:" then bool_decide (is_Some (fr !! EmptyString)) else false
  | MP4 c => if String.eqb key "covr" then bool_decide (is_Some c) else false
  | FLAC _ | OggVorbis _ => bool_decide (is_Some (tags f !! Py.lower key))
  end.

(** What the reader's [artwork] variable can be bound to: picture bytes,
    or the text of a Vorbis comment. *)
Inductive Artwork : Type :=
| Data (b : bytes)
| Text (s : string).

Definition none_has_no (attr : string) : string :=
  "'NoneType' object has no attribute " +:+ key_error attr.

(** [audio_raw.get('APIC:').data] *)
Definition get_APIC_data (f : AudioFile) : Result Artwork :=
  match art f with
  | ID3 fr =>
      match fr !! EmptyString with
      | Some p => Ok (Data (pic_data p))
      | None => Raise (none_has_no "data")
      end
  | MP4 _ => Raise (none_has_no "data")
  | FLAC _ | OggVorbis _ =>
      match tags f !! "apic:" with
      | Some _ => Raise "'list' object has no attribute 'data'"
      | None => Raise (none_has_no "data")
      end
  end.

(** [audio_raw.get('covr')[0]] *)
Definition get_covr_0 (f : AudioFile) : Result Artwork :=
  match art f with
  | MP4 (Some c) => x ← Py.index c 0; Ok (Data (cover_data x))
  | MP4 None | ID3 _ => Raise "'NoneType' object is not subscriptable"
  | FLAC _ | OggVorbis _ =>
      match tags f !! "covr" with
      | Some l => x ← Py.index l 0; Ok (Text x)
      | None => Raise "'NoneType' object is not subscriptable"
      end
  end.

(** [audio_raw.pictures]: an attribute of FLAC files only. *)
Definition pictures_of (f : AudioFile) : Result (list Picture) :=
  match art f with
  | FLAC ps => Ok ps
  | ID3 _ => Raise "'MP3' object has no attribute 'pictures'"
  | MP4 _ => Raise "'MP4' object has no attribute 'pictures'"
  | OggVorbis _ => Raise "'OggVorbis' object has no attribute 'pictures'"
  end.

(** The art stored at a path, if it holds an audio file. *)
Definition stored_art (w : World) (path : string) : option Art :=
  match files w !! path with
  | Some (Audio f) => Some (art f)
  | _ => None
  end.

(** The embedded pictures of a file, whatever the container. *)
Definition embedded (a : Art) : list bytes :=
  match a with
  | ID3 fr => pic_data <$> (map_to_list fr).*2
  | FLAC ps => pic_data <$> ps
  | MP4 c => cover_data <$> default [] c
  | OggVorbis m => pic_data <$> default [] m
  end.

End Mutagen.

Export Mutagen.

(** The four lines both editors run for a field that is applied
    ([Metagify.py] 254-257, [Metatag.py] 734-737):
    [if value: audio[key] = value] / [elif key in audio: del audio[key]]. *)
Definition write_field (key value : string) (audio : AudioFile) : Result AudioFile :=
  if negb (String.eqb value "") then setitem key value audio
  else if contains key audio then Ok (delitem key audio)
  else Ok audio.

(** [audio.get(key, [dflt])[0]] on an object opened with [easy=True]. *)
Definition get_first (key dflt : string) (audio : AudioFile) : Result string :=
  Py.index (default [dflt] (tags audio !! key)) 0.

(* ===================================================================== *)
(** * The release description returned by the MusicBrainz client *)
(* ===================================================================== *)

(** The nested dictionaries of [musicbrainzngs.get_release_by_id], one
    optional field per key the code reads. *)
Module MusicBrainz.

Record Recording : Type := { rec_title : option string }.

Record Track : Type := {
  number : option Scalar;
  recording : option Recording;
  track_credit : option string;      (* 'artist-credit-phrase' *)
}.

Record Medium : Type := {
  track_list : option (list Track);  (* 'track-list' *)
  track_count : option Scalar;       (* 'track-count' *)
}.

Record Release : Type := {
  medium_list : option (list Medium);  (* 'medium-list' *)
  artist_credit_phrase : option string;
  title : option string;
  date : option string;
}.

(** [release['medium-list'][0]] *)
Definition first_medium (release : Release) : Result Medium :=
  ml ← getitem "medium-list" (medium_list release);
  Py.index ml 0.

(** [release['medium-list'][0]['track-list']] *)
Definition track_list_of (release : Release) : Result (list Track) :=
  m ← first_medium release;
  getitem "track-list" (track_list m).

(** [track_info['recording']['title']] *)
Definition recording_title (track_info : Track) : Result string :=
  r ← getitem "recording" (recording track_info);
  getitem "title" (rec_title r).

End MusicBrainz.

Export MusicBrainz.

(* ===================================================================== *)
(** * Metagify.py *)
(* ===================================================================== *)

Module Metagify.

Definition TAG_MAP : list (string * string) := [
  ("Title", "title");
  ("Artist", "artist");
  ("Album", "album");
  ("Album Artist", "albumartist");
  ("Year", "date");
  ("Genre", "genre");
  ("Track Number", "tracknumber");
  ("Composer", "composer");
  ("Producer", "producer");
  ("Copyright", "copyright");
  ("Comment", "comment");
  ("BPM", "bpm");
  ("ISRC", "isrc");
  ("Catalog Number", "catalognumber")
].

(** [TAG_MAP[tag_display]] *)
Definition TAG_MAP_item (tag_display : string) : Result string :=
  getitem tag_display ((list_to_map TAG_MAP : gmap string string) !! tag_display).

(** The dictionary handed to [processing_finished]. *)
Record Report : Type := {
  saved_count : nat;
  total_files : nat;
  errors : list string;
}.

(** The signals a [FileProcessor] method emits: every
    [processing_progress], the [processing_error] if any, and the one
    [processing_finished]. *)
Record Emitted : Type := {
  processing_progress : list (nat * nat);
  processing_error : option string;
  processing_finished : Report;
}.

(** The accumulators of the per-file loops. *)
Record Loop : Type := {
  world : World;
  count : nat;
  errs : list string;
  progress : list (nat * nat);
}.

Definition is_empty (b : bytes) : bool :=
  match b with
  | [] => true
  | _ => false
  end.

(** The picture every writer builds: front cover, description 'Cover'. *)
Definition cover (art_mime : option string) (art_data : bytes) : Picture :=
  {| pic_type := 3; pic_mime := art_mime; pic_desc := "Cover"; pic_data := art_data |}.

(** The branch on the extension inside [_save_album_art_to_file]. *)
Definition rewrite_pictures (ext : string) (delete_art : bool)
    (art_data : bytes) (art_mime : option string) (a : Art) : Result Art :=
  if String.eqb ext ".mp3" then
    a ← delall_APIC a;
    if negb delete_art then add_APIC (cover art_mime art_data) a else Ok a
  else if String.eqb ext ".flac" then
    a ← clear_pictures a;
    if negb delete_art then add_picture (cover art_mime art_data) a else Ok a
  else if String.eqb ext ".m4a" then
    let image_format := if bool_decide (art_mime = Some "image/png") then 14 else 13 in
    a ← set_covr [] a;
    if negb delete_art
    then set_covr [ {| cover_data := art_data; imageformat := image_format |} ] a
    else Ok a
  else if String.eqb ext ".ogg" then
    a ← pop_metadata_block_picture a;
    if negb delete_art then set_metadata_block_picture (cover art_mime art_data) a else Ok a
  else Ok a.

(** [FileProcessor._save_album_art_to_file] *)
Definition _save_album_art_to_file (file_path : string) (art_data : bytes)
    (art_mime : option string) (w : World) : World * Result unit :=
  match File w file_path with
  | Raise e => (w, Raise e)
  | Ok None => (w, Ok ())
  | Ok (Some audio) =>
      let delete_art := is_empty art_data in
      let ext := Py.lower (splitext_ext file_path) in
      match (a ← rewrite_pictures ext delete_art art_data art_mime (art audio);
             save_raw file_path (set_art a audio) w) with
      | Ok w' => (w', Ok ())
      | Raise e => (w, Raise ("Failed to save album art: " +:+ e))
      end
  end.

(** The loop over [tags_to_save.items()] in [process_and_save]. *)
Fixpoint save_tags (tags_to_save : list (string * string)) (audio : AudioFile)
    : Result AudioFile :=
  match tags_to_save with
  | [] => Ok audio
  | (tag_display, value) :: rest =>
      key ← TAG_MAP_item tag_display;
      audio ← write_field key value audio;
      save_tags rest audio
  end.

Section FileProcessor.

(** [stop_requested i] is the value of [self.stop_requested] that the
    loop reads at the top of iteration [i]; the flag is written by
    [closeEvent] only. *)
Variable stop_requested : nat → bool.

(** [QPixmap.loadFromData], [scaled(500, 500, KeepAspectRatio,
    SmoothTransformation)] and [save(buffer, format)]: the resized
    image, as bytes. *)
Variable scaled_500 : bytes → string → bytes.

(** The [try] body of [process_and_save] for one file. *)
Definition save_file (tags_to_save : list (string * string))
    (art_data : option bytes) (art_mime : option string)
    (path : string) (w : World) : World * Result unit :=
  match File w path with
  | Raise e => (w, Raise e)
  | Ok None => (w, Raise "File could not be opened by mutagen.")
  | Ok (Some audio) =>
      match (audio ← save_tags tags_to_save audio; save path audio w) with
      | Raise e => (w, Raise e)
      | Ok w1 =>
          match art_data with
          | Some data => _save_album_art_to_file path data art_mime w1
          | None => (w1, Ok ())
          end
      end
  end.

(** One iteration of the loop of [process_and_save], after the stop
    check. *)
Definition save_step (total : nat) (tags_to_save : list (string * string))
    (art_data : option bytes) (art_mime : option string)
    (i : nat) (path : string) (st : Loop) : Loop :=
  let '(w, r) := save_file tags_to_save art_data art_mime path (world st) in
  {| world := w;
     count := match r with Ok _ => count st + 1 | Raise _ => count st end;
     errs := match r with
             | Ok _ => errs st
             | Raise e => errs st ++ ["Error saving " +:+ basename path +:+ ": " +:+ e]
             end;
     progress := progress st ++ [(i + 1, total)] |}.

(** [for i, path in enumerate(file_paths)] of [process_and_save]. *)
Fixpoint save_loop (total : nat) (tags_to_save : list (string * string))
    (art_data : option bytes) (art_mime : option string)
    (i : nat) (file_paths : list string) (st : Loop) : Loop :=
  match file_paths with
  | [] => st
  | path :: rest =>
      if stop_requested i then st
      else save_loop total tags_to_save art_data art_mime (S i) rest
             (save_step total tags_to_save art_data art_mime i path st)
  end.

Definition finish (total : nat) (failure : option string) (st : Loop) : World * Emitted :=
  (world st,
   {| processing_progress := progress st;
      processing_error := failure;
      processing_finished :=
        {| saved_count := count st; total_files := total; errors := errs st |} |}).

(** [FileProcessor.process_and_save] *)
Definition process_and_save (file_paths : list string)
    (tags_to_save : list (string * string))
    (art_data : option bytes) (art_mime : option string)
    (w : World) : World * Emitted :=
  let total := length file_paths in
  finish total None
    (save_loop total tags_to_save art_data art_mime 0 file_paths
       {| world := w; count := 0; errs := []; progress := [(0, total)] |}).

(** What [process_and_save_musicbrainz] computes before its loop. *)
Record Derived : Type := {
  tracks : list Track;
  album_artist : string;
  album_title : string;
  year : string;
  total_tracks : Scalar;
  resized_art_data : option bytes;
}.

(** [art_mime.split('/')[1].upper()] *)
Definition image_format_of (art_mime : option string) : Result string :=
  match art_mime with
  | None => Raise "'NoneType' object has no attribute 'split'"
  | Some m => f ← Py.index (Py.split slash m) 1; Ok (Py.upper f)
  end.

(** [release_data.get('date', '').split('-')[0]] *)
Definition year_of (release_data : Release) : Result string :=
  Py.index (Py.split "-" (default EmptyString (date release_data))) 0.

Definition derive (release_data : Release) (art_data : option bytes)
    (art_mime : option string) : Result Derived :=
  m ← first_medium release_data;
  tracks ← getitem "track-list" (track_list m);
  album_artist ← getitem "artist-credit-phrase" (artist_credit_phrase release_data);
  album_title ← getitem "title" (title release_data);
  date ← year_of release_data;
  m' ← first_medium release_data;
  let total_tracks := default (Int (Z.of_nat (length tracks))) (track_count m') in
  resized ← match art_data with
            | Some data =>
                if is_empty data then Ok None
                else f ← image_format_of art_mime; Ok (Some (scaled_500 data f))
            | None => Ok None
            end;
  Ok {| tracks := tracks; album_artist := album_artist; album_title := album_title;
        year := date; total_tracks := total_tracks; resized_art_data := resized |}.

(** The outcome of the inner [try] for one file: [continue] on a file
    the library does not recognise, success, or an exception. *)
Inductive Step : Type :=
| Skipped
| Applied
| Failed (e : string).

(** The assignments of one track to the opened file. *)
Definition assign_track (d : Derived) (i : nat) (audio : AudioFile) : Result AudioFile :=
  track_info ← Py.index (tracks d) i;
  track_num ← getitem "number" (number track_info);
  t ← recording_title track_info;
  audio ← setitem "title" t audio;
  audio ← setitem "artist" (default (album_artist d) (track_credit track_info)) audio;
  audio ← setitem "albumartist" (album_artist d) audio;
  audio ← setitem "album" (album_title d) audio;
  audio ← setitem "date" (year d) audio;
  setitem "tracknumber" (Py.format track_num +:+ "/" +:+ Py.format (total_tracks d)) audio.

(** The inner [try] body of [process_and_save_musicbrainz]. *)
Definition apply_file (d : Derived) (art_mime : option string)
    (i : nat) (path : string) (w : World) : World * Step :=
  match File w path with
  | Raise e => (w, Failed e)
  | Ok None => (w, Skipped)
  | Ok (Some audio) =>
      match (audio ← assign_track d i audio; save path audio w) with
      | Raise e => (w, Failed e)
      | Ok w1 =>
          match resized_art_data d with
          | Some data =>
              if is_empty data then (w1, Applied)
              else match _save_album_art_to_file path data art_mime w1 with
                   | (w2, Ok _) => (w2, Applied)
                   | (w2, Raise e) => (w2, Failed e)
                   end
          | None => (w1, Applied)
          end
      end
  end.

Definition apply_step (total : nat) (d : Derived) (art_mime : option string)
    (i : nat) (path : string) (st : Loop) : Loop :=
  let '(w, r) := apply_file d art_mime i path (world st) in
  {| world := w;
     count := match r with Applied => count st + 1 | _ => count st end;
     errs := match r with
             | Failed e =>
                 errs st ++ ["Error applying data to " +:+ basename path +:+ ": " +:+ e]
             | _ => errs st
             end;
     progress := match r with
                 | Skipped => progress st
                 | _ => progress st ++ [(i + 1, total)]
                 end |}.

(** [for i, path in enumerate(file_paths)] of
    [process_and_save_musicbrainz]. *)
Fixpoint apply_loop (total : nat) (d : Derived) (art_mime : option string)
    (i : nat) (file_paths : list string) (st : Loop) : Loop :=
  match file_paths with
  | [] => st
  | path :: rest =>
      if stop_requested i then st
      else apply_loop total d art_mime (S i) rest
             (apply_step total d art_mime i path st)
  end.

(** [FileProcessor.process_and_save_musicbrainz] *)
Definition process_and_save_musicbrainz (file_paths : list string)
    (release_data : Release) (art_data : option bytes)
    (art_mime : option string) (w : World) : World * Emitted :=
  let total := length file_paths in
  let st := {| world := w; count := 0; errs := []; progress := [(0, total)] |} in
  match derive release_data art_data art_mime with
  | Ok d => finish total None (apply_loop total d art_mime 0 file_paths st)
  | Raise e =>
      finish total (Some ("MusicBrainz application failed: " +:+ e))
        {| world := w; count := 0;
           errs := ["MusicBrainz data application failed: " +:+ e];
           progress := [(0, total)] |}
  end.

(** ** The main window *)

(** [Metagify.load_album_art] up to the choice of [artwork]. *)
Definition find_artwork (audio_raw : AudioFile) : Result (option Artwork) :=
  if contains_raw "APIC:" audio_raw then
    a ← get_APIC_data audio_raw; Ok (Some a)
  else if contains_raw "covr" audio_raw then
    a ← get_covr_0 audio_raw; Ok (Some a)
  else
    ps ← pictures_of audio_raw;
    match ps with
    | p :: _ => Ok (Some (Data (pic_data p)))
    | [] => Ok None
    end.

(** What [album_art_label] shows after [load_album_art]: the pixmap
    decoded from the artwork bytes, "No Album Art", or "Error Loading
    Art" (the text sent to the status bar is not kept). *)
Inductive AlbumArtLabel : Type :=
| Pixmap (artwork : bytes)
| NoAlbumArt
| ErrorLoadingArt.

(** [Metagify.load_album_art].  [QPixmap.loadFromData] takes bytes: a
    non-empty [str] makes it raise. *)
Definition load_album_art (w : World) (path : string) : AlbumArtLabel :=
  match (r ← File w path;
         match r with
         | None => Raise "Could not load the file."
         | Some audio_raw => find_artwork audio_raw
         end) with
  | Ok (Some (Data b)) => if is_empty b then NoAlbumArt else Pixmap b
  | Ok (Some (Text s)) => if String.eqb s "" then NoAlbumArt else ErrorLoadingArt
  | Ok None => NoAlbumArt
  | Raise _ => ErrorLoadingArt
  end.

(** The widgets [save_metadata] reads: the selection of the file list,
    the line edit and the check box of every [TAG_MAP] entry (both
    dictionaries are filled by one loop over [TAG_MAP.items()]), and the
    pending album art. *)
Record Editor : Type := {
  selectedItems : list string;
  text : string → string;
  isChecked : string → bool;
  current_art_data : option bytes;
  current_art_mime : option string;
  art_is_dirty : bool;
}.

(** The dictionary [tags_to_save] built by [save_metadata], in
    insertion order. *)
Definition collect_tags (ui : Editor) (is_batch_mode : bool) : list (string * string) :=
  if is_batch_mode then
    (λ tag_display, (tag_display, text ui tag_display))
      <$> filter (λ tag_display, isChecked ui tag_display = true) (TAG_MAP.*1)
  else
    (λ tag_display, (tag_display, text ui tag_display)) <$> TAG_MAP.*1.

(** [Metagify.save_metadata]: nothing happens on an empty selection. *)
Definition save_metadata (ui : Editor) (w : World) : World * option Emitted :=
  let selected_paths := selectedItems ui in
  match selected_paths with
  | [] => (w, None)
  | _ =>
      let is_batch_mode := bool_decide (1 < length selected_paths) in
      let tags_to_save := collect_tags ui is_batch_mode in
      let art_data := if art_is_dirty ui then current_art_data ui else None in
      let art_mime := if art_is_dirty ui then current_art_mime ui else None in
      let '(w', e) := process_and_save selected_paths tags_to_save art_data art_mime w in
      (w', Some e)
  end.

(** How [apply_musicbrainz_data] ends: with the "Track Mismatch" warning
    box, or with the signals of the worker. *)
Inductive Outcome : Type :=
| TrackMismatch (warning : string)
| Processed (e : Emitted).

Definition mismatch_warning (selected expected : nat) : string :=
  "You selected " +:+ pretty selected
  +:+ " files, but the MusicBrainz release has " +:+ pretty expected
  +:+ " tracks. Please select the correct number of files and ensure they are sorted by track number.".

(** [Metagify.apply_musicbrainz_data] on [data = (release, art_data,
    art_mime)] and the current selection.  An exception of the first
    lookup leaves the slot. *)
Definition apply_musicbrainz_data (release : Release) (art_data : option bytes)
    (art_mime : option string) (selected_paths : list string) (w : World)
    : World * Result Outcome :=
  match track_list_of release with
  | Raise e => (w, Raise e)
  | Ok tracks =>
      if negb (length selected_paths =? length tracks) then
        (w, Ok (TrackMismatch (mismatch_warning (length selected_paths) (length tracks))))
      else
        let selected_paths := Py.sort_by basename selected_paths in
        let '(w', e) :=
          process_and_save_musicbrainz selected_paths release art_data art_mime w in
        (w', Ok (Processed e))
  end.

End FileProcessor.

(** ** The editor panel *)

(** Of the widgets of the panel the model keeps the line edits, the check
    boxes and the pending album art; visibility, placeholder texts, the
    title label and the album art label are not kept. *)

(** [self.fields[tag_display].setText(s)] *)
Definition setText (tag_display s : string) (ui : Editor) : Editor :=
  {| selectedItems := selectedItems ui;
     text := λ t, if String.eqb t tag_display then s else text ui t;
     isChecked := isChecked ui;
     current_art_data := current_art_data ui;
     current_art_mime := current_art_mime ui;
     art_is_dirty := art_is_dirty ui |}.

(** [self.checkboxes[tag_display].setChecked(b)] *)
Definition setChecked (tag_display : string) (b : bool) (ui : Editor) : Editor :=
  {| selectedItems := selectedItems ui;
     text := text ui;
     isChecked := λ t, if String.eqb t tag_display then b else isChecked ui t;
     current_art_data := current_art_data ui;
     current_art_mime := current_art_mime ui;
     art_is_dirty := art_is_dirty ui |}.

(** [self.art_is_dirty = False; self.current_art_data = None;
    self.current_art_mime = None] *)
Definition forget_art (ui : Editor) : Editor :=
  {| selectedItems := selectedItems ui;
     text := text ui;
     isChecked := isChecked ui;
     current_art_data := None;
     current_art_mime := None;
     art_is_dirty := false |}.

(** [for display_name, key in TAG_MAP.items()] of
    [update_editor_for_single]; an exception leaves the loop with the
    fields set so far. *)
Fixpoint load_fields (entries : list (string * string)) (audio : AudioFile)
    (ui : Editor) : Editor * Result unit :=
  match entries with
  | [] => (ui, Ok ())
  | (display_name, key) :: rest =>
      if contains key audio then
        match get_first key "" audio with
        | Ok v => load_fields rest audio (setText display_name v ui)
        | Raise e => (ui, Raise e)
        end
      else load_fields rest audio (setText display_name "" ui)
  end.

(** [Metagify.update_editor_for_single]: the editor, and the text sent to
    the status bar when the file cannot be read.  The call of
    [load_album_art] that ends the [try] body sets the album art label
    only. *)
Definition update_editor_for_single (path : string) (ui : Editor) (w : World)
    : Editor * option string :=
  if String.eqb path "" then (ui, None)
  else
    let could_not_read e :=
      Some ("Could not read file: " +:+ basename path +:+ " - " +:+ e) in
    match File w path with
    | Raise e => (ui, could_not_read e)
    | Ok None => (ui, could_not_read "Could not load audio file with mutagen.")
    | Ok (Some audio) =>
        match load_fields TAG_MAP audio ui with
        | (ui, Ok _) => (ui, None)
        | (ui, Raise e) => (ui, could_not_read e)
        end
    end.

(** [Metagify.update_editor_for_batch] *)
Definition update_editor_for_batch (count : nat) (ui : Editor) : Editor :=
  foldl (λ ui tag_name, setText tag_name "" (setChecked tag_name false ui)) ui (TAG_MAP.*1).

(** [Metagify.on_selection_changed], reading the selection of the file
    list from [selectedItems ui]. *)
Definition on_selection_changed (ui : Editor) (w : World) : Editor * option string :=
  match selectedItems ui with
  | [] => (ui, None)
  | [path] => update_editor_for_single path (forget_art ui) w
  | _ => (update_editor_for_batch (length (selectedItems ui)) (forget_art ui), None)
  end.

(** ** The file list *)

(** Of the file list the model keeps [self.file_paths]; the rows of the
    list widget are not kept. *)

Definition VALID_AUDIO_EXTENSIONS : list string := [".mp3"; ".flac"; ".m4a"; ".ogg"].

(** [f.lower().endswith(VALID_AUDIO_EXTENSIONS)] *)
Definition has_valid_extension (f : string) : bool :=
  existsb (Py.endswith (Py.lower f)) VALID_AUDIO_EXTENSIONS.

(** The list comprehension [new_files] of [add_files_to_list]. *)
Definition new_files (file_paths files : list string) : list string :=
  filter (λ f, has_valid_extension f = true ∧ f ∉ file_paths) files.

(** The dictionaries [_load_files_in_thread] returns. *)
Inductive Loaded : Type :=
| Entry (path title artist : string)
| LoadError (path error : string).

(** The [try] of [_load_files_in_thread] for one file. *)
Definition load_file (w : World) (file_path : string) : Loaded :=
  match (r ← File w file_path;
         match r with
         | None => Raise "Could not open file with mutagen."
         | Some audio =>
             title ← get_first "title" "" audio;
             artist ← get_first "artist" "" audio;
             Ok (title, artist)
         end) with
  | Ok (title, artist) => Entry file_path title artist
  | Raise e => LoadError file_path e
  end.

(** [Metagify._load_files_in_thread]: the results and the progress
    signals. *)
Definition _load_files_in_thread (w : World) (file_paths : list string)
    : list Loaded * list (nat * nat) :=
  (load_file w <$> file_paths,
   (λ i, (i + 1, length file_paths)) <$> seq 0 (length file_paths)).

(** [Metagify.on_files_loaded]: [self.file_paths] after the loop. *)
Fixpoint on_files_loaded (results : list Loaded) (file_paths : list string) : list string :=
  match results with
  | [] => file_paths
  | Entry path _ _ :: rest => on_files_loaded rest (file_paths ++ [path])
  | LoadError _ _ :: rest => on_files_loaded rest file_paths
  end.

(** [Metagify.add_files_to_list] followed by the thread it starts and the
    slot the thread's result is delivered to, on the files of [w]. *)
Definition add_files_to_list (files : list string) (file_paths : list string) (w : World)
    : list string :=
  match new_files file_paths files with
  | [] => file_paths
  | new => on_files_loaded (_load_files_in_thread w new).1 file_paths
  end.

(** [Metagify.on_item_moved] on [self.file_paths]; the rows are not
    negative. *)
Definition on_item_moved (source_row target_row : nat) (file_paths : list string)
    : Result (list string) :=
  if negb (source_row =? target_row) then
    '(item_data, file_paths) ← Py.pop source_row file_paths;
    Ok (Py.insert_at target_row item_data file_paths)
  else Ok file_paths.

(** [Metagify.remove_selected_files] on [self.file_paths];
    [paths_to_remove] are the paths of the selected rows and [reply] tells
    whether the question was answered with Yes. *)
Definition remove_selected_files (paths_to_remove : list string) (reply : bool)
    (file_paths : list string) : list string :=
  match paths_to_remove with
  | [] => file_paths
  | _ =>
      if reply then
        foldl (λ file_paths path,
                 if bool_decide (path ∈ file_paths) then Py.remove_first path file_paths
                 else file_paths)
              file_paths paths_to_remove
      else file_paths
  end.

(** ** The contact address *)

(** [get_or_request_contact_email] on the stored settings; [answer] is
    what [QInputDialog.getText] returns, the text and whether the dialog
    was accepted. *)
Definition get_or_request_contact_email (settings : gmap string string)
    (answer : string * bool) : gmap string string * option string :=
  let saved_email := default "" (settings !! "userContactEmail") in
  if negb (String.eqb saved_email "") then (settings, Some saved_email)
  else
    let '(email, ok) := answer in
    if ok && negb (String.eqb email "") && Py.contains "@" email then
      (<["userContactEmail" := email]> settings, Some email)
    else (settings, None).

End Metagify.

(* ===================================================================== *)
(** * Metatag.py *)
(* ===================================================================== *)

(** The earlier editor works on table rows in the window's own thread.  The
    model takes the paths [self.files_data[row]['path']] of the selected
    rows, in the order in which the code visits them, and keeps the texts
    sent to the status bar. *)
Module Metatag.

Definition tags_to_edit : list string :=
  ["Title"; "Artist"; "Album"; "Album Artist"; "Genre"; "Year"; "Track"; "Comment"].

(** [Metatag.get_mutagen_key] *)
Definition get_mutagen_key (tag_name : string) : string :=
  default (Py.lower tag_name)
    ((list_to_map [("Title", "title"); ("Artist", "artist"); ("Album", "album");
                   ("Album Artist", "albumartist"); ("Genre", "genre");
                   ("Year", "date"); ("Track", "tracknumber");
                   ("Comment", "comment")] : gmap string string) !! tag_name).

Definition is_empty (b : bytes) : bool :=
  match b with
  | [] => true
  | _ => false
  end.

Definition cover (art_data : bytes) : Picture :=
  {| pic_type := 3; pic_mime := Some "image/jpeg"; pic_desc := "Cover";
     pic_data := art_data |}.

(** The branch on the file name inside [save_album_art_to_file]. *)
Definition rewrite_pictures (file_path : string) (delete_art : bool)
    (art_data : bytes) (a : Art) : Result Art :=
  if Py.endswith (Py.lower file_path) ".mp3" then
    a ← delall_APIC a;
    if negb delete_art then add_APIC (cover art_data) a else Ok a
  else if Py.endswith (Py.lower file_path) ".flac" then
    a ← clear_pictures a;
    if negb delete_art then add_picture (cover art_data) a else Ok a
  else if Py.endswith (Py.lower file_path) ".m4a" then
    present ← has_covr a;
    a ← (if (present : bool) then del_covr a else Ok a);
    if negb delete_art
    then set_covr [ {| cover_data := art_data; imageformat := 13 |} ] a
    else Ok a
  else Ok a.

(** [Metatag.save_album_art_to_file]: no [try] here, an exception goes to
    the caller as it is. *)
Definition save_album_art_to_file (file_path : string) (art_data : bytes)
    (w : World) : World * Result unit :=
  match File w file_path with
  | Raise e => (w, Raise e)
  | Ok None => (w, Ok ())
  | Ok (Some audio) =>
      let delete_art := is_empty art_data in
      match (a ← rewrite_pictures file_path delete_art art_data (art audio);
             save_raw file_path (set_art a audio) w) with
      | Ok w' => (w', Ok ())
      | Raise e => (w, Raise e)
      end
  end.

(** The widgets read by [save_metadata].  [art_is_dirty] is only ever set
    together with [current_art_data]. *)
Record Editor : Type := {
  selected : list string;
  text : string → string;
  isChecked : string → bool;
  current_art_data : option bytes;
  art_is_dirty : bool;
}.

(** The loop over [self.fields.items()] in [save_metadata]. *)
Fixpoint save_fields (ui : Editor) (is_single_mode : bool) (fields : list string)
    (audio : AudioFile) : Result AudioFile :=
  match fields with
  | [] => Ok audio
  | tag :: rest =>
      audio ← (if is_single_mode || isChecked ui tag then
                 let value := text ui tag in
                 let key := get_mutagen_key tag in
                 write_field key value audio
               else Ok audio);
      save_fields ui is_single_mode rest audio
  end.

(** The outcome of one [try]: [continue], success or an exception. *)
Inductive Step : Type :=
| Skipped
| Saved
| Failed (e : string).

(** The [try] body of [save_metadata] for one row.  The refresh of the
    table row ([update_table_row], [mark_row_as_dirty]) that ends the body
    changes cell texts only and is left out. *)
Definition save_row (ui : Editor) (is_single_mode : bool) (path : string)
    (w : World) : World * Step :=
  match File w path with
  | Raise e => (w, Failed e)
  | Ok None => (w, Skipped)
  | Ok (Some audio) =>
      match (audio ← save_fields ui is_single_mode tags_to_edit audio;
             save path audio w) with
      | Raise e => (w, Failed e)
      | Ok w1 =>
          match (if is_single_mode && art_is_dirty ui then current_art_data ui else None) with
          | Some data =>
              match save_album_art_to_file path data w1 with
              | (w2, Ok _) => (w2, Saved)
              | (w2, Raise e) => (w2, Failed e)
              end
          | None => (w1, Saved)
          end
      end
  end.

(** [for i, row in enumerate(selected_rows)] of [save_metadata]: the world
    and the status bar texts. *)
Fixpoint save_rows (ui : Editor) (is_single_mode : bool) (paths : list string)
    (w : World) (status : list string) : World * list string :=
  match paths with
  | [] => (w, status)
  | path :: rest =>
      let '(w', r) := save_row ui is_single_mode path w in
      save_rows ui is_single_mode rest w'
        match r with
        | Failed e => status ++ ["Error saving " +:+ basename path +:+ ": " +:+ e]
        | _ => status
        end
  end.

(** [Metatag.save_metadata] *)
Definition save_metadata (ui : Editor) (w : World) : World * list string :=
  match selected ui with
  | [] => (w, [])
  | _ =>
      let is_single_mode := length (selected ui) =? 1 in
      let '(w', status) := save_rows ui is_single_mode (selected ui) w [] in
      (w', status ++ ["Save complete!"])
  end.

(** How [apply_musicbrainz_data] ends. *)
Inductive Outcome : Type :=
| TrackMismatch (warning : string)
| Finished (status : list string).

Definition mismatch_warning (selected expected : nat) : string :=
  "You selected " +:+ pretty selected +:+ " files, but the release has "
  +:+ pretty expected +:+ " tracks.".

(** [release['date'].split('-')[0] if 'date' in release else ''] *)
Definition year_of (release : Release) : Result string :=
  match date release with
  | Some d => Py.index (Py.split "-" d) 0
  | None => Ok EmptyString
  end.

Record Derived : Type := {
  tracks : list Track;
  album_artist : string;
  album_title : string;
  year : string;
  total_tracks : Scalar;
}.

Definition derive (release : Release) (tracks : list Track) : Result Derived :=
  album_artist ← getitem "artist-credit-phrase" (artist_credit_phrase release);
  album_title ← getitem "title" (title release);
  date ← year_of release;
  m ← first_medium release;
  Ok {| tracks := tracks; album_artist := album_artist; album_title := album_title;
        year := date;
        total_tracks := default (Int (Z.of_nat (length tracks))) (track_count m) |}.

Definition assign_track (d : Derived) (i : nat) (audio : AudioFile) : Result AudioFile :=
  track_info ← Py.index (tracks d) i;
  track_num ← getitem "number" (number track_info);
  t ← recording_title track_info;
  audio ← setitem "title" t audio;
  credit ← getitem "artist-credit-phrase" (track_credit track_info);
  audio ← setitem "artist" credit audio;
  audio ← setitem "albumartist" (album_artist d) audio;
  audio ← setitem "album" (album_title d) audio;
  audio ← setitem "date" (year d) audio;
  setitem "tracknumber" (Py.format track_num +:+ "/" +:+ Py.format (total_tracks d)) audio.

(** The [try] body of [apply_musicbrainz_data] for one row, without the
    refresh of the table row, as for [save_row]. *)
Definition apply_row (d : Derived) (art_data : option bytes) (i : nat)
    (path : string) (w : World) : World * Step :=
  match File w path with
  | Raise e => (w, Failed e)
  | Ok None => (w, Skipped)
  | Ok (Some audio) =>
      match (audio ← assign_track d i audio; save path audio w) with
      | Raise e => (w, Failed e)
      | Ok w1 =>
          match art_data with
          | Some data =>
              if is_empty data then (w1, Saved)
              else match save_album_art_to_file path data w1 with
                   | (w2, Ok _) => (w2, Saved)
                   | (w2, Raise e) => (w2, Failed e)
                   end
          | None => (w1, Saved)
          end
      end
  end.

Fixpoint apply_rows (d : Derived) (art_data : option bytes) (i : nat)
    (paths : list string) (w : World) (status : list string) : World * list string :=
  match paths with
  | [] => (w, status)
  | path :: rest =>
      let '(w', r) := apply_row d art_data i path w in
      apply_rows d art_data (S i) rest w'
        match r with
        | Failed e => status ++ ["Error applying to " +:+ basename path +:+ ": " +:+ e]
        | _ => status
        end
  end.

(** [Metatag.apply_musicbrainz_data] on [data = (release, art_data)] and
    the paths of the selected rows in row order.  The lookups before the
    loop are outside any [try]. *)
Definition apply_musicbrainz_data (release : Release) (art_data : option bytes)
    (selected_rows : list string) (w : World) : World * Result Outcome :=
  match track_list_of release with
  | Raise e => (w, Raise e)
  | Ok tracks =>
      if negb (length selected_rows =? length tracks) then
        (w, Ok (TrackMismatch (mismatch_warning (length selected_rows) (length tracks))))
      else
        match derive release tracks with
        | Raise e => (w, Raise e)
        | Ok d =>
            let '(w', status) := apply_rows d art_data 0 selected_rows w [] in
            (w', Ok (Finished
                       (status ++ ["Metadata for '" +:+ album_title d +:+ "' applied!"])))
        end
  end.

(** ** The editor panel *)

(** As for the later editor, the line edits, the check boxes and the
    pending album art are kept; visibility and labels are not. *)

(** [self.fields[tag].setText(s)] *)
Definition setText (tag s : string) (ui : Editor) : Editor :=
  {| selected := selected ui;
     text := λ t, if String.eqb t tag then s else text ui t;
     isChecked := isChecked ui;
     current_art_data := current_art_data ui;
     art_is_dirty := art_is_dirty ui |}.

(** [self.checkboxes[tag].setChecked(b)] *)
Definition setChecked (tag : string) (b : bool) (ui : Editor) : Editor :=
  {| selected := selected ui;
     text := text ui;
     isChecked := λ t, if String.eqb t tag then b else isChecked ui t;
     current_art_data := current_art_data ui;
     art_is_dirty := art_is_dirty ui |}.

(** [self.art_is_dirty = False; self.current_art_data = None] *)
Definition forget_art (ui : Editor) : Editor :=
  {| selected := selected ui;
     text := text ui;
     isChecked := isChecked ui;
     current_art_data := None;
     art_is_dirty := false |}.

(** The eight [setText] statements of [update_editor_for_single], in
    order: the field and the key it is read from. *)
Definition shown_fields : list (string * string) :=
  [("Title", "title"); ("Artist", "artist"); ("Album", "album");
   ("Album Artist", "albumartist"); ("Genre", "genre"); ("Year", "date");
   ("Track", "tracknumber"); ("Comment", "comment")].

Fixpoint load_fields (entries : list (string * string)) (audio : AudioFile)
    (ui : Editor) : Editor * Result unit :=
  match entries with
  | [] => (ui, Ok ())
  | (tag, key) :: rest =>
      match get_first key "" audio with
      | Ok v => load_fields rest audio (setText tag v ui)
      | Raise e => (ui, Raise e)
      end
  end.

(** [Metatag.update_editor_for_single] on the path of the row: the
    editor, and the text sent to the status bar when the file cannot be
    read.  The call of [load_album_art] that ends the [try] body sets the
    album art label only. *)
Definition update_editor_for_single (path : string) (ui : Editor) (w : World)
    : Editor * option string :=
  if String.eqb path "" then (ui, None)
  else
    let could_not_read e :=
      Some ("Could not read file: " +:+ basename path +:+ " - " +:+ e) in
    match File w path with
    | Raise e => (ui, could_not_read e)
    | Ok None => (ui, could_not_read "Could not load audio file.")
    | Ok (Some audio) =>
        match load_fields shown_fields audio ui with
        | (ui, Ok _) => (ui, None)
        | (ui, Raise e) => (ui, could_not_read e)
        end
    end.

(** [Metatag.update_editor_for_batch] *)
Definition update_editor_for_batch (count : nat) (ui : Editor) : Editor :=
  foldl (λ ui tag, setText tag "" (setChecked tag false ui)) ui tags_to_edit.

(** [Metatag.on_selection_changed], reading the paths of the selected rows
    from [selected ui]. *)
Definition on_selection_changed (ui : Editor) (w : World) : Editor * option string :=
  match selected ui with
  | [] => (ui, None)
  | [path] => update_editor_for_single path (forget_art ui) w
  | _ => (update_editor_for_batch (length (selected ui)) ui, None)
  end.

(** ** The file table *)

(** A row: the entry of [self.files_data] and the texts of the cells of
    columns 0 to 3; a cell is [None] until an item is set. *)
Record Row : Type := {
  path : string;
  dirty : bool;
  filename_item : option string;
  title_item : option string;
  artist_item : option string;
  album_item : option string;
}.

(** [f.lower().endswith(('.mp3', '.flac', '.m4a', '.ogg'))] *)
Definition valid_file (f : string) : bool :=
  existsb (Py.endswith (Py.lower f)) [".mp3"; ".flac"; ".m4a"; ".ogg"].

(** The row [add_files_to_table] appends for one file: the [try] sets the
    cells one after the other, and [except] overwrites column 0. *)
Definition read_row (w : World) (file_path : string) : Row :=
  let error_row title artist :=
    {| path := file_path; dirty := false;
       filename_item := Some ("Error reading: " +:+ basename file_path);
       title_item := title; artist_item := artist; album_item := None |} in
  match File w file_path with
  | Raise _ | Ok None => error_row None None
  | Ok (Some audio) =>
      match get_first "title" "" audio with
      | Raise _ => error_row None None
      | Ok title =>
          match get_first "artist" "" audio with
          | Raise _ => error_row (Some title) None
          | Ok artist =>
              match get_first "album" "" audio with
              | Raise _ => error_row (Some title) (Some artist)
              | Ok album =>
                  {| path := file_path; dirty := false;
                     filename_item := Some (basename file_path);
                     title_item := Some title; artist_item := Some artist;
                     album_item := Some album |}
              end
          end
      end
  end.

(** [for file_path in valid_files] of [add_files_to_table]. *)
Fixpoint add_rows (w : World) (valid_files : list string) (files_data : list Row)
    : list Row :=
  match valid_files with
  | [] => files_data
  | file_path :: rest =>
      if bool_decide (file_path ∈ path <$> files_data) then add_rows w rest files_data
      else add_rows w rest (files_data ++ [read_row w file_path])
  end.

(** [Metatag.add_files_to_table]: the rows, indexed by row number, and the
    text sent to the status bar. *)
Definition add_files_to_table (files : list string) (files_data : list Row) (w : World)
    : list Row * string :=
  let valid_files := filter (λ f, valid_file f = true) files in
  (add_rows w valid_files files_data,
   pretty (length valid_files) +:+ " file(s) added.").

(** [Metatag.mark_row_as_dirty] *)
Definition mark_row_as_dirty (row : nat) (files_data : list Row) : list Row :=
  match files_data !! row with
  | Some r =>
      match filename_item r with
      | Some item_text =>
          <[row := {| path := path r; dirty := true;
                      filename_item :=
                        Some (if Py.endswith item_text "(*)" then item_text
                              else item_text +:+ " (*)");
                      title_item := title_item r; artist_item := artist_item r;
                      album_item := album_item r |}]> files_data
      | None => files_data
      end
  | None => files_data
  end.

End Metatag.

(* ===================================================================== *)
(** * Vocabulary of the properties *)
(* ===================================================================== *)

(** The order in which [sort_by key] leaves a list: by key, as Python
    compares strings. *)
Definition key_le {A} (key : A → string) (x y : A) : Prop := String.le (key x) (key y).

(** The environment of a file is the same for every in-memory version of
    it. *)
Definition same_file (a a' : AudioFile) : Prop :=
  art a' = art a ∧ rejects a' = rejects a ∧
  save_error a' = save_error a ∧ raw_save_error a' = raw_save_error a.

(** The stop flag of a run that nobody stops. *)
Definition never : nat → bool := λ _, false.

(** The accumulators at the start of a run. *)
Definition zero (w : World) : Metagify.Loop :=
  {| Metagify.world := w; Metagify.count := 0; Metagify.errs := [];
     Metagify.progress := [] |}.

(** The run from [zero], with the stop flag never set. *)
Definition summary (l : list (string * string)) (a : option bytes) (m : option string)
    (paths : list string) (w : World) : Metagify.Loop :=
  Metagify.save_loop never 0 l a m 0 paths (zero w).

(** What one file adds to the error list of [process_and_save]. *)
Definition error_entry (p : string) (r : Result ()) : list string :=
  match r with
  | Ok _ => []
  | Raise e => ["Error saving " +:+ basename p +:+ ": " +:+ e]
  end.

(** The entry of a file in the error list of
    [process_and_save_musicbrainz]. *)
Definition apply_error (path e : string) : string :=
  "Error applying data to " +:+ basename path +:+ ": " +:+ e.

(* ===================================================================== *)
(** * Example worlds, releases and editors *)
(* ===================================================================== *)

(** A file without faults, holding the given tags and art. *)
Definition sound_file (t : list (string * list string)) (x : Art) : AudioFile :=
  {| tags := list_to_map t; art := x; rejects := ∅;
     save_error := None; raw_save_error := None |}.

(** Five MP3 files; the third cannot be written. *)
Definition five_paths : list string :=
  ["/music/1.mp3"; "/music/2.mp3"; "/music/3.mp3"; "/music/4.mp3"; "/music/5.mp3"].

Definition read_only_file : AudioFile :=
  {| tags := ∅; art := ID3 ∅; rejects := ∅;
     save_error := Some "[Errno 13] Permission denied: '/music/3.mp3'";
     raw_save_error := None |}.

Definition five_files : World :=
  {| files := list_to_map
       [("/music/1.mp3", Audio (sound_file [] (ID3 ∅)));
        ("/music/2.mp3", Audio (sound_file [] (ID3 ∅)));
        ("/music/3.mp3", Audio read_only_file);
        ("/music/4.mp3", Audio (sound_file [] (ID3 ∅)));
        ("/music/5.mp3", Audio (sound_file [] (ID3 ∅)))];
     writes := [] |}.

Definition title_edit : list (string * string) := [("Title", "Intro")].

(** Five sound files, the flag set after the second one. *)
Definition five_sound_files : World :=
  {| files := list_to_map ((λ p, (p, Audio (sound_file [] (ID3 ∅)))) <$> five_paths);
     writes := [] |}.

Definition halted_run : World * Metagify.Emitted :=
  Metagify.process_and_save (λ i, bool_decide (2 ≤ i)) five_paths title_edit None None
    five_sound_files.

(** A file whose tags can be written but whose pictures cannot. *)
Definition art_locked_file : AudioFile :=
  {| tags := list_to_map [("artist", ["Someone"])]; art := ID3 ∅; rejects := ∅;
     save_error := None;
     raw_save_error := Some "[Errno 28] No space left on device" |}.

Definition art_locked_world : World :=
  {| files := list_to_map
       [("/music/1.mp3", Audio (sound_file [] (ID3 ∅)));
        ("/music/2.mp3", Audio art_locked_file);
        ("/music/3.mp3", Audio (sound_file [] (ID3 ∅)))];
     writes := [] |}.

Definition png_bytes : bytes := [Byte.x89; Byte.x50; Byte.x4e; Byte.x47].

Definition art_locked_run : World * Metagify.Emitted :=
  Metagify.process_and_save (λ _, false)
    ["/music/1.mp3"; "/music/2.mp3"; "/music/3.mp3"] title_edit
    (Some png_bytes) (Some "image/png") art_locked_world.

(** Two files with different artists; only the title is checked and the
    artist field is blank. *)
Definition two_artists : World :=
  {| files := list_to_map
       [("/music/a.flac", Audio (sound_file [("artist", ["Ann"])] (FLAC [])));
        ("/music/b.flac", Audio (sound_file [("artist", ["Bob"])] (FLAC [])))];
     writes := [] |}.

Definition title_only : Metagify.Editor :=
  {| Metagify.selectedItems := ["/music/a.flac"; "/music/b.flac"];
     Metagify.text := λ tag, if String.eqb tag "Title" then "Live" else "";
     Metagify.isChecked := λ tag, String.eqb tag "Title";
     Metagify.current_art_data := None;
     Metagify.current_art_mime := None;
     Metagify.art_is_dirty := false |}.




(** A release of two tracks, numbered 1 and 2. *)
Definition track_one : Track :=
  {| number := Some (Str "1"); recording := Some {| rec_title := Some "First" |};
     track_credit := None |}.

Definition track_two : Track :=
  {| number := Some (Str "2"); recording := Some {| rec_title := Some "Second" |};
     track_credit := Some "Guest" |}.

Definition two_track_release : Release :=
  {| medium_list := Some [ {| track_list := Some [track_one; track_two];
                              track_count := Some (Int 2) |} ];
     artist_credit_phrase := Some "The Band";
     title := Some "Album";
     date := Some "2020-05-01" |}.

Definition two_mp3 : World :=
  {| files := list_to_map
       [("b.mp3", Audio (sound_file [] (ID3 ∅)));
        ("a.mp3", Audio (sound_file [] (ID3 ∅)))];
     writes := [] |}.

(** The image scaler is outside the model; the examples take the
    identity. *)
Definition no_scaling : bytes → string → bytes := λ data _, data.



(** A release dated in the year 850. *)
Definition early_release : Release :=
  {| medium_list := Some [ {| track_list := Some [track_one]; track_count := None |} ];
     artist_credit_phrase := Some "Anonymous";
     title := Some "Chants";
     date := Some "850-03-01" |}.

Definition dated_applied : World * Metagify.Step :=
  match Metagify.derive no_scaling two_track_release None None with
  | Ok d => Metagify.apply_file d None 0 "a.mp3" two_mp3
  | Raise _ => (two_mp3, Metagify.Skipped)
  end.

Definition paired_run : World * Result Metagify.Outcome :=
  Metagify.apply_musicbrainz_data (λ _, false) no_scaling two_track_release None None
    ["b.mp3"; "a.mp3"] two_mp3.

(** What the file at [path] shows after the picture writer ran on it. *)
Definition written_then_read (path : string) (data : bytes) (mime : option string)
    (w : World) : Result () * option (list bytes) * Metagify.AlbumArtLabel :=
  let '(w', r) := Metagify._save_album_art_to_file path data mime w in
  (r, embedded <$> stored_art w' path, Metagify.load_album_art w' path).

(** An MP3 file whose easy interface has no 'comment' key. *)
Definition no_comment_file : AudioFile :=
  {| tags := list_to_map [("title", ["Old"])]; art := ID3 ∅;
     rejects := {["comment" := "'comment' is not a valid key"]};
     save_error := None; raw_save_error := None |}.

Definition no_comment_world : World :=
  {| files := list_to_map [("/music/1.mp3", Audio no_comment_file)]; writes := [] |}.

(** The exception the assignments of track [i] start with when the track
    list has no entry [i], or the entry lacks a key the code reads (in the
    order in which the code reads them). *)
Definition missing_track_data (tracks : list Track) (i : nat) : option string :=
  match tracks !! i with
  | None => Some "list index out of range"
  | Some track =>
      match number track with
      | None => Some "'number'"
      | Some _ =>
          match recording track with
          | None => Some "'recording'"
          | Some r =>
              match rec_title r with
              | None => Some "'title'"
              | Some _ => None
              end
          end
      end
  end.

(** A release whose payload has no title. *)
Definition untitled_release : Release :=
  {| medium_list := Some [ {| track_list := Some [track_one; track_two];
                              track_count := Some (Int 2) |} ];
     artist_credit_phrase := Some "The Band";
     title := None;
     date := Some "2020-05-01" |}.

(** A release without a date. *)
Definition undated_release : Release :=
  {| medium_list := Some [ {| track_list := Some [track_one; track_two];
                              track_count := None |} ];
     artist_credit_phrase := Some "The Band";
     title := Some "Album";
     date := None |}.

(** A release whose second track has no number. *)
Definition unnumbered_release : Release :=
  {| medium_list :=
       Some [ {| track_list :=
                   Some [track_one;
                         {| number := None;
                            recording := Some {| rec_title := Some "Second" |};
                            track_credit := None |}];
                 track_count := None |} ];
     artist_credit_phrase := Some "The Band";
     title := Some "Album";
     date := Some "2020" |}.

(** The second file paired with the unnumbered track. *)
Definition unnumbered_applied : World * Metagify.Step :=
  match Metagify.derive no_scaling unnumbered_release None None with
  | Ok d => Metagify.apply_file d None 1 "b.mp3" two_mp3
  | Raise _ => (two_mp3, Metagify.Skipped)
  end.

(** Two paths that hold something the tag library does not recognise. *)
Definition two_texts : World :=
  {| files := list_to_map [("a.mp3", Unrecognised); ("b.mp3", Unrecognised)];
     writes := [] |}.

(** What a line edit shows after [update_editor_for_single] read [key]:
    the first stored value, or nothing. *)
Definition first_or_blank (audio : AudioFile) (key : string) : string :=
  match tags audio !! key with
  | Some (v :: _) => v
  | _ => ""
  end.

(** The stored value of [key] that a single-file save writes when the
    fields still show what [update_editor_for_single] read. *)
Definition resaved (audio : AudioFile) (key : string) : option (list string) :=
  if decide (key ∈ Metagify.TAG_MAP.*2) then
    if decide (first_or_blank audio key = "") then None
    else Some [first_or_blank audio key]
  else tags audio !! key.

(** A file with two artists and a genre. *)
Definition duet_file : AudioFile :=
  sound_file [("title", ["Song"]); ("artist", ["Ann"; "Bob"]); ("genre", ["Rock"])] (ID3 ∅).

Definition duet_world : World :=
  {| files := {[ "/music/duet.mp3" := Audio duet_file ]}; writes := [] |}.

(** An editor with stale texts, a checked box and a pending picture. *)
Definition stale_editor (selection : list string) : Metagify.Editor :=
  {| Metagify.selectedItems := selection;
     Metagify.text := λ _, "stale";
     Metagify.isChecked := λ _, true;
     Metagify.current_art_data := Some png_bytes;
     Metagify.current_art_mime := Some "image/png";
     Metagify.art_is_dirty := true |}.

(** Whether [_load_files_in_thread] returns an entry without ['error']
    for a path. *)
Definition loads (w : World) (f : string) : bool :=
  match Metagify.load_file w f with
  | Metagify.Entry _ _ _ => true
  | Metagify.LoadError _ _ => false
  end.

(** A release whose first track carries no artist credit of its own. *)
Definition uncredited_derived : Metatag.Derived :=
  {| Metatag.tracks := [track_one; track_two];
     Metatag.album_artist := "The Band";
     Metatag.album_title := "Album";
     Metatag.year := "2020";
     Metatag.total_tracks := Int 2 |}.

(** Two Ogg files, one of them with two artists. *)
Definition two_ogg : World :=
  {| files := list_to_map
       [("/music/a.ogg",
         Audio (sound_file [("title", ["Old"]); ("artist", ["Ann"; "Bob"])]
                  (OggVorbis None)));
        ("/music/b.ogg", Audio (sound_file [("title", ["Other"])] (OggVorbis None)))];
     writes := [] |}.

(** The earlier editor with stale texts, checked boxes and a pending
    picture. *)
Definition stale_table_editor (selection : list string) : Metatag.Editor :=
  {| Metatag.selected := selection;
     Metatag.text := λ _, "stale";
     Metatag.isChecked := λ _, true;
     Metatag.current_art_data := Some png_bytes;
     Metatag.art_is_dirty := true |}.

(** The earlier editor in batch mode with only the title checked and a
    pending picture. *)
Definition title_checked : Metatag.Editor :=
  {| Metatag.selected := ["/music/a.ogg"; "/music/b.ogg"];
     Metatag.text := λ tag, if String.eqb tag "Title" then "Live" else "";
     Metatag.isChecked := λ tag, String.eqb tag "Title";
     Metatag.current_art_data := Some png_bytes;
     Metatag.art_is_dirty := true |}.

(** A table with one row. *)
Definition one_row : list Metatag.Row :=
  [ {| Metatag.path := "/music/a.ogg"; Metatag.dirty := false;
       Metatag.filename_item := Some "a.ogg";
       Metatag.title_item := Some "Old"; Metatag.artist_item := Some "Ann";
       Metatag.album_item := Some "" |} ].

(** What the tag library stores under a key exactly as the text it is
    given; the model of [audio[key] = value] keeps every text, and the
    library does so for these pairs.  Vorbis comments (FLAC, Ogg) keep
    any text.  An ID3 text frame keeps a text that is not empty and holds
    no NUL (an empty frame is dropped when the file is saved, NUL
    separates values); the frames behind [date] and [genre] re-encode
    their text (time stamps, genre references) and are left out.  MP4
    keeps the non-empty text of its text atoms; track numbers and beats
    per minute are stored as integers there and are left out, like the
    keys the easy interface of a container does not know. *)
Definition kept_as_given (a : Art) (key value : string) : bool :=
  match a with
  | FLAC _ | OggVorbis _ => true
  | ID3 _ =>
      bool_decide (key ∈ ["title"; "artist"; "album"; "albumartist"; "tracknumber";
                          "composer"; "copyright"; "bpm"; "isrc"; "catalognumber"])
      && negb (String.eqb value "") && negb (Py.contains "000" value)
  | MP4 _ =>
      bool_decide (key ∈ ["title"; "artist"; "album"; "albumartist"; "genre"; "date";
                          "comment"; "copyright"])
      && negb (String.eqb value "")
  end.

Definition is_digit (c : ascii) : bool :=
  (48 <=? nat_of_ascii c) && (nat_of_ascii c <=? 57).

(** A date as the MusicBrainz service writes it: a year of four digits,
    alone or followed by a hyphen and the rest. *)
Definition starts_with_year (s : string) : bool :=
  match s with
  | String a (String b (String c (String d rest))) =>
      is_digit a && is_digit b && is_digit c && is_digit d &&
      match rest with
      | EmptyString => true
      | String h _ => Ascii.eqb h "-"
      end
  | _ => false
  end.

(** Two files of the same name in two directories. *)
Definition same_name_world : World :=
  {| files := list_to_map
       [("x/a.flac", Audio (sound_file [] (FLAC [])));
        ("y/a.flac", Audio (sound_file [] (FLAC [])))];
     writes := [] |}.

(** Three FLAC files. *)
Definition three_flac : World :=
  {| files := list_to_map
       [("1.flac", Audio (sound_file [] (FLAC [])));
        ("2.flac", Audio (sound_file [] (FLAC [])));
        ("3.flac", Audio (sound_file [] (FLAC [])))];
     writes := [] |}.

(** An MP3 file that carries an ID3 tag with a title and no picture. *)
Definition titled_mp3 : AudioFile := sound_file [("title", ["Song"])] (ID3 ∅).

Definition titled_mp3_world : World :=
  {| files := {[ "song.mp3" := Audio titled_mp3 ]}; writes := [] |}.

(** A release of one track that carries its own artist credit, dated by
    year and month. *)
Definition credited_release : Release :=
  {| medium_list := Some [ {| track_list := Some [track_two]; track_count := None |} ];
     artist_credit_phrase := Some "The Band";
     title := Some "Album";
     date := Some "1999-11" |}.

(** The first Ogg file after the undated release was applied to it. *)
Definition undated_applied : World * Metagify.Step :=
  match Metagify.derive no_scaling undated_release None None with
  | Ok d => Metagify.apply_file d None 0 "/music/a.ogg" two_ogg
  | Raise _ => (two_ogg, Metagify.Skipped)
  end.

(* ===================================================================== *)
(** * Properties *)
(* ===================================================================== *)

(** ** Sorting by key *)

Section sort_by.
Context {A : Type} (key : A → string).

Lemma insert_by_Permutation x l : Py.insert_by key x l ≡ₚ x :: l.
Proof.
  induction l as [|y l IH]; simpl; [done|].
  destruct (String.leb (key x) (key y)); [done|].
  rewrite IH. apply Permutation_swap.
Qed.

Lemma sort_by_Permutation l : Py.sort_by key l ≡ₚ l.
Proof.
  induction l as [|x l IH]; simpl; [done|].
  rewrite insert_by_Permutation. by rewrite IH.
Qed.

Lemma leb_false_le s1 s2 : String.leb s1 s2 = false → String.le s2 s1.
Proof.
  intros Hf. destruct (total String.le s1 s2) as [H|H]; [|done].
  unfold String.le in H. rewrite Hf in H. done.
Qed.

Lemma insert_by_Sorted x l : Sorted (key_le key) l → Sorted (key_le key) (Py.insert_by key x l).
Proof.
  induction 1 as [|y l Hs IH Hhd]; simpl.
  - repeat constructor.
  - destruct (String.leb (key x) (key y)) eqn:E.
    + constructor; [by constructor|]. constructor.
      unfold key_le, String.le. by rewrite E.
    + constructor; [done|].
      destruct l as [|z l]; simpl in *.
      * constructor. by apply leb_false_le.
      * destruct (String.leb (key x) (key z)).
        -- constructor. by apply leb_false_le.
        -- constructor. by inversion Hhd.
Qed.

Lemma sort_by_Sorted l : Sorted (key_le key) (Py.sort_by key l).
Proof.
  induction l as [|x l IH]; simpl; [constructor|]. by apply insert_by_Sorted.
Qed.

(** Stability: elements with equal keys keep their relative order. *)
Lemma insert_by_filter k x l :
  filter (λ y, key y = k) (Py.insert_by key x l) = filter (λ y, key y = k) (x :: l).
Proof.
  induction l as [|y l IH]; simpl; [done|].
  destruct (String.leb (key x) (key y)) eqn:E; [done|].
  rewrite filter_cons, IH, !filter_cons.
  destruct (decide (key y = k)) as [Hy|Hy], (decide (key x = k)) as [Hx|Hx]; try done.
  exfalso. rewrite Hx, Hy in E.
  assert (String.le k k) as Hk by done. unfold String.le in Hk. by rewrite E in Hk.
Qed.

Lemma sort_by_stable k l :
  filter (λ y, key y = k) (Py.sort_by key l) = filter (λ y, key y = k) l.
Proof.
  induction l as [|x l IH]; simpl; [done|].
  rewrite insert_by_filter, !filter_cons, IH. done.
Qed.

Lemma sort_by_length l : length (Py.sort_by key l) = length l.
Proof. by rewrite sort_by_Permutation. Qed.

Global Instance key_le_trans : Transitive (key_le key).
Proof. intros x y z. unfold key_le. apply transitivity. Qed.

(** With pairwise distinct keys the sorted list does not depend on the
    order of the input. *)
Lemma sort_by_order_irrelevant l l' :
  NoDup (key <$> l) → l' ≡ₚ l → Py.sort_by key l' = Py.sort_by key l.
Proof.
  intros Hnd Hp.
  apply (Sorted_unique_strong (key_le key)).
  - intros x y Hx Hy Hxy Hyx.
    assert (key x = key y) as Hk by (by apply (anti_symm String.le)).
    rewrite sort_by_Permutation in Hx, Hy. rewrite Hp in Hx.
    apply list_elem_of_lookup in Hx as [i Hi], Hy as [j Hj].
    assert (i = j) as ->; [|congruence].
    eapply NoDup_lookup; [exact Hnd| |]; rewrite list_lookup_fmap.
    + by rewrite Hi.
    + rewrite Hj. simpl. by rewrite Hk.
  - apply sort_by_Sorted.
  - apply sort_by_Sorted.
  - by rewrite !sort_by_Permutation.
Qed.

End sort_by.

(** ** The storage model *)

Section storage.

Lemma stored_tags_persist path audio w q :
  stored_tags (persist path audio w) q =
    if decide (path = q) then Some (tags audio) else stored_tags w q.
Proof.
  unfold stored_tags, persist; simpl. rewrite lookup_insert.
  by destruct (decide (path = q)).
Qed.

Lemma files_persist_ne path audio w q :
  path ≠ q → files (persist path audio w) !! q = files w !! q.
Proof. intros. unfold persist; simpl. by rewrite lookup_insert_ne. Qed.

Lemma File_Some w path audio :
  File w path = Ok (Some audio) ↔ files w !! path = Some (Audio audio).
Proof.
  unfold File. destruct (files w !! path) as [[]|]; split; intros; simplify_eq; done.
Qed.

Lemma File_None w path :
  File w path = Ok None ↔ files w !! path = Some Unrecognised.
Proof.
  unfold File. destruct (files w !! path) as [[]|]; split; intros; simplify_eq; done.
Qed.

Lemma File_persist path audio w : File (persist path audio w) path = Ok (Some audio).
Proof. apply File_Some. unfold persist; simpl. by rewrite lookup_insert_eq. Qed.

Lemma setitem_Ok key value a a' :
  setitem key value a = Ok a' →
  tags a' = <[key := [value]]> (tags a) ∧ art a' = art a ∧ rejects a' = rejects a ∧
  save_error a' = save_error a ∧ raw_save_error a' = raw_save_error a.
Proof.
  unfold setitem. destruct (rejects a !! key); intros; simplify_eq. done.
Qed.

Lemma save_Ok path a w w' :
  save path a w = Ok w' → save_error a = None ∧ w' = persist path a w.
Proof. unfold save. destruct (save_error a); intros; simplify_eq. done. Qed.

Lemma save_raw_Ok path a w w' :
  save_raw path a w = Ok w' → raw_save_error a = None ∧ w' = persist path a w.
Proof. unfold save_raw. destruct (raw_save_error a); intros; simplify_eq. done. Qed.

(** Sequencing in [Result]. *)
Lemma bind_Ok {A B} (r : Result A) (k : A → Result B) b :
  (r ≫= k) = Ok b ↔ ∃ a, r = Ok a ∧ k a = Ok b.
Proof.
  destruct r as [a|e]; simpl; split.
  - intros. by exists a.
  - by intros (? & [= <-] & ?).
  - done.
  - by intros (? & ? & ?).
Qed.

End storage.

(** ** Metagify: one file *)

Module MetagifyFacts.
Import Metagify.

Lemma TAG_MAP_item_Ok tag key :
  TAG_MAP_item tag = Ok key ↔ (tag, key) ∈ TAG_MAP.
Proof.
  unfold TAG_MAP_item, getitem. split.
  - destruct (_ !! tag) as [k|] eqn:E; [|done]. intros [= <-].
    by apply elem_of_list_to_map_2 in E.
  - intros Hin. apply (elem_of_list_to_map_1 (M := gmap string)) in Hin as ->; [done|].
    vm_compute. by apply (bool_decide_unpack _).
Qed.

Lemma TAG_MAP_inj t1 t2 key :
  (t1, key) ∈ TAG_MAP → (t2, key) ∈ TAG_MAP → t1 = t2.
Proof.
  intros [i Hi]%list_elem_of_lookup [j Hj]%list_elem_of_lookup.
  assert (i = j) as ->; [|congruence].
  eapply (NoDup_lookup (TAG_MAP.*2)); [| |]; rewrite ?list_lookup_fmap.
  - vm_compute. by apply (bool_decide_unpack _).
  - by rewrite Hi.
  - by rewrite Hj.
Qed.

Lemma write_field_Ok key value a a' :
  write_field key value a = Ok a' →
  tags a' !! key = (if decide (value = "") then None else Some [value]) ∧
  (∀ k, k ≠ key → tags a' !! k = tags a !! k) ∧ same_file a a'.
Proof.
  unfold write_field.
  destruct (String.eqb_spec value "") as [Hv|Hv]; case_decide; try done;
    cbn [negb].
  - unfold contains.
    case_bool_decide as Hc; intros [= <-]; simpl.
    + rewrite lookup_delete_eq. split; [done|]. split; [|done].
      intros k Hk. by rewrite lookup_delete_ne.
    + split; [|done]. apply eq_None_not_Some. done.
  - intros (Ht & Ha & Hr & Hs & Hrs)%setitem_Ok. rewrite Ht.
    rewrite lookup_insert_eq. split; [done|]. split; [|done].
    intros k Hk. by rewrite lookup_insert_ne.
Qed.

Lemma save_tags_same l : ∀ a a', save_tags l a = Ok a' → same_file a a'.
Proof.
  induction l as [|[tag v] l IH]; intros a a'; simpl.
  - intros [= <-]. done.
  - intros (key & _ & (a1 & H1 & H2)%bind_Ok)%bind_Ok.
    apply write_field_Ok in H1 as (_ & _ & (? & ? & ? & ?)).
    apply IH in H2 as (? & ? & ? & ?). repeat split; congruence.
Qed.

(** A key that no entry of the dictionary maps to is left as it was. *)
Lemma save_tags_other key l : ∀ a a',
  save_tags l a = Ok a' →
  (∀ tag v, (tag, v) ∈ l → (tag, key) ∉ TAG_MAP) →
  tags a' !! key = tags a !! key.
Proof.
  induction l as [|[tag v] l IH]; intros a a'; simpl.
  - by intros [= <-].
  - intros (k & Hk%TAG_MAP_item_Ok & (a1 & H1 & H2)%bind_Ok)%bind_Ok Hl.
    apply write_field_Ok in H1 as (_ & Hne & _).
    rewrite (IH _ _ H2).
    + apply Hne. intros ->. eapply Hl; [|done]. left.
    + intros ???. eapply Hl. by right.
Qed.

(** Every entry of the dictionary is applied: set when the value is not
    empty, removed when it is. *)
Lemma save_tags_applied l : ∀ a a' tag v,
  NoDup (l.*1) → save_tags l a = Ok a' → (tag, v) ∈ l →
  ∃ key, (tag, key) ∈ TAG_MAP ∧
         tags a' !! key = (if decide (v = "") then None else Some [v]).
Proof.
  induction l as [|[t0 v0] l IH]; intros a a' tag v Hnd; simpl.
  - intros _ []%elem_of_nil.
  - apply NoDup_cons in Hnd as [Hnotin Hnd].
    intros (k & Hk%TAG_MAP_item_Ok & (a1 & H1 & H2)%bind_Ok)%bind_Ok
      [[= -> ->]|Hin]%elem_of_cons.
    + exists k. split; [done|].
      apply write_field_Ok in H1 as (<- & _ & _).
      eapply save_tags_other; [done|].
      intros t v' Hin Ht. apply Hnotin.
      rewrite (TAG_MAP_inj _ _ _ Hk Ht). apply list_elem_of_fmap. by exists (t, v').
    + by eapply IH.
Qed.


(** The picture writer either leaves the world as it is, or persists the
    file it opened with another [art]. *)
Lemma art_write_inv p data mime w w' r :
  _save_album_art_to_file p data mime w = (w', r) →
  w' = w ∨
  ∃ audio a, files w !! p = Some (Audio audio) ∧ raw_save_error audio = None ∧
             w' = persist p (set_art a audio) w ∧ r = Ok ().
Proof.
  unfold _save_album_art_to_file.
  destruct (File w p) as [[audio|]|e] eqn:HF; [|intros [= <- <-]; by left..].
  destruct (_ ≫= _) as [w1|e] eqn:Hb; intros [= <- <-]; [|by left].
  apply bind_Ok in Hb as (a & _ & [Hs ->]%save_raw_Ok).
  right. exists audio, a. by apply File_Some in HF.
Qed.

Lemma art_write_stored_tags p data mime w w' r q :
  _save_album_art_to_file p data mime w = (w', r) → stored_tags w' q = stored_tags w q.
Proof.
  intros [->|(audio & a & Hf & _ & -> & _)]%art_write_inv; [done|].
  rewrite stored_tags_persist. case_decide as Hq; [subst q|done].
  unfold stored_tags. by rewrite Hf.
Qed.

Lemma art_write_files_ne p data mime w w' r q :
  _save_album_art_to_file p data mime w = (w', r) → p ≠ q →
  files w' !! q = files w !! q.
Proof.
  intros [->|(audio & a & Hf & _ & -> & _)]%art_write_inv ?; [done|].
  by apply files_persist_ne.
Qed.

(** What can happen to one file of [process_and_save]: an exception before
    anything is persisted, or the tags are persisted and the picture
    writer, if there is a picture instruction, decides the rest. *)
Lemma save_file_inv l art_data mime p w w' r :
  save_file l art_data mime p w = (w', r) →
  (w' = w ∧ ∃ e, r = Raise e) ∨
  ∃ audio audio',
    files w !! p = Some (Audio audio) ∧ save_tags l audio = Ok audio' ∧
    save_error audio' = None ∧
    match art_data with
    | Some data => _save_album_art_to_file p data mime (persist p audio' w) = (w', r)
    | None => w' = persist p audio' w ∧ r = Ok ()
    end.
Proof.
  unfold save_file.
  destruct (File w p) as [[audio|]|e] eqn:HF; [|intros [= <- <-]; left; eauto..].
  destruct (_ ≫= _) as [w1|e] eqn:Hb; [|intros [= <- <-]; left; eauto].
  apply bind_Ok in Hb as (audio' & Ht & [Hs ->]%save_Ok).
  apply File_Some in HF. intros H. right. exists audio, audio'.
  repeat split; try done. destruct art_data; [done|]. by simplify_eq.
Qed.

Lemma save_file_files_ne l art_data mime p w w' r q :
  save_file l art_data mime p w = (w', r) → p ≠ q → files w' !! q = files w !! q.
Proof.
  intros [[-> _]|(audio & audio' & _ & _ & _ & H)]%save_file_inv Hq; [done|].
  destruct art_data as [data|].
  - erewrite art_write_files_ne by done. by apply files_persist_ne.
  - destruct H as [-> _]. by apply files_persist_ne.
Qed.

(** A key that no entry of the dictionary maps to keeps its stored value
    in every file. *)
Lemma save_file_other_key key l art_data mime p w w' r q :
  save_file l art_data mime p w = (w', r) →
  (∀ tag v, (tag, v) ∈ l → (tag, key) ∉ TAG_MAP) →
  stored_tag w' q key = stored_tag w q key.
Proof.
  intros [[-> _]|(audio & audio' & Hf & Ht & _ & H)]%save_file_inv Hl; [done|].
  assert (stored_tags w' q = stored_tags (persist p audio' w) q) as Hst.
  { destruct art_data as [data|]; [by eapply art_write_stored_tags|].
    by destruct H as [-> _]. }
  unfold stored_tag. rewrite Hst, stored_tags_persist.
  case_decide as Hq; [subst q|done]. simpl.
  unfold stored_tags. rewrite Hf. simpl. by eapply save_tags_other.
Qed.

(** ** Metagify: the save loop *)

Section save_loop.
Context (l : list (string * string)) (a : option bytes) (m : option string).

Lemma save_loop_never stop total paths : ∀ i st,
  (∀ j, stop j = false) →
  save_loop stop total l a m i paths st = save_loop never total l a m i paths st.
Proof.
  induction paths as [|p paths IH]; intros i st Hs; simpl; [done|].
  rewrite Hs. by apply IH.
Qed.

Lemma save_loop_app stop total l1 l2 : ∀ i st,
  (∀ j, stop j = false) →
  save_loop stop total l a m i (l1 ++ l2) st =
    save_loop stop total l a m (i + length l1) l2 (save_loop stop total l a m i l1 st).
Proof.
  induction l1 as [|p l1 IH]; intros i st Hs; simpl.
  - by rewrite Nat.add_0_r.
  - rewrite Hs, IH by done. by rewrite Nat.add_succ_r.
Qed.

(** The accumulators only accumulate: a run from any state is the run
    from [zero] added to that state. *)
Lemma save_loop_shape paths : ∀ total i st,
  let s := save_loop never total l a m i paths st in
  let z := save_loop never 0 l a m 0 paths (zero (world st)) in
  world s = world z ∧ count s = count st + count z ∧ errs s = errs st ++ errs z ∧
  progress s = progress st ++ ((λ j, (S j, total)) <$> seq i (length paths)).
Proof.
  induction paths as [|p paths IH]; intros total i st; simpl.
  - rewrite Nat.add_0_r, !app_nil_r. done.
  - destruct (IH total (S i) (save_step total l a m i p st)) as (Hw & Hc & He & Hp).
    destruct (IH 0 1 (save_step 0 l a m 0 p (zero (world st)))) as (Hw' & Hc' & He' & _).
    rewrite Hw, Hc, He, Hp, Hw', Hc', He'. clear.
    unfold save_step; simpl.
    destruct (save_file l a m p (world st)) as [w [[]|e]]; simpl;
      rewrite ?Nat.add_1_r, <-?app_assoc; repeat split; try done; lia.
Qed.

Lemma summary_app l1 l2 w :
  let s1 := summary l a m l1 w in
  let s2 := summary l a m l2 (world s1) in
  let s := summary l a m (l1 ++ l2) w in
  world s = world s2 ∧ count s = count s1 + count s2 ∧ errs s = errs s1 ++ errs s2.
Proof.
  simpl. unfold summary. rewrite save_loop_app by done.
  destruct (save_loop_shape l2 0 (0 + length l1) (save_loop never 0 l a m 0 l1 (zero w)))
    as (Hw & Hc & He & _).
  by rewrite Hw, Hc, He.
Qed.

Lemma summary_one p w :
  let s := summary l a m [p] w in
  let '(w', r) := save_file l a m p w in
  world s = w' ∧
  count s = (match r with Ok _ => 1 | Raise _ => 0 end) ∧
  errs s = (match r with
            | Ok _ => []
            | Raise e => ["Error saving " +:+ basename p +:+ ": " +:+ e]
            end).
Proof.
  unfold summary; simpl. unfold save_step; simpl.
  by destruct (save_file l a m p w) as [w' [[]|e]].
Qed.

(** [process_and_save] in terms of the summary. *)
Lemma process_and_save_summary stop paths w :
  (∀ j, stop j = false) →
  process_and_save stop paths l a m w =
    (world (summary l a m paths w),
     {| processing_progress := (λ j, (j, length paths)) <$> seq 0 (S (length paths));
        processing_error := None;
        processing_finished :=
          {| saved_count := count (summary l a m paths w);
             total_files := length paths;
             errors := errs (summary l a m paths w) |} |}).
Proof.
  intros Hs. unfold process_and_save, finish. rewrite save_loop_never by done.
  match goal with |- context [save_loop never ?t l a m 0 paths ?st] =>
    destruct (save_loop_shape paths t 0 st) as (Hw & Hc & He & Hp) end.
  unfold summary. simpl in *. rewrite Hw, Hc, He, Hp.
  do 3 f_equal. rewrite <-fmap_S_seq, <-list_fmap_compose. done.
Qed.

Lemma save_step_world total i p st :
  world (save_step total l a m i p st) = (save_file l a m p (world st)).1.
Proof. unfold save_step. by destruct (save_file l a m p (world st)). Qed.

Lemma save_step_Ok total i p st w' :
  save_file l a m p (world st) = (w', Ok ()) →
  save_step total l a m i p st =
    {| world := w'; count := count st + 1; errs := errs st;
       progress := progress st ++ [(i + 1, total)] |}.
Proof. intros H. unfold save_step. by rewrite H. Qed.

Lemma save_step_Raise total i p st w' e :
  save_file l a m p (world st) = (w', Raise e) →
  save_step total l a m i p st =
    {| world := w'; count := count st;
       errs := errs st ++ ["Error saving " +:+ basename p +:+ ": " +:+ e];
       progress := progress st ++ [(i + 1, total)] |}.
Proof. intros H. unfold save_step. by rewrite H. Qed.

(** A property of the world that every file of the batch preserves holds
    after the loop, stopped or not. *)
Lemma save_loop_world_ind (P : World → Prop) stop total paths :
  (∀ p w w' r, p ∈ paths → save_file l a m p w = (w', r) → P w → P w') →
  ∀ i st, P (world st) → P (world (save_loop stop total l a m i paths st)).
Proof.
  induction paths as [|p paths IH]; intros Hstep i st HP; simpl; [done|].
  destruct (stop i); [done|].
  apply IH.
  - intros q w w' r Hq. apply Hstep. by right.
  - rewrite save_step_world.
    destruct (save_file l a m p (world st)) as [w' r] eqn:E.
    eapply Hstep; [left|exact E|done].
Qed.

(** Every file the loop reaches is counted once: as saved or as an error. *)
Lemma save_loop_attempted total paths : ∀ i st,
  let s := save_loop never total l a m i paths st in
  count s + length (errs s) = count st + length (errs st) + length paths.
Proof.
  induction paths as [|p paths IH]; intros i st; simpl; [lia|].
  rewrite IH. unfold save_step.
  destruct (save_file l a m p (world st)) as [w' [[]|e]]; simpl;
    rewrite ?length_app; simpl; lia.
Qed.

(** The flag read as set at the top of iteration [k]: the loop did what it
    does on the first [k] files. *)
Lemma save_loop_stop stop total paths : ∀ i st k,
  k < length paths → (∀ j, j < k → stop (i + j) = false) → stop (i + k) = true →
  save_loop stop total l a m i paths st = save_loop never total l a m i (take k paths) st.
Proof.
  induction paths as [|p paths IH]; intros i st k Hk Hbefore Hat; simpl in *; [lia|].
  destruct k as [|k]; simpl.
  - rewrite Nat.add_0_r in Hat. by rewrite Hat.
  - specialize (Hbefore 0 ltac:(lia)) as H0. rewrite Nat.add_0_r in H0. rewrite H0.
    apply IH; [lia| |].
    + intros j Hj. replace (S i + j) with (i + S j) by lia. apply Hbefore. lia.
    + by replace (S i + k) with (i + S k) by lia.
Qed.

(** A batch is its part before a file, that file, and its part after it. *)
Lemma summary_split before path after w w2 r :
  save_file l a m path (world (summary l a m before w)) = (w2, r) →
  let s1 := summary l a m before w in
  let s3 := summary l a m after w2 in
  let s := summary l a m (before ++ path :: after) w in
  world s = world s3 ∧
  count s = count s1 + (match r with Ok _ => 1 | Raise _ => 0 end) + count s3 ∧
  errs s = errs s1 ++ error_entry path r ++ errs s3.
Proof.
  intros Hf. simpl.
  destruct (summary_app before (path :: after) w) as (Hw & Hc & He).
  destruct (summary_app [path] after (world (summary l a m before w))) as (Hw' & Hc' & He').
  pose proof (summary_one path (world (summary l a m before w))) as H1.
  rewrite Hf in H1. simpl in H1. destruct H1 as (H1w & H1c & H1e).
  simpl in *. rewrite Hw, Hc, He, Hw', Hc', He', H1w, H1c, H1e.
  split; [done|]. split; [lia|]. by destruct r as [[]|].
Qed.

Lemma process_and_save_inv stop paths w w' o :
  (∀ j, stop j = false) →
  process_and_save stop paths l a m w = (w', o) →
  w' = world (summary l a m paths w) ∧
  saved_count (processing_finished o) = count (summary l a m paths w) ∧
  errors (processing_finished o) = errs (summary l a m paths w).
Proof.
  intros Hs. rewrite process_and_save_summary by done. by intros [= <- <-].
Qed.

Lemma save_file_writes p w w' r :
  save_file l a m p w = (w', r) → ∃ extra, writes w' = writes w ++ extra.
Proof.
  intros [[-> _]|(audio & audio' & _ & _ & _ & H)]%save_file_inv.
  { exists []. by rewrite app_nil_r. }
  destruct a as [data|].
  - apply art_write_inv in H as [->|(? & ? & _ & _ & -> & _)]; simpl.
    + by exists [p].
    + exists [p; p]. by rewrite <-app_assoc.
  - destruct H as [-> _]. by exists [p].
Qed.

End save_loop.

End MetagifyFacts.

(** ** Metagify: applying a release *)

Module ReleaseFacts.
Import Metagify MetagifyFacts.

Lemma index_Ok {A} (l : list A) i x : Py.index l i = Ok x ↔ l !! i = Some x.
Proof. unfold Py.index. destruct (l !! i); split; intros; by simplify_eq. Qed.

Lemma getitem_Ok {A} k (o : option A) x : getitem k o = Ok x ↔ o = Some x.
Proof. unfold getitem. destruct o; split; intros; by simplify_eq. Qed.

(** What the six assignments leave in the opened file. *)
Lemma assign_track_Ok d i a a' :
  assign_track d i a = Ok a' →
  same_file a a' ∧
  ∃ track track_num t,
    tracks d !! i = Some track ∧ number track = Some track_num ∧
    recording_title track = Ok t ∧
    tags a' !! "title" = Some [t] ∧
    tags a' !! "artist" = Some [default (album_artist d) (track_credit track)] ∧
    tags a' !! "albumartist" = Some [album_artist d] ∧
    tags a' !! "album" = Some [album_title d] ∧
    tags a' !! "date" = Some [year d] ∧
    tags a' !! "tracknumber"
      = Some [Py.format track_num +:+ "/" +:+ Py.format (total_tracks d)].
Proof.
  unfold assign_track.
  intros (track & Htr%index_Ok & (num & Hnum%getitem_Ok & (t & Ht &
    (a1 & (T1 & A1 & R1 & S1 & RS1)%setitem_Ok &
    (a2 & (T2 & A2 & R2 & S2 & RS2)%setitem_Ok &
    (a3 & (T3 & A3 & R3 & S3 & RS3)%setitem_Ok &
    (a4 & (T4 & A4 & R4 & S4 & RS4)%setitem_Ok &
    (a5 & (T5 & A5 & R5 & S5 & RS5)%setitem_Ok &
    (T6 & A6 & R6 & S6 & RS6)%setitem_Ok)%bind_Ok)%bind_Ok)%bind_Ok)%bind_Ok)%bind_Ok)
    %bind_Ok)%bind_Ok)%bind_Ok.
  split; [repeat split; congruence|].
  exists track, num, t. rewrite T6, T5, T4, T3, T2, T1.
  repeat split; try done; by simplify_map_eq.
Qed.

(** What can happen to one file of [process_and_save_musicbrainz]. *)
Lemma apply_file_inv d mime i p w w' r :
  apply_file d mime i p w = (w', r) →
  (w' = w ∧ ((r = Skipped ∧ files w !! p = Some Unrecognised) ∨ ∃ e, r = Failed e)) ∨
  ∃ audio audio',
    files w !! p = Some (Audio audio) ∧ assign_track d i audio = Ok audio' ∧
    save_error audio' = None ∧
    (∀ q, stored_tags w' q = stored_tags (persist p audio' w) q) ∧
    (∀ q, p ≠ q → files w' !! q = files w !! q) ∧
    (r = Applied ∨ ∃ e, r = Failed e).
Proof.
  unfold apply_file.
  destruct (File w p) as [[audio|]|e] eqn:HF.
  - destruct (_ ≫= _) as [w1|e] eqn:Hb; [|intros [= <- <-]; left; eauto].
    apply bind_Ok in Hb as (audio' & Ht & [Hs ->]%save_Ok).
    apply File_Some in HF. intros H. right. exists audio, audio'.
    split; [done|]. split; [done|]. split; [done|].
    destruct (resized_art_data d) as [data|].
    + destruct (is_empty data).
      { simplify_eq. split; [done|]. split; [|by left].
        intros. by apply files_persist_ne. }
      destruct (_save_album_art_to_file _ _ _ _) as [w2 [[]|e]] eqn:E; simplify_eq.
      * split; [intros; by eapply art_write_stored_tags|]. split; [|by left].
        intros q Hq. erewrite art_write_files_ne by done. by apply files_persist_ne.
      * split; [intros; by eapply art_write_stored_tags|]. split; [|right; eauto].
        intros q Hq. erewrite art_write_files_ne by done. by apply files_persist_ne.
    + simplify_eq. split; [done|]. split; [|by left].
      intros. by apply files_persist_ne.
  - apply File_None in HF. intros [= <- <-]. left. eauto.
  - intros [= <- <-]. left. eauto.
Qed.

Lemma apply_file_files_ne d mime i p w w' r q :
  apply_file d mime i p w = (w', r) → p ≠ q → files w' !! q = files w !! q.
Proof.
  intros [[-> _]|(? & ? & _ & _ & _ & _ & H & _)]%apply_file_inv ?; [done|by apply H].
Qed.

(** What [derive] reads from the release. *)
Lemma derive_Ok scaled release a m d :
  derive scaled release a m = Ok d →
  ∃ medium,
    first_medium release = Ok medium ∧
    track_list medium = Some (tracks d) ∧
    year_of release = Ok (year d) ∧
    total_tracks d = default (Int (Z.of_nat (length (tracks d)))) (track_count medium).
Proof.
  unfold derive.
  intros (medium & Hm & (trs & Htr%getitem_Ok & (aa & _ & (at' & _ & (y & Hy &
    (medium' & Hm' & (res & _ & [= <-])%bind_Ok)%bind_Ok)%bind_Ok)%bind_Ok)%bind_Ok)
    %bind_Ok)%bind_Ok.
  exists medium. simpl. rewrite Hm in Hm'. by simplify_eq.
Qed.

Lemma track_list_of_Ok release trs :
  track_list_of release = Ok trs ↔
  ∃ medium, first_medium release = Ok medium ∧ track_list medium = Some trs.
Proof.
  unfold track_list_of. rewrite bind_Ok. by setoid_rewrite getitem_Ok.
Qed.

End ReleaseFacts.

(** ** Metatag: one row *)

Module MetatagFacts.
Import Metatag.

Lemma get_mutagen_key_inj t1 t2 :
  t1 ∈ tags_to_edit → t2 ∈ tags_to_edit →
  get_mutagen_key t1 = get_mutagen_key t2 → t1 = t2.
Proof.
  intros [i Hi]%list_elem_of_lookup [j Hj]%list_elem_of_lookup Heq.
  assert (i = j) as ->; [|congruence].
  eapply (NoDup_lookup (get_mutagen_key <$> tags_to_edit)); rewrite ?list_lookup_fmap.
  - vm_compute. by apply (bool_decide_unpack _).
  - by rewrite Hi.
  - rewrite Hj. simpl. by rewrite Heq.
Qed.

Lemma save_fields_other ui single key fields : ∀ a a',
  save_fields ui single fields a = Ok a' →
  (∀ tag, tag ∈ fields → get_mutagen_key tag ≠ key) →
  tags a' !! key = tags a !! key.
Proof.
  induction fields as [|tag fields IH]; intros a a'; simpl.
  - by intros [= <-].
  - intros (a1 & H1 & H2)%bind_Ok Hl.
    rewrite (IH _ _ H2) by (intros ??; apply Hl; by right).
    destruct (single || isChecked ui tag); [|by simplify_eq].
    apply MetagifyFacts.write_field_Ok in H1 as (_ & Hne & _).
    apply Hne. intros Hk. eapply Hl; [left|done].
Qed.

(** Every field that is applied (single mode, or checked) is set when its
    text is not empty and removed when it is. *)
Lemma save_fields_applied ui single fields : ∀ a a' tag,
  NoDup (get_mutagen_key <$> fields) →
  save_fields ui single fields a = Ok a' →
  tag ∈ fields →
  single || isChecked ui tag = true →
  tags a' !! get_mutagen_key tag =
    (if decide (text ui tag = "") then None else Some [text ui tag]).
Proof.
  induction fields as [|t0 fields IH]; intros a a' tag Hnd; simpl.
  - intros _ []%elem_of_nil.
  - rewrite fmap_cons in Hnd. apply NoDup_cons in Hnd as [Hnotin Hnd].
    intros (a1 & H1 & H2)%bind_Ok [->|Hin]%elem_of_cons Happ.
    + rewrite Happ in H1.
      apply MetagifyFacts.write_field_Ok in H1 as (<- & _ & _).
      eapply save_fields_other; [done|].
      intros t Ht Heq. apply Hnotin. rewrite <-Heq.
      apply list_elem_of_fmap. by exists t.
    + by eapply IH.
Qed.

Lemma mt_art_write_inv p data w w' r :
  save_album_art_to_file p data w = (w', r) →
  w' = w ∨
  ∃ audio a, files w !! p = Some (Audio audio) ∧ raw_save_error audio = None ∧
             w' = persist p (set_art a audio) w ∧ r = Ok ().
Proof.
  unfold save_album_art_to_file.
  destruct (File w p) as [[audio|]|e] eqn:HF; [|intros [= <- <-]; by left..].
  destruct (_ ≫= _) as [w1|e] eqn:Hb; intros [= <- <-]; [|by left].
  apply bind_Ok in Hb as (a & _ & [Hs ->]%save_raw_Ok).
  right. exists audio, a. by apply File_Some in HF.
Qed.

Lemma mt_art_write_stored_tags p data w w' r q :
  save_album_art_to_file p data w = (w', r) → stored_tags w' q = stored_tags w q.
Proof.
  intros [->|(audio & a & Hf & _ & -> & _)]%mt_art_write_inv; [done|].
  rewrite stored_tags_persist. case_decide as Hq; [subst q|done].
  unfold stored_tags. by rewrite Hf.
Qed.

Lemma mt_derive_year release trs d :
  derive release trs = Ok d → year_of release = Ok (year d).
Proof.
  unfold derive.
  intros (aa & _ & (tt & _ & (y & Hy & (mm & _ & [= <-])%bind_Ok)%bind_Ok)%bind_Ok)%bind_Ok.
  done.
Qed.

Lemma mt_assign_track_date d i a a' :
  assign_track d i a = Ok a' → tags a' !! "date" = Some [year d].
Proof.
  unfold assign_track.
  intros (track & _ & (num & _ & (t & _ & (a1 & _ & (credit & _ &
    (a2 & _ & (a3 & _ & (a4 & _ &
    (a5 & (T5 & _)%setitem_Ok &
    (T6 & _)%setitem_Ok)%bind_Ok)%bind_Ok)%bind_Ok)%bind_Ok)%bind_Ok)%bind_Ok)
    %bind_Ok)%bind_Ok)%bind_Ok.
  rewrite T6, T5. by simplify_map_eq.
Qed.

(** A row to which a track was applied stores the derived year. *)
Lemma mt_apply_row_date d art_data i path w w' :
  apply_row d art_data i path w = (w', Saved) →
  stored_tag w' path "date" = Some [year d].
Proof.
  unfold apply_row.
  destruct (File w path) as [[audio|]|e] eqn:HF; [|done..].
  destruct (_ ≫= _) as [w1|e] eqn:Hb; [|done].
  apply bind_Ok in Hb as (audio' & Ht & [Hs ->]%save_Ok).
  intros Hrow.
  assert (stored_tags w' path = stored_tags (persist path audio' w) path) as Hst.
  { destruct art_data as [data|]; [|by simplify_eq].
    destruct (is_empty data); [by simplify_eq|].
    destruct (save_album_art_to_file _ _ _) as [w2 [[]|e]] eqn:E; simplify_eq.
    by eapply mt_art_write_stored_tags. }
  unfold stored_tag. rewrite Hst, stored_tags_persist, decide_True by done. simpl.
  by eapply mt_assign_track_date.
Qed.

End MetatagFacts.

(* ===================================================================== *)
(** * What the loops leave for each file *)
(* ===================================================================== *)

Module OutcomeFacts.
Import Metagify MetagifyFacts ReleaseFacts.

(** What the release loop leaves for each of its paths when it is not
    stopped: the file as the six assignments made it, or a skipped file,
    or an entry in the error list. *)
Lemma apply_loop_outcome stop total d mime paths : ∀ i0 st,
  (∀ j, stop j = false) →
  NoDup paths →
  let st' := apply_loop stop total d mime i0 paths st in
  (∀ q, q ∉ paths → files (world st') !! q = files (world st) !! q) ∧
  (∀ x, x ∈ errs st → x ∈ errs st') ∧
  ∀ j path, paths !! j = Some path →
    (∃ audio audio',
       files (world st) !! path = Some (Audio audio) ∧
       assign_track d (i0 + j) audio = Ok audio' ∧
       stored_tags (world st') path = Some (tags audio'))
    ∨ files (world st) !! path = Some Unrecognised
    ∨ ∃ e, apply_error path e ∈ errs st'.
Proof.
  induction paths as [|p paths IH]; intros i0 st Hs Hnd; simpl.
  { split; [done|]. split; [done|]. intros ?? [=]. }
  apply NoDup_cons in Hnd as [Hp Hnd]. rewrite Hs.
  set (st1 := apply_step total d mime i0 p st).
  destruct (IH (S i0) st1 Hs Hnd) as (Hframe & Hmono & Hpair).
  assert (world st1 = (apply_file d mime i0 p (world st)).1) as Hw1.
  { unfold st1, apply_step. by destruct (apply_file d mime i0 p (world st)). }
  destruct (apply_file d mime i0 p (world st)) as [w1 r] eqn:E. simpl in Hw1.
  assert (∀ q, p ≠ q → files (world st1) !! q = files (world st) !! q) as Hne.
  { intros q Hq. rewrite Hw1. by eapply apply_file_files_ne. }
  assert (errs st1 = match r with
                     | Failed e => errs st ++ [apply_error p e]
                     | _ => errs st
                     end) as He1.
  { unfold st1, apply_step. rewrite E. by destruct r. }
  assert (∀ x, x ∈ errs st → x ∈ errs st1) as Hmono1.
  { intros x Hx. rewrite He1. destruct r; [done..|]. apply elem_of_app. by left. }
  split; [|split].
  - intros q Hq. apply not_elem_of_cons in Hq as [Hq1 Hq2].
    rewrite Hframe by done. by apply Hne.
  - intros x Hx. by apply Hmono, Hmono1.
  - intros [|j] path; simpl.
    + intros [= <-]. rewrite Nat.add_0_r.
      apply apply_file_inv in E as
        [[-> [[-> Hun]|[e ->]]]|(audio & audio' & Hf & Ha & _ & Hst & _ & _)].
      * right; left. done.
      * right; right. exists e. apply Hmono. rewrite He1.
        apply elem_of_app. right. by apply list_elem_of_singleton.
      * left. exists audio, audio'. split; [done|]. split; [done|].
        unfold stored_tags at 1. rewrite (Hframe p Hp).
        change (stored_tags (world st1) p = Some (tags audio')).
        by rewrite Hw1, Hst, stored_tags_persist, decide_True.
    + intros Hj. assert (path ∈ paths) as Hin by (by eapply list_elem_of_lookup_2).
      assert (p ≠ path) as Hpp by (intros ->; done).
      replace (i0 + S j) with (S i0 + j) by lia.
      destruct (Hpair j path Hj) as [(audio & audio' & Hf & H)|[H|H]].
      * left. exists audio, audio'. by rewrite <-Hne.
      * right; left. by rewrite <-Hne.
      * by right; right.
Qed.


End OutcomeFacts.

Module TableOutcomeFacts.
Import Metatag MetatagFacts.

Lemma mt_art_write_files_ne p data w w' r q :
  save_album_art_to_file p data w = (w', r) → p ≠ q → files w' !! q = files w !! q.
Proof.
  intros [->|(audio & a & Hf & _ & -> & _)]%mt_art_write_inv ?; [done|].
  by apply files_persist_ne.
Qed.


(** What one row of [apply_musicbrainz_data] does to the world. *)
Lemma apply_row_inv d art_data i p w w' r :
  apply_row d art_data i p w = (w', r) →
  (w' = w ∧ ((r = Skipped ∧ files w !! p = Some Unrecognised) ∨ ∃ e, r = Failed e)) ∨
  ∃ audio audio',
    files w !! p = Some (Audio audio) ∧
    assign_track d i audio = Ok audio' ∧
    stored_tags w' p = Some (tags audio') ∧
    (∀ q, p ≠ q → files w' !! q = files w !! q).
Proof.
  unfold apply_row.
  destruct (File w p) as [[audio|]|e] eqn:HF.
  - destruct (_ ≫= _) as [w1|e] eqn:Hb; [|intros [= <- <-]; left; eauto].
    apply bind_Ok in Hb as (audio' & Ht & [Hs ->]%save_Ok).
    apply File_Some in HF. intros H. right. exists audio, audio'.
    split; [done|]. split; [done|].
    assert (w' = persist p audio' w ∨
            ∃ data rr, save_album_art_to_file p data (persist p audio' w) = (w', rr))
      as [->|(data & rr & E)].
    { destruct art_data as [data|]; [|left; by simplify_eq].
      destruct (is_empty data); [left; by simplify_eq|].
      destruct (save_album_art_to_file _ _ _) as [w2 rr] eqn:E.
      right. exists data, rr. by destruct rr as [[]|]; simplify_eq. }
    + split; [by rewrite stored_tags_persist, decide_True|].
      intros q Hq. by apply files_persist_ne.
    + split.
      * rewrite (mt_art_write_stored_tags _ _ _ _ _ p E).
        by rewrite stored_tags_persist, decide_True.
      * intros q Hq. rewrite (mt_art_write_files_ne _ _ _ _ _ q E Hq).
        by apply files_persist_ne.
  - apply File_None in HF. intros [= <- <-]. left. eauto.
  - intros [= <- <-]. left. eauto.
Qed.


Lemma apply_rows_outcome d art_data paths : ∀ i0 w status,
  NoDup paths →
  let r := apply_rows d art_data i0 paths w status in
  (∀ q, q ∉ paths → files r.1 !! q = files w !! q) ∧
  (∀ x, x ∈ status → x ∈ r.2) ∧
  ∀ j path, paths !! j = Some path →
    (∃ audio audio',
       files w !! path = Some (Audio audio) ∧
       assign_track d (i0 + j) audio = Ok audio' ∧
       stored_tags r.1 path = Some (tags audio'))
    ∨ files w !! path = Some Unrecognised
    ∨ ∃ e, ("Error applying to " +:+ basename path +:+ ": " +:+ e) ∈ r.2.
Proof.
  induction paths as [|p paths IH]; intros i0 w status Hnd; simpl.
  { split; [done|]. split; [done|]. intros ?? [=]. }
  apply NoDup_cons in Hnd as [Hp Hnd].
  destruct (apply_row d art_data i0 p w) as [w1 r] eqn:E.
  set (status1 := match r with
                  | Failed e => status ++ ["Error applying to " +:+ basename p +:+ ": " +:+ e]
                  | _ => status
                  end).
  destruct (IH (S i0) w1 status1 Hnd) as (Hframe & Hmono & Hout).
  assert (∀ q, p ≠ q → files w1 !! q = files w !! q) as Hne.
  { intros q Hq.
    by destruct (apply_row_inv _ _ _ _ _ _ _ E) as [[-> _]|(? & ? & _ & _ & _ & H)];
      [|apply H]. }
  assert (∀ x, x ∈ status → x ∈ status1) as Hmono1.
  { intros x Hx. unfold status1. destruct r; [done..|]. apply elem_of_app. by left. }
  split; [|split].
  - intros q Hq. apply not_elem_of_cons in Hq as [Hq1 Hq2].
    rewrite Hframe by done. by apply Hne.
  - intros x Hx. by apply Hmono, Hmono1.
  - intros [|j] path; simpl.
    + intros [= <-]. rewrite Nat.add_0_r.
      destruct (apply_row_inv _ _ _ _ _ _ _ E)
        as [[-> [[-> Hun]|[e ->]]]|(audio & audio' & Hf & Ht & Hst & _)].
      * right; left. done.
      * right; right. exists e. apply Hmono. unfold status1.
        apply elem_of_app. right. by apply list_elem_of_singleton.
      * left. exists audio, audio'. split; [done|]. split; [done|].
        unfold stored_tags at 1. rewrite (Hframe p Hp). exact Hst.
    + intros Hj. assert (path ∈ paths) as Hin by (by eapply list_elem_of_lookup_2).
      assert (p ≠ path) as Hpp by (intros ->; done).
      replace (i0 + S j) with (S i0 + j) by lia.
      destruct (Hout j path Hj) as [(audio & audio' & Hf & H)|[H|H]].
      * left. exists audio, audio'. by rewrite <-Hne.
      * right; left. by rewrite <-Hne.
      * by right; right.
Qed.

End TableOutcomeFacts.

Module DateFacts.

Lemma digit_is_no_hyphen c : is_digit c = true → Ascii.eqb c "-" = false.
Proof.
  destruct (Ascii.eqb_spec c "-") as [->|]; [|done]. by vm_compute.
Qed.

(** For a date that starts with a year of four digits, the text before
    the first hyphen is the first four characters. *)
Lemma split_four_digit_year dt :
  starts_with_year dt = true → Py.index (Py.split "-" dt) 0 = Ok (Py.first4 dt).
Proof.
  destruct dt as [|a [|b [|c [|d rest]]]]; try done. cbn [starts_with_year].
  intros ((((Ha%digit_is_no_hyphen & Hb%digit_is_no_hyphen)%andb_prop
              & Hc%digit_is_no_hyphen)%andb_prop & Hd%digit_is_no_hyphen)%andb_prop
            & Hr)%andb_prop.
  assert (∃ ys, Py.split "-" rest = "" :: ys) as [ys Hys].
  { destruct rest as [|h rest]; [by exists []|].
    apply Ascii.eqb_eq in Hr as ->. simpl. by eexists. }
  cbn [Py.split]. rewrite Ha, Hb, Hc, Hd, Hys. unfold Py.first4. simpl.
  by destruct rest.
Qed.

End DateFacts.

(* ===================================================================== *)
(** * The batch save engine *)
(* ===================================================================== *)

Section batch_save.
Import Metagify MetagifyFacts.

(** C1.  In a batch whose stop flag is never set, a file on which the [try]
    body raises [e] adds exactly the entry
    ["Error saving <basename>: <e>"] to the error list, is not counted as
    saved, and the files after it are processed as a batch of their own
    from the world the failing file left (first conjunct).  In particular,
    over five files of which only the third raises, the report counts four
    saved files out of five and holds the one entry of the third file, and
    the fourth and fifth files are processed (second conjunct). *)
Theorem error_is_recorded_and_batch_continues :
  (∀ stop before path after l a m w w1 o1 w2 e w3 o3,
     (∀ j, stop j = false) →
     process_and_save stop before l a m w = (w1, o1) →
     save_file l a m path w1 = (w2, Raise e) →
     process_and_save stop after l a m w2 = (w3, o3) →
     process_and_save stop (before ++ path :: after) l a m w =
       (w3,
        {| processing_progress :=
             (λ j, (j, length (before ++ path :: after)))
               <$> seq 0 (S (length (before ++ path :: after)));
           processing_error := None;
           processing_finished :=
             {| saved_count :=
                  saved_count (processing_finished o1)
                  + saved_count (processing_finished o3);
                total_files := length (before ++ path :: after);
                errors :=
                  errors (processing_finished o1)
                  ++ ["Error saving " +:+ basename path +:+ ": " +:+ e]
                  ++ errors (processing_finished o3) |} |}))
  ∧
  (∀ stop f1 f2 f3 f4 f5 l a m w0 w1 w2 w3 w4 w5 e,
     (∀ j, stop j = false) →
     save_file l a m f1 w0 = (w1, Ok ()) →
     save_file l a m f2 w1 = (w2, Ok ()) →
     save_file l a m f3 w2 = (w3, Raise e) →
     save_file l a m f4 w3 = (w4, Ok ()) →
     save_file l a m f5 w4 = (w5, Ok ()) →
     process_and_save stop [f1; f2; f3; f4; f5] l a m w0 =
       (w5,
        {| processing_progress := [(0, 5); (1, 5); (2, 5); (3, 5); (4, 5); (5, 5)];
           processing_error := None;
           processing_finished :=
             {| saved_count := 4;
                total_files := 5;
                errors := ["Error saving " +:+ basename f3 +:+ ": " +:+ e] |} |})).
Proof.
  split.
  - intros * Hs (-> & Hc1 & He1)%process_and_save_inv Hf
      (-> & Hc3 & He3)%process_and_save_inv; try done.
    rewrite process_and_save_summary by done.
    destruct (summary_split l a m before path after w _ _ Hf) as (Hw & Hc & He).
    simpl in *. rewrite Hw, Hc, He, Hc1, Hc3, He1, He3.
    do 4 f_equal. lia.
  - intros * Hs H1 H2 H3 H4 H5.
    unfold process_and_save, finish. cbn [save_loop length]. rewrite !Hs.
    erewrite (save_step_Ok l a m 5 0) by exact H1.
    erewrite (save_step_Ok l a m 5 1) by exact H2.
    erewrite (save_step_Raise l a m 5 2) by exact H3.
    erewrite (save_step_Ok l a m 5 3) by exact H4.
    erewrite (save_step_Ok l a m 5 4) by exact H5.
    done.
Qed.

(** The batch of five files whose third file cannot be written: four files
    saved, one error entry naming the third file, progress reported up to
    (5, 5), and the title written to the fourth and the fifth file. *)
Lemma error_is_recorded_and_batch_continues_witness :
  (process_and_save (λ _, false) five_paths title_edit None None five_files).2 =
    {| processing_progress := [(0, 5); (1, 5); (2, 5); (3, 5); (4, 5); (5, 5)];
       processing_error := None;
       processing_finished :=
         {| saved_count := 4;
            total_files := 5;
            errors :=
              ["Error saving 3.mp3: [Errno 13] Permission denied: '/music/3.mp3'"] |} |}
  ∧ (stored_tag (process_and_save (λ _, false) five_paths title_edit None None five_files).1
       "/music/4.mp3" "title" = Some ["Intro"])
  ∧ (stored_tag (process_and_save (λ _, false) five_paths title_edit None None five_files).1
       "/music/5.mp3" "title" = Some ["Intro"]).
Proof.
  destruct error_is_recorded_and_batch_continues as [Hgeneral _].
  set (X := process_and_save (λ _, false) ["/music/1.mp3"; "/music/2.mp3"]
              title_edit None None five_files).
  set (Y := save_file title_edit None None "/music/3.mp3" X.1).
  set (Z := process_and_save (λ _, false) ["/music/4.mp3"; "/music/5.mp3"]
              title_edit None None Y.1).
  assert (Y = (Y.1, Raise "[Errno 13] Permission denied: '/music/3.mp3'")) as HY
    by (vm_compute; reflexivity).
  pose proof (Hgeneral (λ _, false)
    ["/music/1.mp3"; "/music/2.mp3"] "/music/3.mp3" ["/music/4.mp3"; "/music/5.mp3"]
    title_edit None None five_files X.1 X.2 Y.1 _ Z.1 Z.2
    (λ _, eq_refl) (surjective_pairing X) HY (surjective_pairing Z)) as H.
  change (["/music/1.mp3"; "/music/2.mp3"] ++ "/music/3.mp3" :: ["/music/4.mp3"; "/music/5.mp3"])
    with five_paths in H.
  rewrite H. split; [vm_compute; reflexivity|]. split; vm_compute; reflexivity.
Defined.

(** C7.  When the stop flag is first read as set at the top of iteration
    [k] (after [k] files were attempted), the run is the run on the first
    [k] files: same world, same saved count, same errors, every attempted
    file counted once; the report still carries the length of the whole
    batch as its total, and progress stops at [(k, total)] (first
    conjunct).  In particular, stopping after the second of five files,
    both saved, reports two saved files out of five (second conjunct). *)
Theorem stop_flag_halts_the_batch :
  (∀ stop paths k l a m w,
     k < length paths →
     (∀ j, j < k → stop j = false) →
     stop k = true →
     let halted := process_and_save stop paths l a m w in
     let attempted := process_and_save (λ _, false) (take k paths) l a m w in
     halted.1 = attempted.1 ∧
     saved_count (processing_finished halted.2)
       = saved_count (processing_finished attempted.2) ∧
     errors (processing_finished halted.2) = errors (processing_finished attempted.2) ∧
     total_files (processing_finished halted.2) = length paths ∧
     processing_progress halted.2 = (λ j, (j, length paths)) <$> seq 0 (S k) ∧
     saved_count (processing_finished halted.2)
       + length (errors (processing_finished halted.2)) = k)
  ∧
  (∀ stop f1 f2 f3 f4 f5 l a m w0 w1 w2,
     stop 0 = false → stop 1 = false → stop 2 = true →
     save_file l a m f1 w0 = (w1, Ok ()) →
     save_file l a m f2 w1 = (w2, Ok ()) →
     process_and_save stop [f1; f2; f3; f4; f5] l a m w0 =
       (w2,
        {| processing_progress := [(0, 5); (1, 5); (2, 5)];
           processing_error := None;
           processing_finished :=
             {| saved_count := 2; total_files := 5; errors := [] |} |})).
Proof.
  split.
  - intros * Hk Hbefore Hat. cbv zeta.
    rewrite (process_and_save_summary l a m (λ _, false)) by done.
    unfold process_and_save, finish. simpl.
    rewrite (save_loop_stop l a m stop _ paths 0 _ k) by done.
    match goal with |- context [save_loop never ?t l a m 0 (take k paths) ?st] =>
      destruct (save_loop_shape l a m (take k paths) t 0 st) as (Hw & Hc & He & Hp);
      pose proof (save_loop_attempted l a m t (take k paths) 0 st) as Hn
    end.
    simpl in *. fold (summary l a m (take k paths) w) in *.
    rewrite length_take_le in * by lia.
    rewrite Hc, He in Hn. rewrite Hw, Hc, He, Hp.
    do 4 (split; [done|]). split; [|done].
    by rewrite <-fmap_S_seq, <-list_fmap_compose.
  - intros * H0 H1 H2 Hf1 Hf2.
    unfold process_and_save, finish. cbn [save_loop length]. rewrite H0, H1, H2.
    erewrite (save_step_Ok l a m 5 0) by exact Hf1.
    erewrite (save_step_Ok l a m 5 1) by exact Hf2.
    done.
Qed.

(** Five sound files and the flag set after the second one. *)
Lemma stop_flag_halts_the_batch_witness :
  saved_count (processing_finished halted_run.2) = 2 ∧
  total_files (processing_finished halted_run.2) = 5 ∧
  errors (processing_finished halted_run.2) = [] ∧
  processing_progress halted_run.2 = [(0, 5); (1, 5); (2, 5)] ∧
  writes halted_run.1 = ["/music/1.mp3"; "/music/2.mp3"].
Proof.
  destruct stop_flag_halts_the_batch as [Hgeneral _].
  assert (2 < length five_paths) as Hk by (vm_compute; lia).
  assert (∀ j, j < 2 → bool_decide (2 ≤ j) = false) as Hb
    by (intros j Hj; apply bool_decide_eq_false_2; lia).
  pose proof (Hgeneral (λ i, bool_decide (2 ≤ i)) five_paths 2
    title_edit None None five_sound_files Hk Hb eq_refl)
    as (Hw & Hc & He & Ht & Hp & _).
  unfold halted_run. rewrite Hw, Hc, He, Ht, Hp. vm_compute. done.
Defined.

(** C10.  No rollback: when the tags of a file were persisted and the
    picture writer then raises [e], the file is reported in the error list
    and not counted as saved, yet the edited tags are what the disk holds
    at the end of the batch (the file is in the write log). *)
Theorem tags_stay_when_the_art_write_fails
    stop before path after l data mime w w1 o1 audio audio' e w3 o3 :
  (∀ j, stop j = false) →
  process_and_save stop before l (Some data) mime w = (w1, o1) →
  files w1 !! path = Some (Audio audio) →
  save_tags l audio = Ok audio' →
  save_error audio' = None →
  (_save_album_art_to_file path data mime (persist path audio' w1)).2 = Raise e →
  process_and_save stop after l (Some data) mime (persist path audio' w1) = (w3, o3) →
  path ∉ after →
  let r := process_and_save stop (before ++ path :: after) l (Some data) mime w in
  files r.1 !! path = Some (Audio audio') ∧
  path ∈ writes r.1 ∧
  saved_count (processing_finished r.2)
    = saved_count (processing_finished o1) + saved_count (processing_finished o3) ∧
  errors (processing_finished r.2)
    = errors (processing_finished o1)
      ++ ["Error saving " +:+ basename path +:+ ": " +:+ e]
      ++ errors (processing_finished o3).
Proof.
  intros Hs (-> & Hc1 & He1)%process_and_save_inv Hf Ht Hse Hart
    (-> & Hc3 & He3)%process_and_save_inv Hnotin; try done.
  set (w1 := world (summary l (Some data) mime before w)) in *.
  assert (save_file l (Some data) mime path w1 = (persist path audio' w1, Raise e)) as Hsf.
  { unfold save_file. apply File_Some in Hf. rewrite Hf. simpl. rewrite Ht. simpl.
    unfold save. rewrite Hse.
    destruct (_save_album_art_to_file _ _ _ _) as [w' r] eqn:E. simpl in Hart. subst r.
    by apply art_write_inv in E as [->|(? & ? & _ & _ & _ & [=])]. }
  cbv zeta. rewrite process_and_save_summary by done. simpl.
  destruct (summary_split l (Some data) mime before path after w _ _ Hsf) as (Hw & Hc & He).
  simpl in Hw, Hc, He. fold w1 in Hw, Hc, He. rewrite Hw, Hc, He, Hc1, Hc3, He1, He3.
  split; [|split; [|split; [lia|done]]].
  - apply (save_loop_world_ind l (Some data) mime
             (λ w', files w' !! path = Some (Audio audio'))).
    + intros q v v' r Hq Hq' Hv. erewrite save_file_files_ne; [done..|].
      intros ->. done.
    + simpl. by rewrite lookup_insert_eq.
  - apply (save_loop_world_ind l (Some data) mime (λ w', path ∈ writes w')).
    + intros q v v' r _ [extra ->]%save_file_writes Hv. set_solver.
    + simpl. set_solver.
Qed.

Lemma tags_stay_when_the_art_write_fails_witness :
  stored_tag art_locked_run.1 "/music/2.mp3" "title" = Some ["Intro"] ∧
  saved_count (processing_finished art_locked_run.2) = 2 ∧
  errors (processing_finished art_locked_run.2) =
    ["Error saving 2.mp3: Failed to save album art: [Errno 28] No space left on device"].
Proof.
  set (X := process_and_save (λ _, false) ["/music/1.mp3"] title_edit
              (Some png_bytes) (Some "image/png") art_locked_world).
  set (audio' := {| tags := list_to_map [("artist", ["Someone"]); ("title", ["Intro"])];
                    art := ID3 ∅; rejects := ∅; save_error := None;
                    raw_save_error := Some "[Errno 28] No space left on device" |}).
  set (Z := process_and_save (λ _, false) ["/music/3.mp3"] title_edit
              (Some png_bytes) (Some "image/png") (persist "/music/2.mp3" audio' X.1)).
  assert (files X.1 !! "/music/2.mp3" = Some (Audio art_locked_file)) as Hf
    by (vm_compute; reflexivity).
  assert (save_tags title_edit art_locked_file = Ok audio') as Ht
    by (vm_compute; reflexivity).
  assert ((_save_album_art_to_file "/music/2.mp3" png_bytes (Some "image/png")
             (persist "/music/2.mp3" audio' X.1)).2
          = Raise "Failed to save album art: [Errno 28] No space left on device") as Ha
    by (vm_compute; reflexivity).
  assert ("/music/2.mp3" ∉ ["/music/3.mp3"]) as Hn by (by apply (bool_decide_unpack _)).
  pose proof (tags_stay_when_the_art_write_fails (λ _, false)
    ["/music/1.mp3"] "/music/2.mp3" ["/music/3.mp3"] title_edit png_bytes (Some "image/png")
    art_locked_world X.1 X.2 art_locked_file audio' _ Z.1 Z.2
    (λ _, eq_refl) (surjective_pairing X) Hf Ht eq_refl Ha (surjective_pairing Z) Hn)
    as (H1 & _ & H3 & H4).
  change (process_and_save _ _ _ _ _ _) with art_locked_run in H1, H3, H4.
  unfold stored_tag, stored_tags. rewrite H1, H3, H4. vm_compute. done.
Defined.

Lemma save_metadata_world stop ui w :
  selectedItems ui ≠ [] →
  (save_metadata stop ui w).1 =
    world (save_loop stop (length (selectedItems ui))
             (collect_tags ui (bool_decide (1 < length (selectedItems ui))))
             (if art_is_dirty ui then current_art_data ui else None)
             (if art_is_dirty ui then current_art_mime ui else None)
             0 (selectedItems ui)
             {| world := w; count := 0; errs := [];
                progress := [(0, length (selectedItems ui))] |}).
Proof. unfold save_metadata. by destruct (selectedItems ui). Qed.

(** C5.  With two or more files selected, a field whose check box is not
    checked keeps its stored value in every file, whatever its line edit
    shows: it is neither written nor deleted. *)
Theorem batch_mode_leaves_unchecked_fields stop ui w tag key path :
  1 < length (selectedItems ui) →
  (tag, key) ∈ TAG_MAP →
  isChecked ui tag = false →
  stored_tag (save_metadata stop ui w).1 path key = stored_tag w path key.
Proof.
  intros Hlen Hkey Hun.
  rewrite save_metadata_world by (intros Hnil; rewrite Hnil in Hlen; simpl in Hlen; lia).
  rewrite bool_decide_eq_true_2 by done.
  apply (save_loop_world_ind _ _ _ (λ w', stored_tag w' path key = stored_tag w path key));
    [|done].
  intros q v v' r _ Hq <-. eapply save_file_other_key; [done|].
  intros t x Hin Ht. unfold collect_tags in Hin.
  apply list_elem_of_fmap in Hin as (t' & [= -> ->] & Hin).
  apply list_elem_of_filter in Hin as [Hchecked _].
  rewrite (TAG_MAP_inj _ _ _ Ht Hkey) in Hchecked. congruence.
Qed.

Lemma batch_mode_leaves_unchecked_fields_witness :
  stored_tag (Metagify.save_metadata (λ _, false) title_only two_artists).1
    "/music/b.flac" "artist" = Some ["Bob"]
  ∧ stored_tag (Metagify.save_metadata (λ _, false) title_only two_artists).1
      "/music/b.flac" "title" = Some ["Live"].
Proof.
  assert (1 < length (selectedItems title_only)) as Hlen by (vm_compute; lia).
  assert (("Artist", "artist") ∈ TAG_MAP) as Hkey by (by apply (bool_decide_unpack _)).
  rewrite (batch_mode_leaves_unchecked_fields (λ _, false) title_only two_artists
             "Artist" "artist" "/music/b.flac" Hlen Hkey eq_refl).
  split; vm_compute; reflexivity.
Defined.

End batch_save.

Section field_writes.
Import MetagifyFacts MetatagFacts OutcomeFacts TableOutcomeFacts.



End field_writes.

(* ===================================================================== *)
(** * The release reconciliation engine *)
(* ===================================================================== *)

Section release.
Import Metagify MetagifyFacts ReleaseFacts.

(** C2.  When the number of selected files differs from the number of
    tracks of the release, [apply_musicbrainz_data] ends with the "Track
    Mismatch" warning, which carries both counts, and the world is
    untouched: no file is written, the write log is the same, and the
    worker is never started (no progress, no report).  First conjunct:
    Metagify; second conjunct: Metatag. *)
Theorem track_count_mismatch_writes_nothing :
  (∀ stop scaled release art_data art_mime selected_paths w tracks,
     track_list_of release = Ok tracks →
     length selected_paths ≠ length tracks →
     Metagify.apply_musicbrainz_data stop scaled release art_data art_mime selected_paths w
     = (w, Ok (Metagify.TrackMismatch
                 (Metagify.mismatch_warning (length selected_paths) (length tracks)))))
  ∧
  (∀ release art_data selected_rows w tracks,
     track_list_of release = Ok tracks →
     length selected_rows ≠ length tracks →
     Metatag.apply_musicbrainz_data release art_data selected_rows w
     = (w, Ok (Metatag.TrackMismatch
                 (Metatag.mismatch_warning (length selected_rows) (length tracks))))).
Proof.
  split.
  - intros * Ht Hne. unfold Metagify.apply_musicbrainz_data. rewrite Ht.
    by rewrite (proj2 (Nat.eqb_neq _ _) Hne).
  - intros * Ht Hne. unfold Metatag.apply_musicbrainz_data. rewrite Ht.
    by rewrite (proj2 (Nat.eqb_neq _ _) Hne).
Qed.

Lemma track_count_mismatch_writes_nothing_witness :
  Metagify.apply_musicbrainz_data (λ _, false) no_scaling two_track_release None None
    ["a.mp3"] two_mp3
  = (two_mp3,
     Ok (Metagify.TrackMismatch
           "You selected 1 files, but the MusicBrainz release has 2 tracks. Please select the correct number of files and ensure they are sorted by track number."))
  ∧
  Metatag.apply_musicbrainz_data two_track_release None ["a.mp3"] two_mp3
  = (two_mp3,
     Ok (Metatag.TrackMismatch "You selected 1 files, but the release has 2 tracks.")).
Proof.
  destruct track_count_mismatch_writes_nothing as [Hg Ht].
  assert (track_list_of two_track_release = Ok [track_one; track_two]) as Htr
    by reflexivity.
  assert (length ["a.mp3"] ≠ length [track_one; track_two]) as Hne by (simpl; lia).
  split.
  - exact (Hg (λ _, false) no_scaling two_track_release None None ["a.mp3"] two_mp3
             [track_one; track_two] Htr Hne).
  - exact (Ht two_track_release None ["a.mp3"] two_mp3 [track_one; track_two] Htr Hne).
Defined.

Lemma process_and_save_musicbrainz_Ok stop scaled paths release art_data art_mime w d :
  derive scaled release art_data art_mime = Ok d →
  let st := apply_loop stop (length paths) d art_mime 0 paths
              {| world := w; count := 0; errs := []; progress := [(0, length paths)] |} in
  process_and_save_musicbrainz stop scaled paths release art_data art_mime w
  = (world st,
     {| processing_progress := progress st;
        processing_error := None;
        processing_finished :=
          {| saved_count := count st; total_files := length paths; errors := errs st |} |}).
Proof. intros Hd. unfold process_and_save_musicbrainz. by rewrite Hd. Qed.

End release.

Section applied_release.
Import Metagify MetagifyFacts ReleaseFacts OutcomeFacts TableOutcomeFacts DateFacts.

(** The release worker, not stopped, on a release it can read: what is
    left for each of its paths. *)
Lemma release_worker_outcome stop scaled file_paths release art_data art_mime w d :
  (∀ j, stop j = false) →
  NoDup file_paths →
  derive scaled release art_data art_mime = Ok d →
  let r := process_and_save_musicbrainz stop scaled file_paths release art_data art_mime w in
  ∀ i path, file_paths !! i = Some path →
    (∃ audio audio',
       files w !! path = Some (Audio audio) ∧
       assign_track d i audio = Ok audio' ∧
       stored_tags r.1 path = Some (tags audio'))
    ∨ files w !! path = Some Unrecognised
    ∨ ∃ e, ("Error applying data to " +:+ basename path +:+ ": " +:+ e)
             ∈ errors (processing_finished r.2).
Proof.
  intros Hs Hnd Hd. cbv zeta.
  rewrite (process_and_save_musicbrainz_Ok _ _ _ _ _ _ _ _ Hd). cbv zeta.
  cbn [fst snd processing_finished errors].
  destruct (apply_loop_outcome stop (length file_paths) d art_mime file_paths 0
              {| world := w; count := 0; errs := [];
                 progress := [(0, length file_paths)] |} Hs Hnd) as (_ & _ & Hout).
  exact Hout.
Qed.



(** C9.  For a release whose date starts with a year of four digits, as
    the dates of the service do, both editors leave in the [date] key of
    every file the release is applied to the first four characters of
    the date: after a run that is not stopped every file holds them, or
    was skipped as unrecognised, or is reported.  First conjunct:
    [process_and_save_musicbrainz] of Metagify; second conjunct:
    [apply_musicbrainz_data] of Metatag. *)
Theorem year_is_the_first_four_characters :
  (∀ stop scaled file_paths release art_data art_mime w d date_text,
     (∀ j, stop j = false) →
     NoDup file_paths →
     Metagify.derive scaled release art_data art_mime = Ok d →
     date release = Some date_text →
     starts_with_year date_text = true →
     let r := Metagify.process_and_save_musicbrainz stop scaled file_paths release
                art_data art_mime w in
     ∀ i path, file_paths !! i = Some path →
       stored_tag r.1 path "date" = Some [Py.first4 date_text]
       ∨ files w !! path = Some Unrecognised
       ∨ ∃ e, ("Error applying data to " +:+ basename path +:+ ": " +:+ e)
                ∈ errors (processing_finished r.2))
  ∧
  (∀ release art_data selected_rows w tracks d date_text,
     NoDup selected_rows →
     track_list_of release = Ok tracks →
     length selected_rows = length tracks →
     Metatag.derive release tracks = Ok d →
     date release = Some date_text →
     starts_with_year date_text = true →
     let r := Metatag.apply_musicbrainz_data release art_data selected_rows w in
     ∀ i path, selected_rows !! i = Some path →
       stored_tag r.1 path "date" = Some [Py.first4 date_text]
       ∨ files w !! path = Some Unrecognised
       ∨ ∃ e status, r.2 = Ok (Metatag.Finished status) ∧
                     ("Error applying to " +:+ basename path +:+ ": " +:+ e) ∈ status).
Proof.
  split.
  - intros * Hs Hnd Hd Hdate Hyear. cbv zeta. intros i path Hi.
    destruct (release_worker_outcome stop scaled file_paths release art_data art_mime w d
                Hs Hnd Hd i path Hi) as [(audio & audio' & Hf & Ha & Hst)|[H|H]];
      [|by right; left|by right; right].
    left. destruct (derive_Ok _ _ _ _ _ Hd) as (medium & _ & _ & Hy & _).
    unfold Metagify.year_of in Hy. rewrite Hdate in Hy. simpl in Hy.
    rewrite (split_four_digit_year _ Hyear) in Hy. injection Hy as Hy.
    apply assign_track_Ok in Ha as (_ & ? & ? & ? & _ & _ & _ & _ & _ & _ & _ & Hdt & _).
    unfold stored_tag. rewrite Hst. simpl. by rewrite Hdt, <-Hy.
  - intros * Hnd Htr Hlen Hd Hdate Hyear. cbv zeta. intros i path Hi.
    unfold Metatag.apply_musicbrainz_data.
    rewrite Htr, Hlen, Nat.eqb_refl, Hd. cbn [negb].
    destruct (apply_rows_outcome d art_data selected_rows 0 w [] Hnd) as (_ & _ & Hout).
    destruct (Metatag.apply_rows _ _ _ _ _ _) as [w' status] eqn:E. cbn [fst snd] in *.
    destruct (Hout i path Hi) as [(audio & audio' & Hf & Ha & Hst)|[H|[e He]]].
    + left. apply MetatagFacts.mt_derive_year in Hd.
      unfold Metatag.year_of in Hd. rewrite Hdate in Hd.
      rewrite (split_four_digit_year _ Hyear) in Hd. injection Hd as Hy.
      apply MetatagFacts.mt_assign_track_date in Ha.
      unfold stored_tag. rewrite Hst. simpl. by rewrite Ha, <-Hy.
    + by right; left.
    + right; right. exists e. eexists. split; [done|].
      apply elem_of_app. by left.
Qed.

Lemma year_is_the_first_four_characters_witness :
  stored_tag
    (Metagify.process_and_save_musicbrainz (λ _, false) no_scaling ["a.mp3"; "b.mp3"]
       two_track_release None None two_mp3).1 "a.mp3" "date" = Some ["2020"]
  ∧
  stored_tag
    (Metatag.apply_musicbrainz_data credited_release None ["1.flac"] three_flac).1
    "1.flac" "date" = Some ["1999"].
Proof.
  destruct year_is_the_first_four_characters as [Hg Ht].
  split.
  - destruct (Metagify.derive no_scaling two_track_release None None) as [d|e] eqn:Hd;
      [|by vm_compute in Hd].
    assert (NoDup ["a.mp3"; "b.mp3"]) as Hnd by (by apply (bool_decide_unpack _)).
    destruct (Hg (λ _, false) no_scaling ["a.mp3"; "b.mp3"] two_track_release None None
                two_mp3 d "2020-05-01" (λ _, eq_refl) Hnd Hd eq_refl eq_refl 0 "a.mp3"
                eq_refl) as [H|[Hun|[e He]]].
    + exact H.
    + by vm_compute in Hun.
    + exfalso. vm_compute in He. by apply elem_of_nil in He.
  - assert (NoDup ["1.flac"]) as Hnd by (by apply (bool_decide_unpack _)).
    destruct (Metatag.derive credited_release [track_two]) as [d|e] eqn:Hd;
      [|by vm_compute in Hd].
    destruct (Ht credited_release None ["1.flac"] three_flac [track_two] d "1999-11"
                Hnd eq_refl eq_refl Hd eq_refl eq_refl 0 "1.flac" eq_refl)
      as [H|[Hun|(e & status & Hst & He)]].
    + exact H.
    + by vm_compute in Hun.
    + exfalso. vm_compute in Hst. injection Hst as <-.
      apply list_elem_of_singleton in He. discriminate He.
Defined.

End applied_release.

Section pairing.
Import Metagify MetagifyFacts ReleaseFacts OutcomeFacts.

(** C3 as stated fails: the sort is by basename only, and it is stable.
    Two selected files with the same basename keep their selection
    order, so the order of the selection decides which of them receives
    track 1: selected as [x/a.flac, y/a.flac] the first track goes to
    [x/a.flac], selected the other way round it goes to [y/a.flac]. *)
Lemma equal_basenames_are_paired_in_selection_order :
  let run selected :=
    (Metagify.apply_musicbrainz_data (λ _, false) no_scaling two_track_release None None
       selected same_name_world).1 in
  basename "x/a.flac" = basename "y/a.flac" ∧
  stored_tag (run ["x/a.flac"; "y/a.flac"]) "x/a.flac" "title" = Some ["First"] ∧
  stored_tag (run ["y/a.flac"; "x/a.flac"]) "x/a.flac" "title" = Some ["Second"] ∧
  stored_tag (run ["y/a.flac"; "x/a.flac"]) "y/a.flac" "title" = Some ["First"].
Proof. vm_compute. done. Qed.

(** C3, amended.  When the counts agree, [apply_musicbrainz_data] hands
    the worker the selection sorted by basename (a stable sort: a
    permutation of the selection, in basename order, in which the files
    of one basename keep their selection order), and the worker pairs the
    [i]-th path of that list with the [i]-th track: after a run that is
    not stopped every path of the sorted list holds the title of its
    track (where the container keeps the text as given), unless the file
    was skipped as unrecognised or is reported in the error list.  When
    the selected files have pairwise distinct basenames, the order of the
    selection has no influence at all. *)
Theorem files_are_paired_in_basename_order
    stop scaled release art_data art_mime selected w d :
  (∀ j, stop j = false) →
  NoDup selected →
  derive scaled release art_data art_mime = Ok d →
  length selected = length (tracks d) →
  let sorted := Py.sort_by basename selected in
  let r := apply_musicbrainz_data stop scaled release art_data art_mime selected w in
  Sorted (key_le basename) sorted ∧
  sorted ≡ₚ selected ∧
  (∀ name, filter (λ path, basename path = name) sorted
           = filter (λ path, basename path = name) selected) ∧
  r = (let '(w', e) :=
         process_and_save_musicbrainz stop scaled sorted release art_data art_mime w in
       (w', Ok (Processed e))) ∧
  (∀ i path, sorted !! i = Some path →
     (∃ audio track t,
        files w !! path = Some (Audio audio) ∧
        tracks d !! i = Some track ∧
        recording_title track = Ok t ∧
        (kept_as_given (art audio) "title" t = true →
         stored_tag r.1 path "title" = Some [t]))
     ∨ files w !! path = Some Unrecognised
     ∨ ∃ e out, r.2 = Ok (Processed out) ∧
                ("Error applying data to " +:+ basename path +:+ ": " +:+ e)
                  ∈ errors (processing_finished out)) ∧
  (NoDup (basename <$> selected) →
   ∀ selected', selected' ≡ₚ selected →
     apply_musicbrainz_data stop scaled release art_data art_mime selected' w = r).
Proof.
  intros Hs Hnd Hd Hlen. cbv zeta.
  split; [apply sort_by_Sorted|]. split; [apply sort_by_Permutation|].
  split; [intros name; apply sort_by_stable|].
  destruct (derive_Ok _ _ _ _ _ Hd) as (medium & Hm & Htl & _ & _).
  assert (track_list_of release = Ok (tracks d)) as Htr.
  { apply track_list_of_Ok. eauto. }
  assert (∀ sel, length sel = length (tracks d) →
            apply_musicbrainz_data stop scaled release art_data art_mime sel w
            = (let '(w', e) :=
                 process_and_save_musicbrainz stop scaled (Py.sort_by basename sel)
                   release art_data art_mime w in
               (w', Ok (Processed e)))) as Hrun.
  { intros sel Hsel. unfold apply_musicbrainz_data. rewrite Htr, Hsel, Nat.eqb_refl. done. }
  split; [by apply Hrun|]. split.
  - rewrite Hrun by done.
    set (sorted := Py.sort_by basename selected).
    assert (NoDup sorted) as Hnd' by (unfold sorted; by rewrite sort_by_Permutation).
    pose proof (release_worker_outcome stop scaled sorted release art_data art_mime w d
                  Hs Hnd' Hd) as Hout. cbv zeta in Hout.
    destruct (process_and_save_musicbrainz stop scaled sorted release art_data art_mime w)
      as [w' out] eqn:E. cbn [fst snd] in *.
    intros i path Hi.
    destruct (Hout i path Hi) as [(audio & audio' & Hf & Ha & Hst)|[H|[e H]]].
    + left. apply assign_track_Ok in Ha
        as (_ & track & num & t & Htrk & _ & Ht & Htitle & _).
      exists audio, track, t. repeat (split; [done|]). intros _.
      unfold stored_tag. rewrite Hst. simpl. done.
    + right; left. done.
    + right; right. exists e, out. done.
  - intros Hbn selected' Hp.
    rewrite !Hrun; [|done|by rewrite Hp].
    by rewrite (sort_by_order_irrelevant basename selected selected').
Qed.

(** Files [b.mp3, a.mp3] and tracks 1 and 2: track 1 goes to [a.mp3]. *)
Lemma files_are_paired_in_basename_order_witness :
  Py.sort_by basename ["b.mp3"; "a.mp3"] = ["a.mp3"; "b.mp3"] ∧
  stored_tag paired_run.1 "a.mp3" "title" = Some ["First"] ∧
  stored_tag paired_run.1 "b.mp3" "title" = Some ["Second"].
Proof.
  destruct (Metagify.derive no_scaling two_track_release None None) as [d|e] eqn:Hd;
    [|by vm_compute in Hd].
  assert (NoDup ["b.mp3"; "a.mp3"]) as Hnd by (by apply (bool_decide_unpack _)).
  assert (length ["b.mp3"; "a.mp3"] = length (tracks d)) as Hlen.
  { vm_compute in Hd. by injection Hd as <-. }
  destruct (files_are_paired_in_basename_order (λ _, false) no_scaling two_track_release
              None None ["b.mp3"; "a.mp3"] two_mp3 d (λ _, eq_refl) Hnd Hd Hlen)
    as (_ & _ & _ & _ & Hpair & _).
  fold paired_run in Hpair.
  assert (d = {| tracks := [track_one; track_two]; album_artist := "The Band";
                 album_title := "Album"; year := "2020"; total_tracks := Int 2;
                 resized_art_data := None |}) as ->.
  { vm_compute in Hd. by injection Hd as <-. }
  split; [reflexivity|].
  assert (∀ path out e, paired_run.2 = Ok (Processed out) →
            ("Error applying data to " +:+ basename path +:+ ": " +:+ e)
              ∈ errors (processing_finished out) → False) as Hnoerr.
  { intros path out e Hout. vm_compute in Hout. injection Hout as <-.
    simpl. apply not_elem_of_nil. }
  split.
  - destruct (Hpair 0 "a.mp3" eq_refl)
      as [(audio & track & t & Hf & Htr & Ht & Htitle)|[Hun|(e & out & Hout & He)]];
      [|by vm_compute in Hun|by destruct (Hnoerr _ _ _ Hout He)].
    injection Htr as <-. injection Ht as <-.
    vm_compute in Hf. injection Hf as <-. by apply Htitle.
  - destruct (Hpair 1 "b.mp3" eq_refl)
      as [(audio & track & t & Hf & Htr & Ht & Htitle)|[Hun|(e & out & Hout & He)]];
      [|by vm_compute in Hun|by destruct (Hnoerr _ _ _ Hout He)].
    injection Htr as <-. injection Ht as <-.
    vm_compute in Hf. injection Hf as <-. by apply Htitle.
Defined.

End pairing.

(* ===================================================================== *)
(** * The format adapter: embedded pictures *)
(* ===================================================================== *)

Section pictures.
Import Metagify MetagifyFacts.

(** C4: the picture written to an MP3 file is not read back.  For an
    MP3 file that carries an ID3 tag, [_save_album_art_to_file] succeeds
    and leaves one picture, the frame described 'Cover'; [load_album_art]
    then asks for the frame with the empty description, finds none, falls
    through to the [pictures] attribute that only FLAC files have, and
    shows "Error Loading Art". *)
Theorem written_mp3_picture_is_not_read_back path data mime w f frames :
  files w !! path = Some (Audio f) →
  art f = ID3 frames →
  tags f ≠ ∅ →
  raw_save_error f = None →
  Py.lower (splitext_ext path) = ".mp3" →
  data ≠ [] →
  ∃ f',
    _save_album_art_to_file path data (Some mime) w = (persist path f' w, Ok ()) ∧
    tags f' = tags f ∧
    art f' = ID3 {["Cover" := cover (Some mime) data]} ∧
    embedded (art f') = [data] ∧
    load_album_art (persist path f' w) path = ErrorLoadingArt.
Proof.
  intros Hf Ha _ Hs Hext Hdata. apply File_Some in Hf.
  exists (set_art (ID3 {["Cover" := cover (Some mime) data]}) f).
  assert (is_empty data = false) as He by (by destruct data).
  split.
  - unfold _save_album_art_to_file. rewrite Hf, Hext, Ha, He. cbn.
    unfold save_raw. cbn. by rewrite Hs.
  - split; [done|]. split; [done|]. split.
    + cbn. by rewrite map_to_list_singleton.
    + unfold load_album_art. rewrite File_persist.
      unfold find_artwork, contains_raw. cbn. done.
Qed.

Lemma written_mp3_picture_is_not_read_back_witness :
  written_then_read "song.mp3" png_bytes (Some "image/png") titled_mp3_world
  = (Ok (), Some [png_bytes], ErrorLoadingArt).
Proof.
  destruct (written_mp3_picture_is_not_read_back "song.mp3" png_bytes "image/png"
              titled_mp3_world titled_mp3 ∅ eq_refl eq_refl) as (f' & Hw & _ & _ & Hemb & Hread);
    [by vm_compute|reflexivity|reflexivity|done|].
  unfold written_then_read. rewrite Hw, Hread.
  unfold stored_art, persist. simpl. rewrite lookup_insert_eq. simpl. by rewrite Hemb.
Defined.

End pictures.

(* ===================================================================== *)
(** * Further properties: the batch save engine *)
(* ===================================================================== *)

Module BatchFacts.
Import Metagify MetagifyFacts.

Lemma art_write_log p data mime w w' r :
  _save_album_art_to_file p data mime w = (w', r) →
  ∃ extra, writes w' = writes w ++ extra ∧ ∀ x, x ∈ extra → x = p.
Proof.
  intros [->|(audio & a & _ & _ & -> & _)]%art_write_inv.
  - exists []. rewrite app_nil_r. split; [done|]. by intros x ?%elem_of_nil.
  - exists [p]. split; [done|]. by intros x ->%list_elem_of_singleton.
Qed.

Lemma save_file_log l a m p w w' r :
  save_file l a m p w = (w', r) →
  ∃ extra, writes w' = writes w ++ extra ∧ ∀ x, x ∈ extra → x = p.
Proof.
  intros [[-> _]|(audio & audio' & _ & _ & _ & H)]%save_file_inv.
  { exists []. rewrite app_nil_r. split; [done|]. by intros x ?%elem_of_nil. }
  destruct a as [data|].
  - apply art_write_log in H as (extra & -> & Hx). simpl.
    exists (p :: extra). rewrite <-app_assoc. split; [done|].
    intros x [->|?]%elem_of_cons; [done|by apply Hx].
  - destruct H as [-> _]. exists [p]. split; [done|].
    by intros x ->%list_elem_of_singleton.
Qed.

(** Whatever the stop flag does, each iteration that runs adds one progress
    signal and one unit to either the saved count or the error list. *)
Lemma save_loop_accounting stop total l a m paths : ∀ i st,
  let s := save_loop stop total l a m i paths st in
  ∃ k, k ≤ length paths ∧
       count s + length (errs s) = count st + length (errs st) + k ∧
       length (progress s) = length (progress st) + k ∧
       ((∀ j, stop j = false) → k = length paths).
Proof.
  induction paths as [|p paths IH]; intros i st; simpl.
  { exists 0. repeat split; lia. }
  destruct (stop i) eqn:Hi.
  { exists 0. repeat split; try lia. intros Hs. rewrite Hs in Hi. done. }
  destruct (IH (S i) (save_step total l a m i p st)) as (k & Hk & Hc & Hp & Hn).
  exists (S k). rewrite Hc, Hp. unfold save_step.
  destruct (save_file l a m p (world st)) as [w' [[]|e]]; simpl;
    rewrite ?length_app; simpl; repeat split; try lia; intros Hs; rewrite Hn; done.
Qed.

(** An entry whose key the file rejects makes the whole dictionary fail. *)
Lemma save_tags_rejected l : ∀ audio tag value key e,
  (tag, value) ∈ l → value ≠ "" → (tag, key) ∈ TAG_MAP →
  rejects audio !! key = Some e →
  ∃ e', save_tags l audio = Raise e'.
Proof.
  induction l as [|[t0 v0] l IH]; intros audio tag value key e Hin Hv Hk Hr.
  { by apply elem_of_nil in Hin. }
  simpl. destruct (TAG_MAP_item t0) as [k0|e0] eqn:Hk0; [|by eexists].
  simpl. destruct (write_field k0 v0 audio) as [a1|e1] eqn:Hw; [|by eexists].
  simpl. apply elem_of_cons in Hin as [[= <- <-]|Hin].
  - exfalso. apply TAG_MAP_item_Ok in Hk0.
    assert (k0 = key) as ->.
    { apply TAG_MAP_item_Ok in Hk0, Hk. congruence. }
    unfold write_field in Hw. rewrite (proj2 (String.eqb_neq _ _) Hv) in Hw.
    simpl in Hw. unfold setitem in Hw. by rewrite Hr in Hw.
  - apply write_field_Ok in Hw as (_ & _ & (_ & Hrej & _)).
    eapply IH; [done..|]. by rewrite Hrej.
Qed.

End BatchFacts.

Section batch_save_more.
Import Metagify MetagifyFacts BatchFacts.

(** X1.  [process_and_save] touches nothing but the files it is given: a
    path outside [file_paths] holds what it held, and every entry the run
    adds to the write log is one of [file_paths]. *)
Theorem process_and_save_touches_only_its_files stop file_paths l a m w :
  (∀ q, q ∉ file_paths →
        files (process_and_save stop file_paths l a m w).1 !! q = files w !! q) ∧
  (∃ log, writes (process_and_save stop file_paths l a m w).1 = writes w ++ log ∧
          ∀ x, x ∈ log → x ∈ file_paths).
Proof.
  unfold process_and_save, finish. cbn [fst].
  apply (save_loop_world_ind l a m
           (λ w', (∀ q, q ∉ file_paths → files w' !! q = files w !! q) ∧
                  (∃ log, writes w' = writes w ++ log ∧ ∀ x, x ∈ log → x ∈ file_paths))).
  - intros p v v' r Hp Hsf [Hfr (log & Hlog & Hin)]. split.
    + intros q Hq. rewrite <-Hfr by done.
      eapply save_file_files_ne; [done|]. intros ->. done.
    + apply save_file_log in Hsf as (extra & -> & Hx).
      exists (log ++ extra). rewrite Hlog, <-app_assoc. split; [done|].
      intros x [?|?]%elem_of_app; [by apply Hin|]. by rewrite (Hx x).
  - simpl. split; [done|]. exists []. rewrite app_nil_r. split; [done|].
    by intros x ?%elem_of_nil.
Qed.

(** X2.  The report of [process_and_save] adds up, stopped or not: the
    total is the length of the batch, every progress signal after the first
    stands for one file that was attempted, and each attempted file is
    either counted as saved or has one error entry.  Hence the saved count
    never exceeds the total; when the stop flag is never set every file is
    attempted. *)
Theorem process_and_save_report_adds_up stop file_paths l a m w :
  let o := (process_and_save stop file_paths l a m w).2 in
  total_files (processing_finished o) = length file_paths ∧
  processing_error o = None ∧
  length (processing_progress o)
    = S (saved_count (processing_finished o) + length (errors (processing_finished o))) ∧
  saved_count (processing_finished o) + length (errors (processing_finished o))
    ≤ length file_paths ∧
  ((∀ j, stop j = false) →
   saved_count (processing_finished o) + length (errors (processing_finished o))
     = length file_paths).
Proof.
  unfold process_and_save, finish. cbn [snd].
  match goal with |- context [save_loop stop ?t l a m 0 file_paths ?st] =>
    destruct (save_loop_accounting stop t l a m file_paths 0 st) as (k & Hk & Hc & Hp & Hn)
  end.
  simpl in *. rewrite Hc, Hp. repeat split; try lia. intros Hs. rewrite Hn; done.
Qed.

(** X3.  No partial tag write.  When the file rejects the key of one entry
    with a non-empty value, the [try] body for that file raises and the
    world is left as it was: the entries assigned in memory before the
    rejected one are not persisted, and the picture writer is not
    reached. *)
Theorem rejected_key_leaves_the_file_untouched
    l a m path w audio tag value key e :
  files w !! path = Some (Audio audio) →
  (tag, value) ∈ l →
  value ≠ "" →
  (tag, key) ∈ TAG_MAP →
  rejects audio !! key = Some e →
  ∃ e', save_file l a m path w = (w, Raise e').
Proof.
  intros Hf%File_Some Hin Hv Hk Hr.
  destruct (save_tags_rejected l audio tag value key e Hin Hv Hk Hr) as [e' He'].
  exists e'. unfold save_file. rewrite Hf. simpl. by rewrite He'.
Qed.

Lemma rejected_key_leaves_the_file_untouched_witness :
  Metagify.save_file [("Title", "Intro"); ("Comment", "live")] (Some png_bytes)
    (Some "image/png") "/music/1.mp3" no_comment_world
  = (no_comment_world, Raise "'comment' is not a valid key").
Proof.
  assert (files no_comment_world !! "/music/1.mp3" = Some (Audio no_comment_file)) as Hf
    by reflexivity.
  assert (("Comment", "live") ∈ [("Title", "Intro"); ("Comment", "live")]) as Hin
    by (by apply (bool_decide_unpack _)).
  assert (("Comment", "comment") ∈ TAG_MAP) as Hk by (by apply (bool_decide_unpack _)).
  destruct (rejected_key_leaves_the_file_untouched
              [("Title", "Intro"); ("Comment", "live")] (Some png_bytes) (Some "image/png")
              "/music/1.mp3" no_comment_world no_comment_file "Comment" "live" "comment"
              "'comment' is not a valid key" Hf Hin ltac:(done) Hk eq_refl) as [e' He'].
  rewrite He'. vm_compute in He'. injection He' as <-. reflexivity.
Defined.

End batch_save_more.

(* ===================================================================== *)
(** * Further properties: applying a release *)
(* ===================================================================== *)

Module ApplyFacts.
Import Metagify MetagifyFacts ReleaseFacts.

Lemma derive_release scaled release a m d :
  derive scaled release a m = Ok d →
  artist_credit_phrase release = Some (album_artist d) ∧
  title release = Some (album_title d).
Proof.
  unfold derive.
  intros (medium & Hm & (trs & Htr & (aa & Haa%getitem_Ok & (at' & Hat%getitem_Ok &
    (y & Hy & (medium' & Hm' & (res & _ & [= <-])%bind_Ok)%bind_Ok)%bind_Ok)%bind_Ok)
    %bind_Ok)%bind_Ok)%bind_Ok.
  done.
Qed.

(** A release that lacks one of the keys read before the loop makes
    [derive] raise. *)
Lemma derive_Raise scaled release a m :
  medium_list release = None ∨ medium_list release = Some [] ∨
  (∃ medium rest, medium_list release = Some (medium :: rest) ∧ track_list medium = None) ∨
  artist_credit_phrase release = None ∨ title release = None →
  ∃ e, derive scaled release a m = Raise e.
Proof.
  intros H. unfold derive, first_medium.
  destruct (medium_list release) as [[|medium rest]|] eqn:Hml; simpl; [by eauto| |by eauto].
  destruct (track_list medium) as [trs|] eqn:Htl; simpl; [|by eauto].
  destruct (artist_credit_phrase release) as [aa|] eqn:Haa; simpl; [|by eauto].
  destruct (title release) as [tt|] eqn:Htt; simpl; [|by eauto].
  exfalso. destruct H as [H|[H|[(? & ? & H1 & H2)|[H|H]]]]; simplify_eq.
Qed.

Lemma assign_track_missing d i audio e :
  missing_track_data (tracks d) i = Some e → assign_track d i audio = Raise e.
Proof.
  unfold missing_track_data, assign_track, Py.index, recording_title.
  destruct (tracks d !! i) as [track|]; simpl; [|by intros [= <-]].
  destruct (number track); simpl; [|by intros [= <-]].
  destruct (recording track) as [r|]; simpl; [|by intros [= <-]].
  destruct (rec_title r); simpl; [done|by intros [= <-]].
Qed.

(** On files the library does not recognise the release loop does
    nothing at all. *)
Lemma apply_loop_unrecognised stop total d mime paths : ∀ i st,
  (∀ p, p ∈ paths → files (world st) !! p = Some Unrecognised) →
  apply_loop stop total d mime i paths st = st.
Proof.
  induction paths as [|p paths IH]; intros i st Hall; simpl; [done|].
  destruct (stop i); [done|].
  assert (apply_step total d mime i p st = st) as ->.
  { unfold apply_step, apply_file.
    rewrite (proj2 (File_None _ _) (Hall p ltac:(left))). by destruct st. }
  apply IH. intros q Hq. apply Hall. by right.
Qed.

Lemma summary_unrecognised l a m paths : ∀ w,
  (∀ p, p ∈ paths → files w !! p = Some Unrecognised) →
  world (summary l a m paths w) = w ∧
  count (summary l a m paths w) = 0 ∧
  errs (summary l a m paths w)
    = (λ p, "Error saving " +:+ basename p +:+ ": File could not be opened by mutagen.")
        <$> paths.
Proof.
  induction paths as [|p paths IH]; intros w Hall; [done|].
  destruct (summary_app l a m [p] paths w) as (Hw & Hc & He).
  pose proof (summary_one l a m p w) as H1.
  assert (save_file l a m p w = (w, Raise "File could not be opened by mutagen.")) as Hsf.
  { unfold save_file. by rewrite (proj2 (File_None _ _) (Hall p ltac:(left))). }
  rewrite Hsf in H1. destruct H1 as (H1w & H1c & H1e).
  simpl in Hw, Hc, He. rewrite H1w in Hw, Hc, He.
  destruct (IH w) as (IHw & IHc & IHe); [intros q Hq; apply Hall; by right|].
  rewrite Hw, Hc, He, H1c, H1e, IHw, IHc, IHe. done.
Qed.

End ApplyFacts.

Section release_more.
Import Metagify MetagifyFacts ReleaseFacts ApplyFacts.

(** X4.  A release payload without 'medium-list', with an empty medium
    list, without 'track-list' in its first medium, without
    'artist-credit-phrase' or without 'title' stops
    [process_and_save_musicbrainz] before its loop: the world is untouched,
    [processing_error] is emitted, and the report counts no file and holds
    the one aggregated entry; progress stays at (0, total). *)
Theorem malformed_release_writes_nothing
    stop scaled file_paths release art_data art_mime w :
  medium_list release = None ∨ medium_list release = Some [] ∨
  (∃ medium rest, medium_list release = Some (medium :: rest) ∧ track_list medium = None) ∨
  artist_credit_phrase release = None ∨ title release = None →
  ∃ e,
    process_and_save_musicbrainz stop scaled file_paths release art_data art_mime w
    = (w,
       {| processing_progress := [(0, length file_paths)];
          processing_error := Some ("MusicBrainz application failed: " +:+ e);
          processing_finished :=
            {| saved_count := 0;
               total_files := length file_paths;
               errors := ["MusicBrainz data application failed: " +:+ e] |} |}).
Proof.
  intros [e He]%(derive_Raise scaled release art_data art_mime).
  exists e. unfold process_and_save_musicbrainz. by rewrite He.
Qed.

Lemma malformed_release_writes_nothing_witness :
  Metagify.process_and_save_musicbrainz (λ _, false) no_scaling ["a.mp3"; "b.mp3"]
    untitled_release None None two_mp3
  = (two_mp3,
     {| processing_progress := [(0, 2)];
        processing_error := Some "MusicBrainz application failed: 'title'";
        processing_finished :=
          {| saved_count := 0; total_files := 2;
             errors := ["MusicBrainz data application failed: 'title'"] |} |}).
Proof.
  destruct (malformed_release_writes_nothing (λ _, false) no_scaling ["a.mp3"; "b.mp3"]
              untitled_release None None two_mp3
              ltac:(right; right; right; right; reflexivity)) as [e He].
  rewrite He. vm_compute in He. injection He as <-. reflexivity.
Defined.

(** X5.  Files that the tag library does not recognise are treated
    differently by the two workers.  [process_and_save_musicbrainz] skips
    them with [continue]: nothing is counted, nothing is reported, and not
    even progress is emitted for them.  [process_and_save] reports each of
    them with "File could not be opened by mutagen.".  Neither writes. *)
Theorem unrecognised_files_are_skipped_or_reported
    stop scaled file_paths release art_data art_mime d l a m w :
  (∀ p, p ∈ file_paths → files w !! p = Some Unrecognised) →
  derive scaled release art_data art_mime = Ok d →
  process_and_save_musicbrainz stop scaled file_paths release art_data art_mime w
  = (w,
     {| processing_progress := [(0, length file_paths)];
        processing_error := None;
        processing_finished :=
          {| saved_count := 0; total_files := length file_paths; errors := [] |} |})
  ∧
  process_and_save (λ _, false) file_paths l a m w
  = (w,
     {| processing_progress :=
          (λ j, (j, length file_paths)) <$> seq 0 (S (length file_paths));
        processing_error := None;
        processing_finished :=
          {| saved_count := 0;
             total_files := length file_paths;
             errors :=
               (λ p, "Error saving " +:+ basename p
                     +:+ ": File could not be opened by mutagen.") <$> file_paths |} |}).
Proof.
  intros Hall Hd. split.
  - unfold process_and_save_musicbrainz. rewrite Hd.
    by rewrite apply_loop_unrecognised.
  - rewrite process_and_save_summary by done.
    destruct (summary_unrecognised l a m file_paths w Hall) as (-> & -> & ->). done.
Qed.

Lemma unrecognised_files_are_skipped_or_reported_witness :
  (Metagify.process_and_save_musicbrainz (λ _, false) no_scaling ["a.mp3"; "b.mp3"]
     two_track_release None None two_texts).2
  = {| processing_progress := [(0, 2)];
       processing_error := None;
       processing_finished := {| saved_count := 0; total_files := 2; errors := [] |} |}
  ∧
  errors (processing_finished
            (Metagify.process_and_save (λ _, false) ["a.mp3"; "b.mp3"] title_edit None None
               two_texts).2)
  = ["Error saving a.mp3: File could not be opened by mutagen.";
     "Error saving b.mp3: File could not be opened by mutagen."].
Proof.
  destruct (Metagify.derive no_scaling two_track_release None None) as [d|e] eqn:Hd;
    [|by vm_compute in Hd].
  assert (∀ p, p ∈ ["a.mp3"; "b.mp3"] → files two_texts !! p = Some Unrecognised) as Hall.
  { intros p [->|[->|[]%elem_of_nil]%elem_of_cons]%elem_of_cons; reflexivity. }
  destruct (unrecognised_files_are_skipped_or_reported (λ _, false) no_scaling
              ["a.mp3"; "b.mp3"] two_track_release None None d title_edit None None
              two_texts Hall Hd) as [H1 H2].
  rewrite H1, H2. done.
Defined.

(** X6.  Besides the year and the track number, every file to which track
    [i] was applied stores the title of the track's recording, as artist
    the track's own 'artist-credit-phrase' when it has one and the
    release's otherwise, the release's 'artist-credit-phrase' as album
    artist and the release's title as album. *)
Theorem applied_file_holds_the_derived_tags
    scaled release art_data art_mime d i path w w' :
  derive scaled release art_data art_mime = Ok d →
  apply_file d art_mime i path w = (w', Applied) →
  ∃ track t release_artist release_title,
    tracks d !! i = Some track ∧
    recording_title track = Ok t ∧
    artist_credit_phrase release = Some release_artist ∧
    title release = Some release_title ∧
    stored_tag w' path "title" = Some [t] ∧
    stored_tag w' path "artist"
      = Some [match track_credit track with
              | Some credit => credit
              | None => release_artist
              end] ∧
    stored_tag w' path "albumartist" = Some [release_artist] ∧
    stored_tag w' path "album" = Some [release_title].
Proof.
  intros [Haa Hat]%derive_release
    [[_ [[[=] _]|[e [=]]]]|(audio & audio' & Hf & Ha & _ & Hst & _ & _)]%apply_file_inv.
  apply assign_track_Ok in Ha
    as (_ & track & num & t & Htr & _ & Ht & H1 & H2 & H3 & H4 & _ & _).
  exists track, t, (album_artist d), (album_title d).
  unfold stored_tag. rewrite Hst, stored_tags_persist, decide_True by done. simpl.
  repeat split; done.
Qed.

Lemma applied_file_holds_the_derived_tags_witness :
  stored_tag dated_applied.1 "a.mp3" "artist" = Some ["The Band"] ∧
  stored_tag dated_applied.1 "a.mp3" "album" = Some ["Album"].
Proof.
  destruct (Metagify.derive no_scaling two_track_release None None) as [d|e] eqn:Hd;
    [|by vm_compute in Hd].
  assert (Metagify.apply_file d None 0 "a.mp3" two_mp3 = (dated_applied.1, Applied)) as Ha.
  { unfold dated_applied. rewrite Hd. vm_compute in Hd. injection Hd as <-.
    vm_compute. reflexivity. }
  destruct (applied_file_holds_the_derived_tags no_scaling two_track_release None None d 0
              "a.mp3" two_mp3 dated_applied.1 Hd Ha)
    as (track & t & ra & rt & Htr & _ & Hra & Hrt & _ & Hartist & _ & Halbum).
  vm_compute in Hd. injection Hd as <-.
  injection Htr as <-. injection Hra as <-. injection Hrt as <-.
  split; [exact Hartist|exact Halbum].
Defined.

(** X7.  A release without 'date' is no error: the year is the empty
    text, and it is assigned like any other value.  A container that
    keeps an empty text, as the Vorbis comments of FLAC and Ogg files do,
    ends with a [date] key that holds the empty string.  (The editors
    delete a key whose field is empty; the release path does not.)  First
    conjunct: Metagify; second conjunct: Metatag. *)
Theorem undated_release_stores_a_blank_date :
  (∀ scaled release art_data art_mime d i path w w' audio,
     date release = None →
     files w !! path = Some (Audio audio) →
     kept_as_given (art audio) "date" "" = true →
     Metagify.derive scaled release art_data art_mime = Ok d →
     Metagify.apply_file d art_mime i path w = (w', Metagify.Applied) →
     stored_tag w' path "date" = Some [""])
  ∧
  (∀ release tracks art_data d i path w w' audio,
     date release = None →
     files w !! path = Some (Audio audio) →
     kept_as_given (art audio) "date" "" = true →
     Metatag.derive release tracks = Ok d →
     Metatag.apply_row d art_data i path w = (w', Metatag.Saved) →
     stored_tag w' path "date" = Some [""]).
Proof.
  split.
  - intros * Hdate _ _ (medium & _ & _ & Hy & _)%derive_Ok
      [[_ [[[=] _]|[e [=]]]]|(audio1 & audio' & Hf & Ha & _ & Hst & _ & _)]%apply_file_inv.
    unfold Metagify.year_of in Hy. rewrite Hdate in Hy. injection Hy as Hy.
    apply assign_track_Ok in Ha as (_ & ? & ? & ? & _ & _ & _ & _ & _ & _ & _ & Hd & _).
    unfold stored_tag. rewrite Hst, stored_tags_persist, decide_True by done. simpl.
    by rewrite Hd, <-Hy.
  - intros * Hdate _ _ Hd Hrow.
    rewrite (MetatagFacts.mt_apply_row_date _ _ _ _ _ _ Hrow).
    apply MetatagFacts.mt_derive_year in Hd. unfold Metatag.year_of in Hd.
    rewrite Hdate in Hd. by injection Hd as <-.
Qed.

Lemma undated_release_stores_a_blank_date_witness :
  undated_applied.2 = Metagify.Applied ∧
  stored_tag undated_applied.1 "/music/a.ogg" "date" = Some [""].
Proof.
  destruct undated_release_stores_a_blank_date as [Hg _].
  destruct (Metagify.derive no_scaling undated_release None None) as [d|e] eqn:Hd;
    [|by vm_compute in Hd].
  assert (Metagify.apply_file d None 0 "/music/a.ogg" two_ogg
          = (undated_applied.1, Applied)) as Ha.
  { unfold undated_applied. rewrite Hd. vm_compute in Hd. injection Hd as <-.
    vm_compute. reflexivity. }
  split; [by vm_compute|].
  exact (Hg no_scaling undated_release None None d 0 "/music/a.ogg" two_ogg
           undated_applied.1
           (sound_file [("title", ["Old"]); ("artist", ["Ann"; "Bob"])] (OggVorbis None))
           eq_refl eq_refl eq_refl Hd Ha).
Defined.

(** X8.  A file paired with no track, or with a track entry that lacks
    'number', 'recording' or the recording's 'title', is reported with the
    text of the [IndexError] or [KeyError] and is not written. *)
Theorem missing_track_data_is_reported d art_mime i path w audio e :
  files w !! path = Some (Audio audio) →
  missing_track_data (tracks d) i = Some e →
  apply_file d art_mime i path w = (w, Failed e) ∧
  ∀ total st,
    world st = w →
    let st' := apply_step total d art_mime i path st in
    world st' = w ∧ count st' = count st ∧
    errs st' = errs st ++ ["Error applying data to " +:+ basename path +:+ ": " +:+ e].
Proof.
  intros Hf%File_Some Hm.
  assert (apply_file d art_mime i path w = (w, Failed e)) as Ha.
  { unfold apply_file. rewrite Hf. simpl.
    by rewrite (assign_track_missing d i audio e Hm). }
  split; [done|]. intros total st <-. unfold apply_step. by rewrite Ha.
Qed.

Lemma missing_track_data_is_reported_witness :
  unnumbered_applied = (two_mp3, Metagify.Failed "'number'").
Proof.
  destruct (Metagify.derive no_scaling unnumbered_release None None) as [d|e] eqn:Hd;
    [|by vm_compute in Hd].
  assert (missing_track_data (tracks d) 1 = Some "'number'") as Hm.
  { vm_compute in Hd. by injection Hd as <-. }
  destruct (missing_track_data_is_reported d None 1 "b.mp3" two_mp3
              (sound_file [] (ID3 ∅)) "'number'" eq_refl Hm) as [Ha _].
  unfold unnumbered_applied. by rewrite Hd.
Defined.

End release_more.

(* ===================================================================== *)
(** * Further properties: the editor panel *)
(* ===================================================================== *)

Module EditorFacts.
Import Metagify MetagifyFacts.

Lemma TAG_MAP_tags_NoDup : NoDup (TAG_MAP.*1).
Proof. vm_compute. by apply (bool_decide_unpack _). Qed.

Lemma TAG_MAP_fun tag k1 k2 : (tag, k1) ∈ TAG_MAP → (tag, k2) ∈ TAG_MAP → k1 = k2.
Proof. intros H1%TAG_MAP_item_Ok H2%TAG_MAP_item_Ok. congruence. Qed.

(** The loop over the fields leaves the selection, the check boxes and
    the pending art alone. *)
Lemma load_fields_frame entries audio : ∀ ui,
  selectedItems (load_fields entries audio ui).1 = selectedItems ui ∧
  isChecked (load_fields entries audio ui).1 = isChecked ui ∧
  current_art_data (load_fields entries audio ui).1 = current_art_data ui ∧
  current_art_mime (load_fields entries audio ui).1 = current_art_mime ui ∧
  art_is_dirty (load_fields entries audio ui).1 = art_is_dirty ui.
Proof.
  induction entries as [|[tag key] entries IH]; intros ui; simpl; [done|].
  destruct (contains key audio); [destruct (get_first key "" audio) as [v|e]|]; [|done|].
  - by destruct (IH (setText tag v ui)) as (-> & -> & -> & -> & ->).
  - by destruct (IH (setText tag "" ui)) as (-> & -> & -> & -> & ->).
Qed.

(** When no key holds an empty list the loop ends normally and every
    field shows the first stored value of its key. *)
Lemma load_fields_Ok entries audio :
  NoDup (entries.*1) →
  (∀ tag key, (tag, key) ∈ entries → tags audio !! key ≠ Some []) →
  ∀ ui, ∃ ui',
    load_fields entries audio ui = (ui', Ok ()) ∧
    (∀ tag key, (tag, key) ∈ entries → text ui' tag = first_or_blank audio key) ∧
    (∀ tag, tag ∉ entries.*1 → text ui' tag = text ui tag).
Proof.
  induction entries as [|[tag key] entries IH]; intros Hnd Hne ui.
  { exists ui. split; [done|]. split; [by intros ?? ?%elem_of_nil|done]. }
  apply NoDup_cons in Hnd as [Hnotin Hnd].
  assert (∃ v, v = first_or_blank audio key ∧
               load_fields ((tag, key) :: entries) audio ui
               = load_fields entries audio (setText tag v ui)) as (v & Hv & ->).
  { simpl. unfold contains, get_first, first_or_blank, Py.index.
    destruct (tags audio !! key) as [[|v l]|] eqn:Hk.
    - by destruct (Hne tag key ltac:(left)).
    - exists v. split; [done|]. by rewrite bool_decide_eq_true_2 by eauto.
    - exists "". split; [done|].
      by rewrite bool_decide_eq_false_2 by (by intros [??]). }
  destruct (IH Hnd (λ t k H, Hne t k ltac:(by right)) (setText tag v ui))
    as (ui' & Hl & Hin & Hout).
  exists ui'. split; [done|]. split.
  - intros t k [[= -> ->]|H]%elem_of_cons; [|by apply Hin].
    rewrite (Hout tag Hnotin). simpl. by rewrite String.eqb_refl.
  - intros t Ht. rewrite fmap_cons in Ht. apply not_elem_of_cons in Ht as [Hne' Ht].
    rewrite (Hout _ Ht). simpl.
    destruct (String.eqb_spec t tag); [done|done].
Qed.

(** The dictionary is written without an exception when no value that is
    set belongs to a key the file rejects. *)
Lemma save_tags_total l : ∀ a,
  (∀ tag v, (tag, v) ∈ l →
            ∃ key, (tag, key) ∈ TAG_MAP ∧ (v ≠ "" → rejects a !! key = None)) →
  ∃ a', save_tags l a = Ok a'.
Proof.
  induction l as [|[tag v] l IH]; intros a Hl; simpl; [by eauto|].
  destruct (Hl tag v ltac:(left)) as (key & Hk & Hr).
  rewrite (proj2 (TAG_MAP_item_Ok _ _) Hk). simpl.
  assert (∃ a1, write_field key v a = Ok a1) as [a1 H1].
  { unfold write_field, setitem.
    destruct (String.eqb_spec v ""); simpl.
    - destruct (contains key a); eauto.
    - rewrite Hr by done. eauto. }
  rewrite H1. simpl. apply IH. intros t v' Hin.
  destruct (Hl t v' ltac:(by right)) as (k & ? & Hr').
  exists k. split; [done|].
  apply write_field_Ok in H1 as (_ & _ & _ & -> & _). done.
Qed.

Lemma update_editor_for_batch_spec tags_ : ∀ ui,
  let ui' := foldl (λ ui tag_name, setText tag_name "" (setChecked tag_name false ui))
               ui tags_ in
  selectedItems ui' = selectedItems ui ∧
  current_art_data ui' = current_art_data ui ∧
  current_art_mime ui' = current_art_mime ui ∧
  art_is_dirty ui' = art_is_dirty ui ∧
  ∀ t, t ∈ tags_ ∨ isChecked ui t = false → isChecked ui' t = false.
Proof.
  induction tags_ as [|tag tags_ IH]; intros ui; simpl.
  { repeat split; try done. by intros t [?%elem_of_nil|?]. }
  destruct (IH (setText tag "" (setChecked tag false ui))) as (-> & -> & -> & -> & H).
  repeat split; try done. intros t Ht. apply H.
  simpl. destruct (String.eqb_spec t tag) as [->|Hne]; [by right|].
  destruct Ht as [[?|?]%elem_of_cons|?]; [done|by left|by right].
Qed.

(** A selection change keeps the selection and, unless nothing is
    selected, leaves no pending art. *)
Lemma on_selection_changed_frame ui w :
  selectedItems (on_selection_changed ui w).1 = selectedItems ui ∧
  (selectedItems ui ≠ [] → art_is_dirty (on_selection_changed ui w).1 = false).
Proof.
  unfold on_selection_changed.
  destruct (selectedItems ui) as [|path [|path' rest]] eqn:Hsel; [done| |].
  - unfold update_editor_for_single.
    destruct (String.eqb path ""); [by split|].
    destruct (File w path) as [[audio|]|e]; [|by split..].
    pose proof (load_fields_frame TAG_MAP audio (forget_art ui)) as (H1 & _ & _ & _ & H2).
    destruct (load_fields TAG_MAP audio (forget_art ui)) as [ui' [[]|e]];
      simpl in *; by rewrite H1, H2.
  - unfold update_editor_for_batch.
    destruct (update_editor_for_batch_spec (TAG_MAP.*1) (forget_art ui))
      as (H1 & _ & _ & H2 & _).
    split; [exact (eq_trans H1 Hsel)|intros _; exact H2].
Qed.

(** Without a picture instruction a file's save keeps its pictures. *)
Lemma save_file_keeps_art l mime p w w' r q :
  save_file l None mime p w = (w', r) → stored_art w' q = stored_art w q.
Proof.
  intros [[-> _]|(audio & audio' & Hf & (Ha & _)%save_tags_same & _ & -> & _)]%save_file_inv;
    [done|].
  unfold stored_art, persist. simpl.
  destruct (decide (p = q)) as [->|Hne].
  - by rewrite lookup_insert_eq, Hf, Ha.
  - by rewrite lookup_insert_ne.
Qed.

End EditorFacts.

Section editor_more.
Import Metagify MetagifyFacts EditorFacts.

Lemma save_file_plain l mime p w audio audio' :
  files w !! p = Some (Audio audio) → save_tags l audio = Ok audio' →
  save_error audio = None →
  save_file l None mime p w = (persist p audio' w, Ok ()).
Proof.
  intros Hf%File_Some Ht Hs. unfold save_file. rewrite Hf, Ht. simpl.
  apply save_tags_same in Ht as (_ & _ & Hs' & _).
  unfold save. by rewrite Hs', Hs.
Qed.

(** X9.  Selecting one file and saving it without touching a field is
    not always a no-op.  Every key of [TAG_MAP] is rewritten from what its
    line edit shows, which is the first stored value only: a key with
    several values keeps the first one, a key whose first value is blank
    is deleted.  Keys outside [TAG_MAP] and the pictures stay as they are,
    so a file whose [TAG_MAP] keys hold at most one value each, none blank,
    is stored with the tags it had. *)
Theorem saving_a_freshly_selected_file_keeps_first_values stop ui w path audio :
  selectedItems ui = [path] → path ≠ "" →
  files w !! path = Some (Audio audio) →
  (∀ key, key ∈ TAG_MAP.*2 → tags audio !! key ≠ Some []) →
  (∀ key, key ∈ TAG_MAP.*2 → first_or_blank audio key ≠ "" → rejects audio !! key = None) →
  save_error audio = None →
  stop 0 = false →
  let w' := (save_metadata stop (on_selection_changed ui w).1 w).1 in
  (∀ key, stored_tag w' path key = resaved audio key) ∧
  stored_art w' path = Some (art audio) ∧
  ((∀ key, key ∈ TAG_MAP.*2 →
           tags audio !! key = None ∨ ∃ v, v ≠ "" ∧ tags audio !! key = Some [v]) →
   stored_tags w' path = Some (tags audio)).
Proof.
  intros Hsel Hpath Hf Hne Hrej Hse Hstop.
  destruct (load_fields_Ok TAG_MAP audio TAG_MAP_tags_NoDup) with (ui := forget_art ui)
    as (ui' & Hl & Hin & _).
  { intros tag key Hk. apply Hne. apply list_elem_of_fmap. by exists (tag, key). }
  pose proof (load_fields_frame TAG_MAP audio (forget_art ui)) as (Hs1 & _ & _ & _ & Hd1).
  rewrite Hl in Hs1, Hd1. simpl in Hs1, Hd1.
  assert ((on_selection_changed ui w).1 = ui') as ->.
  { unfold on_selection_changed, update_editor_for_single. rewrite Hsel.
    destruct (String.eqb_spec path ""); [done|].
    rewrite (proj2 (File_Some _ _ _) Hf), Hl. done. }
  rewrite save_metadata_world by (by rewrite Hs1, Hsel).
  rewrite Hs1, Hsel, Hd1. cbn [length save_loop]. rewrite Hstop, save_step_world.
  rewrite bool_decide_eq_false_2 by lia. cbn [world].
  set (l := collect_tags ui' false).
  assert (∀ tag v, (tag, v) ∈ l ↔ tag ∈ TAG_MAP.*1 ∧ v = text ui' tag) as Hl_in.
  { intros tag v. unfold l, collect_tags. rewrite list_elem_of_fmap. split.
    - intros (t & [= -> ->] & Ht). done.
    - intros [Ht ->]. by exists tag. }
  assert (l.*1 = TAG_MAP.*1) as Hl1.
  { unfold l, collect_tags. rewrite <-list_fmap_compose. apply list_fmap_id. }
  clearbody l.
  destruct (save_tags_total l audio) as [audio' Ht].
  { intros tag v [[[t k] [-> Hk]]%list_elem_of_fmap ->]%Hl_in. cbn [fst].
    exists k. split; [done|]. rewrite (Hin _ _ Hk). apply Hrej.
    apply list_elem_of_fmap. by exists (t, k). }
  rewrite (save_file_plain l None path w audio audio' Hf Ht Hse). simpl.
  assert (∀ key, tags audio' !! key = resaved audio key) as Hkeys.
  { intros key. unfold resaved. case_decide as Hk.
    - apply list_elem_of_fmap in Hk as ([tag k] & -> & Hk). simpl.
      destruct (save_tags_applied l audio audio' tag (text ui' tag)) as (k' & Hk' & Hv).
      + rewrite Hl1. apply TAG_MAP_tags_NoDup.
      + done.
      + apply Hl_in. split; [|done]. apply list_elem_of_fmap. by exists (tag, k).
      + rewrite (TAG_MAP_fun _ _ _ Hk' Hk), (Hin _ _ Hk) in Hv. done.
    - eapply save_tags_other; [done|].
      intros tag v _ Hk'. apply Hk. apply list_elem_of_fmap. by exists (tag, key). }
  split; [|split].
  - intros key. unfold stored_tag.
    rewrite stored_tags_persist, decide_True by done. simpl. apply Hkeys.
  - unfold stored_art, persist. simpl. rewrite lookup_insert_eq.
    by apply save_tags_same in Ht as (-> & _).
  - intros Hone. rewrite stored_tags_persist, decide_True by done. f_equal.
    apply map_eq. intros key. rewrite Hkeys. unfold resaved, first_or_blank.
    case_decide as Hk; [|done].
    destruct (Hone key Hk) as [->|(v & Hv & ->)]; [done|]. by rewrite decide_False.
Qed.

Lemma saving_a_freshly_selected_file_keeps_first_values_witness :
  let w' := (Metagify.save_metadata (λ _, false)
               (Metagify.on_selection_changed (stale_editor ["/music/duet.mp3"])
                  duet_world).1 duet_world).1 in
  stored_tag duet_world "/music/duet.mp3" "artist" = Some ["Ann"; "Bob"] ∧
  stored_tag w' "/music/duet.mp3" "artist" = Some ["Ann"] ∧
  stored_tag w' "/music/duet.mp3" "genre" = Some ["Rock"].
Proof.
  assert (Forall (λ key, tags duet_file !! key ≠ Some []) (TAG_MAP.*2)) as Hne
    by (apply (bool_decide_unpack _); vm_compute; reflexivity).
  destruct (saving_a_freshly_selected_file_keeps_first_values (λ _, false)
              (stale_editor ["/music/duet.mp3"]) duet_world "/music/duet.mp3" duet_file
              eq_refl ltac:(done) eq_refl (proj1 (Forall_forall _ _) Hne)
              (λ _ _ _, eq_refl) eq_refl eq_refl) as (Hkeys & _ & _).
  cbv zeta. rewrite !Hkeys. split; [|split]; vm_compute; reflexivity.
Defined.

Lemma filter_none {A} (P : A → Prop) `{∀ x, Decision (P x)} (l : list A) :
  (∀ x, x ∈ l → ¬ P x) → filter P l = [].
Proof.
  induction l as [|x l IH]; intros Hl; [done|].
  rewrite filter_cons_False by (apply Hl; left). apply IH. intros y Hy. apply Hl. by right.
Qed.

(** X10.  After several files were selected no box is checked and no
    picture is pending, so a save right away stores every file with the
    content it had: the map from paths to file contents is the same. *)
Theorem saving_a_fresh_batch_selection_changes_no_content stop ui w :
  1 < length (selectedItems ui) →
  files (save_metadata stop (on_selection_changed ui w).1 w).1 = files w.
Proof.
  intros Hlen.
  destruct (on_selection_changed_frame ui w) as [Hs Hd].
  assert (selectedItems ui ≠ []) as Hne
    by (intros Hnil; rewrite Hnil in Hlen; simpl in Hlen; lia).
  assert (collect_tags (on_selection_changed ui w).1 true = []) as Hl.
  { unfold collect_tags. rewrite filter_none; [done|].
    intros t Ht. unfold on_selection_changed.
    destruct (selectedItems ui) as [|p1 [|p2 rest]]; [done|simpl in Hlen; lia|].
    destruct (update_editor_for_batch_spec (TAG_MAP.*1) (forget_art ui))
      as (_ & _ & _ & _ & H).
    unfold update_editor_for_batch. cbn [fst]. rewrite (H t (or_introl Ht)). done. }
  rewrite save_metadata_world by (by rewrite Hs).
  rewrite Hs, bool_decide_eq_true_2, Hl, (Hd Hne) by done.
  apply (save_loop_world_ind _ _ _ (λ w', files w' = files w)); [|done].
  intros p w0 w' r _
    [[-> _]|(audio & audio' & Hf & [= <-] & _ & -> & _)]%save_file_inv Hw0; [done|].
  unfold persist. simpl. by rewrite insert_id.
Qed.

Lemma saving_a_fresh_batch_selection_changes_no_content_witness :
  files (Metagify.save_metadata (λ _, false)
           (Metagify.on_selection_changed (stale_editor ["a.mp3"; "b.mp3"]) two_mp3).1
           two_mp3).1
  = files two_mp3.
Proof.
  apply (saving_a_fresh_batch_selection_changes_no_content (λ _, false)
           (stale_editor ["a.mp3"; "b.mp3"]) two_mp3).
  simpl. lia.
Defined.

(** X11.  A picture chosen or a deletion requested in the editor is
    dropped when the selection changes: whatever was pending, the save
    that follows a selection change leaves the pictures of every file as
    they were. *)
Theorem selection_change_drops_the_pending_picture stop ui w q :
  stored_art (save_metadata stop (on_selection_changed ui w).1 w).1 q = stored_art w q.
Proof.
  destruct (on_selection_changed_frame ui w) as [Hs Hd].
  destruct (decide (selectedItems ui = [])) as [Hnil|Hne].
  - unfold save_metadata. by rewrite Hs, Hnil.
  - rewrite save_metadata_world by (by rewrite Hs).
    rewrite (Hd Hne).
    apply (save_loop_world_ind _ _ _ (λ w', stored_art w' q = stored_art w q)); [|done].
    intros p w0 w' r _ Hsf <-. by eapply save_file_keeps_art.
Qed.

End editor_more.

(* ===================================================================== *)
(** * Further properties: the file list and the settings *)
(* ===================================================================== *)

Module FileListFacts.
Import Metagify.

Lemma on_files_loaded_app w new : ∀ file_paths,
  on_files_loaded (load_file w <$> new) file_paths
  = file_paths ++ filter (λ f, loads w f = true) new.
Proof.
  induction new as [|f new IH]; intros file_paths; simpl.
  { by rewrite app_nil_r. }
  rewrite filter_cons.
  assert (loads w f = match load_file w f with Entry _ _ _ => true | _ => false end) as Hl
    by done.
  destruct (load_file w f) as [p t a|p e] eqn:E.
  - assert (p = f) as ->.
    { unfold load_file in E. by destruct (_ ≫= _) as [[??]|?]; simplify_eq. }
    rewrite IH, decide_True by done. by rewrite <-app_assoc.
  - rewrite IH, decide_False; [done|]. by rewrite Hl.
Qed.

Lemma loads_true w f :
  loads w f = true ↔
  ∃ audio, files w !! f = Some (Audio audio) ∧
           tags audio !! "title" ≠ Some [] ∧ tags audio !! "artist" ≠ Some [].
Proof.
  unfold loads, load_file, File, get_first, Py.index.
  destruct (files w !! f) as [[e| |audio]|] eqn:Hf; simpl;
    try (split; [done|by intros (? & ? & _)]).
  destruct (tags audio !! "title") as [[|t ?]|] eqn:Ht; simpl;
    (destruct (tags audio !! "artist") as [[|a ?]|] eqn:Ha; simpl);
    (split;
     [intros ?; try done; exists audio; rewrite Ht, Ha; by repeat split
     |intros (audio' & [= <-] & ? & ?); rewrite ?Ht, ?Ha in *; done]).
Qed.

Lemma add_files_to_list_app files file_paths w :
  add_files_to_list files file_paths w
  = file_paths ++ filter (λ f, loads w f = true) (new_files file_paths files).
Proof.
  unfold add_files_to_list, _load_files_in_thread.
  destruct (new_files file_paths files) as [|f new] eqn:E.
  - by rewrite app_nil_r.
  - cbn [fst]. apply on_files_loaded_app.
Qed.

Lemma filter_all {A} (P : A → Prop) `{∀ x, Decision (P x)} (l : list A) :
  (∀ x, x ∈ l → P x) → filter P l = l.
Proof.
  induction l as [|x l IH]; intros Hl; [done|].
  rewrite filter_cons_True by (apply Hl; left). f_equal. apply IH.
  intros y Hy. apply Hl. by right.
Qed.

Lemma remove_first_filter x l :
  NoDup l → Py.remove_first x l = filter (λ p, p ≠ x) l.
Proof.
  induction l as [|y l IH]; intros Hnd; simpl; [done|].
  apply NoDup_cons in Hnd as [Hy Hnd].
  destruct (String.eqb_spec x y) as [->|Hne].
  - rewrite filter_cons_False by (by intros ?).
    symmetry. apply filter_all. intros z Hz ->. done.
  - rewrite filter_cons_True by done. by rewrite IH.
Qed.

End FileListFacts.

Section file_list.
Import Metagify FileListFacts.

(** X12.  [add_files_to_list] with the loader thread and its slot appends
    to the list, in the order given, exactly the offered paths that end in
    one of the four extensions (in any case), are not listed yet, and hold
    a file the tag library reads; nothing listed is moved or dropped.  A
    list free of duplicates stays so when the offered paths are distinct;
    a path offered twice in one call is listed twice. *)
Theorem add_files_to_list_appends_new_audio_files files file_paths w :
  ∃ added,
    add_files_to_list files file_paths w = file_paths ++ added ∧
    added `sublist_of` files ∧
    (∀ f, f ∈ added ↔
          f ∈ files ∧ (f ∉ file_paths) ∧ has_valid_extension f = true ∧
          ∃ audio, Mutagen.files w !! f = Some (Audio audio) ∧
                   tags audio !! "title" ≠ Some [] ∧ tags audio !! "artist" ≠ Some []) ∧
    (NoDup file_paths → NoDup files → NoDup (file_paths ++ added)) ∧
    (∀ f, files = [f; f] → f ∈ added → added = [f; f]).
Proof.
  exists (filter (λ f, loads w f = true) (new_files file_paths files)).
  split; [apply add_files_to_list_app|].
  assert (∀ f, f ∈ filter (λ f, loads w f = true) (new_files file_paths files) ↔
               f ∈ files ∧ (f ∉ file_paths) ∧ has_valid_extension f = true ∧
               ∃ audio, Mutagen.files w !! f = Some (Audio audio) ∧
                        tags audio !! "title" ≠ Some [] ∧
                        tags audio !! "artist" ≠ Some []) as Hin.
  { intros f. unfold new_files. rewrite !list_elem_of_filter, loads_true. tauto. }
  split; [|split; [done|split]].
  - etrans; [apply sublist_filter|]. apply sublist_filter.
  - intros Hfp Hfiles. apply NoDup_app. split; [done|]. split.
    + intros f Hf [_ [Hnot _]]%Hin. done.
    + apply NoDup_filter, NoDup_filter, Hfiles.
  - intros f -> (_ & Hnot & Hext & Hload%loads_true)%Hin.
    unfold new_files.
    assert (∀ x, x ∈ [f; f] → x = f) as Hff
      by (by intros x [->|[->|[]%elem_of_nil]%elem_of_cons]%elem_of_cons).
    rewrite (filter_all (λ f0, has_valid_extension f0 = true ∧ f0 ∉ file_paths))
      by (by intros x ->%Hff).
    apply filter_all. by intros x ->%Hff.
Qed.

(** X13.  [on_item_moved] keeps the paths of the list and puts the moved
    path on the target row, or on the last row when the target lies
    beyond it. *)
Theorem moved_item_lands_on_the_target_row source_row target_row file_paths item :
  file_paths !! source_row = Some item →
  ∃ moved,
    on_item_moved source_row target_row file_paths = Ok moved ∧
    moved ≡ₚ file_paths ∧
    moved !! (target_row `min` (length file_paths - 1)) = Some item.
Proof.
  intros Hs. pose proof (lookup_lt_Some _ _ _ Hs) as Hlt.
  unfold on_item_moved, Py.pop, Py.insert_at.
  destruct (Nat.eqb_spec source_row target_row) as [<-|Hne]; simpl.
  - exists file_paths. split; [done|]. split; [done|].
    by rewrite Nat.min_l by lia.
  - rewrite Hs. simpl. eexists. split; [done|].
    assert (length (delete source_row file_paths) = length file_paths - 1) as Hlen.
    { apply delete_Permutation, Permutation_length in Hs. simpl in Hs. lia. }
    split.
    + rewrite <-Permutation_middle, take_drop. symmetry. by apply delete_Permutation.
    + rewrite lookup_app_r; rewrite length_take, Hlen; [|lia].
      by replace (_ `min` _ - _ `min` _) with 0 by lia.
Qed.

Lemma moved_item_lands_on_the_target_row_witness :
  Metagify.on_item_moved 0 5 ["a.mp3"; "b.mp3"; "c.mp3"] = Ok ["b.mp3"; "c.mp3"; "a.mp3"].
Proof.
  destruct (moved_item_lands_on_the_target_row 0 5 ["a.mp3"; "b.mp3"; "c.mp3"] "a.mp3"
              eq_refl) as (moved & Hm & _ & _).
  rewrite Hm. vm_compute in Hm. injection Hm as <-. reflexivity.
Defined.

(** X14.  From a list without duplicates a confirmed removal takes
    exactly the selected paths; the other paths keep their order. *)
Theorem confirmed_removal_takes_the_selected_paths paths_to_remove file_paths :
  NoDup file_paths →
  remove_selected_files paths_to_remove true file_paths
  = filter (λ p, p ∉ paths_to_remove) file_paths.
Proof.
  intros Hnd.
  assert (∀ sel l, NoDup l →
            foldl (λ file_paths path,
                     if bool_decide (path ∈ file_paths)
                     then Py.remove_first path file_paths else file_paths) l sel
            = filter (λ p, p ∉ sel) l) as Hfold.
  { induction sel as [|x sel IH]; intros l Hl; simpl.
    - symmetry. apply filter_all. intros ?? ?%elem_of_nil. done.
    - assert ((if bool_decide (x ∈ l) then Py.remove_first x l else l)
              = filter (λ p, p ≠ x) l) as ->.
      { case_bool_decide as Hx; [by apply FileListFacts.remove_first_filter|].
        symmetry. apply filter_all. intros z Hz ->. done. }
      rewrite IH by by apply NoDup_filter.
      rewrite list_filter_filter. apply list_filter_iff. intros z.
      rewrite not_elem_of_cons. tauto. }
  unfold remove_selected_files. destruct paths_to_remove as [|x sel].
  - symmetry. apply filter_all. intros ?? ?%elem_of_nil. done.
  - by apply Hfold.
Qed.

Lemma confirmed_removal_takes_the_selected_paths_witness :
  Metagify.remove_selected_files ["c.mp3"; "a.mp3"] true ["a.mp3"; "b.mp3"; "c.mp3"]
  = ["b.mp3"].
Proof.
  rewrite (confirmed_removal_takes_the_selected_paths ["c.mp3"; "a.mp3"]
             ["a.mp3"; "b.mp3"; "c.mp3"]).
  - vm_compute. reflexivity.
  - apply (bool_decide_unpack _). vm_compute. reflexivity.
Defined.

(** X15.  The contact address is asked for once: when
    [get_or_request_contact_email] returns an address, the address is not
    empty, and every later call on the settings it left returns the same
    address and leaves the settings alone, whatever the dialog would
    answer. *)
Theorem contact_email_is_asked_for_once settings answer settings' email :
  get_or_request_contact_email settings answer = (settings', Some email) →
  email ≠ "" ∧
  ∀ answer', get_or_request_contact_email settings' answer' = (settings', Some email).
Proof.
  unfold get_or_request_contact_email.
  destruct (String.eqb_spec (default "" (settings !! "userContactEmail")) "") as [Hs|Hs];
    simpl.
  - destruct answer as [mail ok].
    destruct ok; simpl; [|done].
    destruct (String.eqb_spec mail "") as [|Hm]; simpl; [done|].
    destruct (Py.contains "@" mail); [|done].
    intros [= <- <-]. split; [done|]. intros answer'.
    rewrite lookup_insert_eq. simpl.
    by destruct (String.eqb_spec mail "").
  - intros [= <- <-]. split; [done|]. intros answer'.
    by destruct (String.eqb_spec (default "" (settings !! "userContactEmail")) "").
Qed.

Lemma contact_email_is_asked_for_once_witness :
  Metagify.get_or_request_contact_email
    (Metagify.get_or_request_contact_email ∅ ("me@example.org", true)).1 ("", false)
  = ({["userContactEmail" := "me@example.org"]}, Some "me@example.org").
Proof.
  destruct (contact_email_is_asked_for_once ∅ ("me@example.org", true)
              {["userContactEmail" := "me@example.org"]} "me@example.org")
    as [_ H]; [reflexivity|].
  apply H.
Defined.

End file_list.

(* ===================================================================== *)
(** * Further properties: the earlier editor *)
(* ===================================================================== *)

Module TableFacts.
Import Metatag MetatagFacts.

Lemma save_fields_same ui single fields : ∀ a a',
  save_fields ui single fields a = Ok a' → same_file a a'.
Proof.
  induction fields as [|tag fields IH]; intros a a'; simpl.
  - by intros [= <-].
  - intros (a1 & H1 & (? & ? & ? & ?)%IH)%bind_Ok.
    destruct (single || isChecked ui tag); [|by simplify_eq].
    apply MetagifyFacts.write_field_Ok in H1 as (_ & _ & ? & ? & ? & ?).
    repeat split; congruence.
Qed.

(** In batch mode the key of a field whose box is not checked is left
    alone. *)
Lemma save_fields_unchecked ui tag fields : ∀ a a',
  save_fields ui false fields a = Ok a' →
  tag ∈ tags_to_edit → (∀ t, t ∈ fields → t ∈ tags_to_edit) →
  isChecked ui tag = false →
  tags a' !! get_mutagen_key tag = tags a !! get_mutagen_key tag.
Proof.
  induction fields as [|t0 fields IH]; intros a a'; simpl.
  - by intros [= <-].
  - intros (a1 & H1 & H2)%bind_Ok Htag Hsub Hun.
    rewrite (IH _ _ H2 Htag) by (try done; intros ??; apply Hsub; by right).
    destruct (isChecked ui t0) eqn:Hc; [|by simplify_eq].
    apply MetagifyFacts.write_field_Ok in H1 as (_ & Hne & _).
    apply Hne. intros Hk.
    apply get_mutagen_key_inj in Hk; [congruence|done|apply Hsub; left].
Qed.

Lemma save_rows_world_ind ui single (P : World → Prop) :
  (∀ p w w' r, save_row ui single p w = (w', r) → P w → P w') →
  ∀ paths w status, P w → P (save_rows ui single paths w status).1.
Proof.
  intros Hstep. induction paths as [|p paths IH]; intros w status HP; simpl; [done|].
  destruct (save_row ui single p w) as [w' r] eqn:E.
  apply IH. by eapply Hstep.
Qed.

Lemma mt_save_metadata_world ui w :
  selected ui ≠ [] →
  (save_metadata ui w).1
  = (save_rows ui (length (selected ui) =? 1) (selected ui) w []).1.
Proof.
  unfold save_metadata. destruct (selected ui) as [|p rest] eqn:E; [done|]. intros _.
  by destruct (save_rows _ _ _ _ _).
Qed.

(** A row of a batch save: nothing happens, or the fields are written
    and the file is persisted; the picture writer is not called. *)
Lemma save_row_batch_inv ui p w w' r :
  save_row ui false p w = (w', r) →
  w' = w ∨
  ∃ audio audio', files w !! p = Some (Audio audio) ∧
                  save_fields ui false tags_to_edit audio = Ok audio' ∧
                  w' = persist p audio' w.
Proof.
  unfold save_row.
  destruct (File w p) as [[audio|]|e] eqn:HF; [|intros [= <- <-]; by left..].
  destruct (_ ≫= _) as [w1|e] eqn:Hb; [|intros [= <- <-]; by left].
  apply bind_Ok in Hb as (audio' & Ht & [Hs ->]%save_Ok).
  cbn [andb]. intros [= <- <-]. right. exists audio, audio'.
  by apply File_Some in HF.
Qed.

Lemma set_art_id audio : set_art (art audio) audio = audio.
Proof. by destruct audio. Qed.

Lemma read_row_path w f : path (read_row w f) = f.
Proof.
  unfold read_row. destruct (File w f) as [[audio|]|e]; [|done..].
  by repeat (destruct (get_first _ _ _); [|done]).
Qed.

Lemma add_rows_spec w valid_files : ∀ files_data,
  NoDup (path <$> files_data) →
  files_data `prefix_of` add_rows w valid_files files_data ∧
  NoDup (path <$> add_rows w valid_files files_data) ∧
  ∀ f, f ∈ path <$> add_rows w valid_files files_data ↔
       f ∈ path <$> files_data ∨ f ∈ valid_files.
Proof.
  induction valid_files as [|f0 rest IH]; intros fd Hnd; simpl.
  { split; [done|]. split; [done|]. intros f. rewrite elem_of_nil. tauto. }
  case_bool_decide as Hin.
  - destruct (IH fd Hnd) as (Hp & Hn & Hm). split; [done|]. split; [done|].
    intros f. rewrite Hm, elem_of_cons.
    split; [tauto|]. intros [?|[->|?]]; tauto.
  - destruct (IH (fd ++ [read_row w f0])) as (Hp & Hn & Hm).
    { rewrite fmap_app. apply NoDup_app. split; [done|]. split.
      - intros x Hx. simpl. rewrite read_row_path.
        intros ->%list_elem_of_singleton. done.
      - simpl. apply NoDup_singleton. }
    split; [|split; [done|]].
    + etrans; [|exact Hp]. by apply prefix_app_r.
    + intros f. rewrite Hm, fmap_app, elem_of_app, elem_of_cons. simpl.
      rewrite read_row_path, list_elem_of_singleton. tauto.
Qed.

Lemma substring_marked s : String.substring (String.length s + 1) 3 (s +:+ " (*)") = "(*)".
Proof. induction s as [|c s IH]; [done|]. simpl. exact IH. Qed.

Lemma endswith_marked s : Py.endswith (s +:+ " (*)") "(*)" = true.
Proof.
  unfold Py.endswith.
  assert (String.length (s +:+ " (*)") = String.length s + 4) as ->.
  { induction s as [|c s IH]; [done|]. simpl. by rewrite IH. }
  replace (String.length "(*)") with 3 by done.
  rewrite (proj2 (Nat.leb_le _ _)) by lia.
  replace (String.length s + 4 - 3) with (String.length s + 1) by lia.
  by rewrite substring_marked.
Qed.

Lemma shown_fields_keys tag key :
  (tag, key) ∈ shown_fields ↔ tag ∈ tags_to_edit ∧ get_mutagen_key tag = key.
Proof.
  assert (shown_fields = (λ t, (t, get_mutagen_key t)) <$> tags_to_edit) as ->
    by (vm_compute; reflexivity).
  rewrite list_elem_of_fmap. split.
  - by intros (t & [= -> ->] & ?).
  - intros [? <-]. by exists tag.
Qed.

Lemma mt_load_fields_frame entries audio : ∀ ui,
  selected (load_fields entries audio ui).1 = selected ui ∧
  isChecked (load_fields entries audio ui).1 = isChecked ui ∧
  current_art_data (load_fields entries audio ui).1 = current_art_data ui ∧
  art_is_dirty (load_fields entries audio ui).1 = art_is_dirty ui.
Proof.
  induction entries as [|[tag key] entries IH]; intros ui; simpl; [done|].
  destruct (get_first key "" audio) as [v|e]; [|done].
  by destruct (IH (setText tag v ui)) as (-> & -> & -> & ->).
Qed.

Lemma mt_load_fields_Ok entries audio :
  NoDup (entries.*1) →
  (∀ tag key, (tag, key) ∈ entries → tags audio !! key ≠ Some []) →
  ∀ ui, ∃ ui',
    load_fields entries audio ui = (ui', Ok ()) ∧
    (∀ tag key, (tag, key) ∈ entries → text ui' tag = first_or_blank audio key) ∧
    (∀ tag, tag ∉ entries.*1 → text ui' tag = text ui tag).
Proof.
  induction entries as [|[tag key] entries IH]; intros Hnd Hne ui.
  { exists ui. split; [done|]. split; [by intros ?? ?%elem_of_nil|done]. }
  apply NoDup_cons in Hnd as [Hnotin Hnd].
  assert (∃ v, v = first_or_blank audio key ∧
               load_fields ((tag, key) :: entries) audio ui
               = load_fields entries audio (setText tag v ui)) as (v & Hv & ->).
  { simpl. unfold get_first, first_or_blank, Py.index.
    destruct (tags audio !! key) as [[|v l]|] eqn:Hk.
    - by destruct (Hne tag key ltac:(left)).
    - by exists v.
    - by exists "". }
  destruct (IH Hnd (λ t k H, Hne t k ltac:(by right)) (setText tag v ui))
    as (ui' & Hl & Hin & Hout).
  exists ui'. split; [done|]. split.
  - intros t k [[= -> ->]|H]%elem_of_cons; [|by apply Hin].
    rewrite (Hout tag Hnotin). simpl. by rewrite String.eqb_refl.
  - intros t Ht. rewrite fmap_cons in Ht. apply not_elem_of_cons in Ht as [Hne' Ht].
    rewrite (Hout _ Ht). simpl.
    destruct (String.eqb_spec t tag); [done|done].
Qed.

Lemma save_fields_total ui fields : ∀ a,
  (∀ tag, tag ∈ fields → text ui tag ≠ "" → rejects a !! get_mutagen_key tag = None) →
  ∃ a', save_fields ui true fields a = Ok a'.
Proof.
  induction fields as [|tag fields IH]; intros a Hl; simpl; [by eauto|].
  assert (∃ a1, write_field (get_mutagen_key tag) (text ui tag) a = Ok a1) as [a1 H1].
  { unfold write_field, setitem.
    destruct (String.eqb_spec (text ui tag) ""); simpl.
    - destruct (contains _ a); eauto.
    - rewrite (Hl tag) by (done || left). eauto. }
  rewrite H1. simpl. apply IH. intros t Hin Ht.
  apply MetagifyFacts.write_field_Ok in H1 as (_ & _ & _ & -> & _).
  apply Hl; [by right|done].
Qed.

End TableFacts.

Section earlier_editor.
Import MetagifyFacts MetatagFacts TableFacts.

(** X16.  With two or more rows selected the earlier editor never calls
    its picture writer, even when a picture is pending: the pictures of
    every file stay as they were.  And a field whose box is not checked
    keeps its stored value in every file. *)
Theorem table_batch_save_leaves_pictures_and_unchecked_fields ui w :
  1 < length (Metatag.selected ui) →
  (∀ q, stored_art (Metatag.save_metadata ui w).1 q = stored_art w q) ∧
  (∀ tag q, tag ∈ Metatag.tags_to_edit → Metatag.isChecked ui tag = false →
            stored_tag (Metatag.save_metadata ui w).1 q (Metatag.get_mutagen_key tag)
            = stored_tag w q (Metatag.get_mutagen_key tag)).
Proof.
  intros Hlen.
  assert (Metatag.selected ui ≠ []) as Hne
    by (intros Hnil; rewrite Hnil in Hlen; simpl in Hlen; lia).
  rewrite mt_save_metadata_world by done.
  replace (length (Metatag.selected ui) =? 1) with false
    by (symmetry; apply Nat.eqb_neq; lia).
  split.
  - intros q.
    apply (save_rows_world_ind ui false (λ w', stored_art w' q = stored_art w q)); [|done].
    intros p w0 w' r
      [->|(audio & audio' & Hf & (Ha & _)%save_fields_same & ->)]%save_row_batch_inv <-;
      [done|].
    unfold stored_art, persist. simpl.
    destruct (decide (p = q)) as [->|Hpq].
    + by rewrite lookup_insert_eq, Hf, Ha.
    + by rewrite lookup_insert_ne.
  - intros tag q Htag Hun.
    apply (save_rows_world_ind ui false
             (λ w', stored_tag w' q (Metatag.get_mutagen_key tag)
                    = stored_tag w q (Metatag.get_mutagen_key tag))); [|done].
    intros p w0 w' r [->|(audio & audio' & Hf & Hs & ->)]%save_row_batch_inv <-; [done|].
    unfold stored_tag. rewrite stored_tags_persist.
    case_decide as Hpq; [subst q|done]. unfold stored_tags. rewrite Hf. simpl.
    by eapply save_fields_unchecked.
Qed.

Lemma table_batch_save_leaves_pictures_and_unchecked_fields_witness :
  stored_art (Metatag.save_metadata title_checked two_ogg).1 "/music/a.ogg"
    = Some (OggVorbis None) ∧
  stored_tag (Metatag.save_metadata title_checked two_ogg).1 "/music/a.ogg" "artist"
    = Some ["Ann"; "Bob"].
Proof.
  destruct (table_batch_save_leaves_pictures_and_unchecked_fields title_checked two_ogg)
    as [Hart Htag]; [simpl; lia|].
  rewrite Hart. split; [reflexivity|].
  assert ("Artist" ∈ Metatag.tags_to_edit) as Hin
    by (apply (bool_decide_unpack _); vm_compute; reflexivity).
  pose proof (Htag "Artist" "/music/a.ogg" Hin eq_refl) as H.
  assert (Metatag.get_mutagen_key "Artist" = "artist") as Hk by (vm_compute; reflexivity).
  rewrite Hk in H. rewrite H. reflexivity.
Defined.

(** X17.  The earlier editor requires every track to carry its own
    'artist-credit-phrase': for a track without one the row fails with the
    text of the [KeyError] and the file is not written, although the title
    was already assigned in memory.  (The later editor falls back to the
    artist of the release.) *)
Theorem table_track_without_credit_is_an_error d art_data i path w audio track track_num t :
  files w !! path = Some (Audio audio) →
  Metatag.tracks d !! i = Some track →
  number track = Some track_num →
  recording_title track = Ok t →
  track_credit track = None →
  rejects audio !! "title" = None →
  Metatag.apply_row d art_data i path w = (w, Metatag.Failed "'artist-credit-phrase'").
Proof.
  intros Hf%File_Some Htr Hnum Ht Hc Hr.
  unfold Metatag.apply_row, Metatag.assign_track, Py.index, setitem.
  rewrite Hf, Htr. simpl. rewrite Hnum. simpl. rewrite Ht. simpl.
  rewrite Hr. simpl. rewrite Hc. done.
Qed.

Lemma table_track_without_credit_is_an_error_witness :
  Metatag.apply_row uncredited_derived None 0 "/music/a.ogg" two_ogg
  = (two_ogg, Metatag.Failed "'artist-credit-phrase'").
Proof.
  eapply (table_track_without_credit_is_an_error uncredited_derived None 0 "/music/a.ogg"
            two_ogg _ track_one (Str "1") "First"); reflexivity.
Defined.

(** X18.  The picture writer of the earlier editor has a branch for
    '.mp3', '.flac' and '.m4a' only.  For any other name, '.ogg' among
    them, it saves the file as it was read and reports no error: the
    picture is not stored. *)
Theorem table_picture_writer_ignores_other_extensions path data w audio :
  Py.endswith (Py.lower path) ".mp3" = false →
  Py.endswith (Py.lower path) ".flac" = false →
  Py.endswith (Py.lower path) ".m4a" = false →
  files w !! path = Some (Audio audio) →
  raw_save_error audio = None →
  Metatag.save_album_art_to_file path data w = (persist path audio w, Ok ()) ∧
  files (persist path audio w) = files w.
Proof.
  intros H1 H2 H3 Hf Hs. split.
  - unfold Metatag.save_album_art_to_file, Metatag.rewrite_pictures.
    rewrite (proj2 (File_Some _ _ _) Hf), H1, H2, H3. simpl.
    rewrite set_art_id. unfold save_raw. by rewrite Hs.
  - unfold persist. simpl. by rewrite insert_id.
Qed.

Lemma table_picture_writer_ignores_other_extensions_witness :
  Metatag.save_album_art_to_file "/music/b.ogg" png_bytes two_ogg
    = (persist "/music/b.ogg" (sound_file [("title", ["Other"])] (OggVorbis None)) two_ogg,
       Ok ()) ∧
  files (persist "/music/b.ogg" (sound_file [("title", ["Other"])] (OggVorbis None)) two_ogg)
    = files two_ogg.
Proof.
  apply (table_picture_writer_ignores_other_extensions "/music/b.ogg" png_bytes two_ogg);
    vm_compute; reflexivity.
Defined.

(** X19.  [add_files_to_table] keeps the rows it had, in place, and
    appends a row for every offered path with one of the four extensions
    that has no row yet, whether the file can be read or not.  A table
    without duplicate paths stays without them, also when a path is
    offered twice in one call. *)
Theorem add_files_to_table_keeps_paths_unique files files_data w :
  NoDup (Metatag.path <$> files_data) →
  let table := (Metatag.add_files_to_table files files_data w).1 in
  files_data `prefix_of` table ∧
  NoDup (Metatag.path <$> table) ∧
  ∀ f, f ∈ Metatag.path <$> table ↔
       f ∈ Metatag.path <$> files_data ∨ (f ∈ files ∧ Metatag.valid_file f = true).
Proof.
  intros Hnd. unfold Metatag.add_files_to_table. cbn [fst].
  destruct (add_rows_spec w (filter (λ f, Metatag.valid_file f = true) files) files_data Hnd)
    as (Hp & Hn & Hm).
  split; [done|]. split; [done|]. intros f. rewrite Hm, list_elem_of_filter. tauto.
Qed.

Lemma add_files_to_table_keeps_paths_unique_witness :
  let table :=
    (Metatag.add_files_to_table
       ["/music/a.ogg"; "/music/b.ogg"; "/music/b.ogg"; "/music/gone.mp3"; "notes.txt"]
       one_row two_ogg).1 in
  NoDup (Metatag.path <$> table) ∧
  "/music/gone.mp3" ∈ Metatag.path <$> table ∧
  "notes.txt" ∉ Metatag.path <$> table.
Proof.
  assert (NoDup (Metatag.path <$> one_row)) as Hnd
    by (apply (bool_decide_unpack _); vm_compute; reflexivity).
  destruct (add_files_to_table_keeps_paths_unique
              ["/music/a.ogg"; "/music/b.ogg"; "/music/b.ogg"; "/music/gone.mp3";
               "notes.txt"] one_row two_ogg Hnd) as (_ & Hn & Hm).
  split; [exact Hn|]. split.
  - apply Hm. right. split; [|vm_compute; reflexivity].
    apply (bool_decide_unpack _). vm_compute. reflexivity.
  - intros [Hold|[_ Hv]]%Hm; [|by vm_compute in Hv].
    revert Hold. apply (bool_decide_unpack _). vm_compute. reflexivity.
Defined.

(** X20.  The marker of a changed row is appended once: marking a row
    that is already marked changes nothing. *)
Theorem mark_row_as_dirty_is_idempotent row files_data :
  Metatag.mark_row_as_dirty row (Metatag.mark_row_as_dirty row files_data)
  = Metatag.mark_row_as_dirty row files_data.
Proof.
  destruct (files_data !! row) as [r|] eqn:Hr;
    [|unfold Metatag.mark_row_as_dirty; by rewrite !Hr].
  destruct (Metatag.filename_item r) as [item_text|] eqn:Hi;
    [|unfold Metatag.mark_row_as_dirty; by rewrite !Hr, !Hi, !Hr, !Hi].
  set (marked := if Py.endswith item_text "(*)" then item_text else item_text +:+ " (*)").
  assert (Py.endswith marked "(*)" = true) as Hmarked.
  { unfold marked. destruct (Py.endswith item_text "(*)") eqn:He; [done|].
    apply endswith_marked. }
  assert (Metatag.mark_row_as_dirty row files_data
          = <[row := {| Metatag.path := Metatag.path r; Metatag.dirty := true;
                        Metatag.filename_item := Some marked;
                        Metatag.title_item := Metatag.title_item r;
                        Metatag.artist_item := Metatag.artist_item r;
                        Metatag.album_item := Metatag.album_item r |}]> files_data) as ->.
  { unfold Metatag.mark_row_as_dirty. by rewrite Hr, Hi. }
  unfold Metatag.mark_row_as_dirty.
  rewrite list_lookup_insert_eq by (by eapply lookup_lt_Some).
  cbn [Metatag.filename_item Metatag.path Metatag.title_item Metatag.artist_item
       Metatag.album_item].
  by rewrite Hmarked, list_insert_insert_eq.
Qed.

(** X21.  In the earlier editor, too, selecting one row and saving it
    without touching a field rewrites each of the eight keys from what
    its line edit shows: the first stored value.  A key with several
    values keeps the first, a key whose first value is blank is deleted;
    the other keys and the pictures stay. *)
Theorem table_saving_a_freshly_selected_row_keeps_first_values ui w path audio :
  Metatag.selected ui = [path] → path ≠ "" →
  files w !! path = Some (Audio audio) →
  (∀ key, key ∈ Metatag.shown_fields.*2 → tags audio !! key ≠ Some []) →
  (∀ key, key ∈ Metatag.shown_fields.*2 → first_or_blank audio key ≠ "" →
          rejects audio !! key = None) →
  save_error audio = None →
  let w' := (Metatag.save_metadata (Metatag.on_selection_changed ui w).1 w).1 in
  (∀ key, stored_tag w' path key =
          if decide (key ∈ Metatag.shown_fields.*2) then
            if decide (first_or_blank audio key = "") then None
            else Some [first_or_blank audio key]
          else tags audio !! key) ∧
  stored_art w' path = Some (art audio).
Proof.
  intros Hsel Hpath Hf Hne Hrej Hse.
  assert (NoDup (Metatag.shown_fields.*1)) as Hnd
    by (apply (bool_decide_unpack _); vm_compute; reflexivity).
  destruct (mt_load_fields_Ok Metatag.shown_fields audio Hnd)
    with (ui := Metatag.forget_art ui) as (ui' & Hl & Hin & _).
  { intros tag key Hk. apply Hne. apply list_elem_of_fmap. by exists (tag, key). }
  pose proof (mt_load_fields_frame Metatag.shown_fields audio (Metatag.forget_art ui))
    as (Hs1 & _ & _ & Hd1).
  rewrite Hl in Hs1, Hd1. cbn [fst] in Hs1, Hd1.
  change (Metatag.selected (Metatag.forget_art ui)) with (Metatag.selected ui) in Hs1.
  change (Metatag.art_is_dirty (Metatag.forget_art ui)) with false in Hd1.
  assert ((Metatag.on_selection_changed ui w).1 = ui') as ->.
  { unfold Metatag.on_selection_changed, Metatag.update_editor_for_single. rewrite Hsel.
    destruct (String.eqb_spec path ""); [done|].
    rewrite (proj2 (File_Some _ _ _) Hf), Hl. done. }
  rewrite mt_save_metadata_world by (by rewrite Hs1, Hsel).
  rewrite Hs1, Hsel. cbn [length Nat.eqb Metatag.save_rows].
  destruct (save_fields_total ui' Metatag.tags_to_edit audio) as [audio' Ht].
  { intros tag Htag Htext.
    assert ((tag, Metatag.get_mutagen_key tag) ∈ Metatag.shown_fields) as Hk
      by (by apply shown_fields_keys).
    rewrite (Hin _ _ Hk) in Htext. apply Hrej; [|done].
    apply list_elem_of_fmap. by exists (tag, Metatag.get_mutagen_key tag). }
  assert (Metatag.save_row ui' true path w = (persist path audio' w, Metatag.Saved)) as ->.
  { unfold Metatag.save_row. rewrite (proj2 (File_Some _ _ _) Hf), Ht. simpl.
    apply save_fields_same in Ht as (_ & _ & Hs' & _).
    unfold save. by rewrite Hs', Hse, Hd1. }
  cbn [fst]. split.
  - intros key.
    assert (stored_tag (persist path audio' w) path key = tags audio' !! key) as ->.
    { unfold stored_tag. by rewrite stored_tags_persist, decide_True by done. }
    case_decide as Hk.
    + apply list_elem_of_fmap in Hk as ([tag k] & -> & Hk). cbn [snd].
      pose proof Hk as [Htag <-]%shown_fields_keys.
      rewrite (save_fields_applied ui' true Metatag.tags_to_edit audio audio' tag);
        [by rewrite (Hin _ _ Hk)| |done..].
      vm_compute. by apply (bool_decide_unpack _).
    + eapply save_fields_other; [done|].
      intros tag Htag <-. apply Hk. apply list_elem_of_fmap.
      exists (tag, Metatag.get_mutagen_key tag). split; [done|].
      by apply shown_fields_keys.
  - unfold stored_art, persist. simpl. rewrite lookup_insert_eq.
    by apply save_fields_same in Ht as (-> & _).
Qed.

Lemma table_saving_a_freshly_selected_row_keeps_first_values_witness :
  let w' := (Metatag.save_metadata
               (Metatag.on_selection_changed (stale_table_editor ["/music/a.ogg"]) two_ogg).1
               two_ogg).1 in
  stored_tag two_ogg "/music/a.ogg" "artist" = Some ["Ann"; "Bob"] ∧
  stored_tag w' "/music/a.ogg" "artist" = Some ["Ann"] ∧
  stored_tag w' "/music/a.ogg" "title" = Some ["Old"].
Proof.
  set (audio := sound_file [("title", ["Old"]); ("artist", ["Ann"; "Bob"])] (OggVorbis None)).
  assert (Forall (λ key, tags audio !! key ≠ Some []) (Metatag.shown_fields.*2)) as Hne
    by (apply (bool_decide_unpack _); vm_compute; reflexivity).
  destruct (table_saving_a_freshly_selected_row_keeps_first_values
              (stale_table_editor ["/music/a.ogg"]) two_ogg "/music/a.ogg" audio
              eq_refl ltac:(done) eq_refl (proj1 (Forall_forall _ _) Hne)
              (λ _ _ _, eq_refl) eq_refl) as (Hkeys & _).
  cbv zeta. rewrite !Hkeys. split; [|split]; vm_compute; reflexivity.
Defined.

End earlier_editor.

(* ===================================================================== *)
(** * Further properties: what the album art label shows *)
(* ===================================================================== *)

Section album_art_label.
Import Metagify.

(** X22.  What [load_album_art] shows depends on the container.  For an
    MP3 file it is the picture of the APIC frame whose description is
    empty, and "Error Loading Art" when the file has no such frame: also
    when it has no picture at all, and when its only picture is the frame
    described 'Cover' that the picture writer of this program adds.  For
    an Ogg Vorbis file it is never a picture. *)
Theorem mp3_and_ogg_pictures_on_the_label w path audio :
  files w !! path = Some (Audio audio) →
  match art audio with
  | ID3 frames =>
      load_album_art w path =
        match frames !! "" with
        | Some p => if is_empty (pic_data p) then NoAlbumArt else Pixmap (pic_data p)
        | None => ErrorLoadingArt
        end
  | OggVorbis _ => ∀ artwork, load_album_art w path ≠ Pixmap artwork
  | _ => True
  end.
Proof.
  intros Hf%File_Some.
  unfold load_album_art, find_artwork, contains_raw, get_APIC_data, get_covr_0, pictures_of.
  rewrite Hf. cbn -[Py.lower bool_decide].
  destruct (art audio) as [frames|ps|c|m]; [| done | done |].
  - cbn -[bool_decide]. destruct (frames !! "") as [p|].
    + by rewrite bool_decide_eq_true_2 by eauto.
    + by rewrite bool_decide_eq_false_2 by (by intros [??]).
  - intros artwork.
    change (Py.lower "APIC:") with "apic:". change (Py.lower "covr") with "covr".
    destruct (tags audio !! "apic:") as [l|].
    { by rewrite bool_decide_eq_true_2 by eauto. }
    rewrite bool_decide_eq_false_2 by (by intros [??]).
    destruct (tags audio !! "covr") as [[|x l]|].
    + by rewrite bool_decide_eq_true_2 by eauto.
    + rewrite bool_decide_eq_true_2 by eauto. simpl. by destruct (String.eqb x "").
    + by rewrite bool_decide_eq_false_2 by (by intros [??]).
Qed.

Lemma mp3_and_ogg_pictures_on_the_label_witness :
  Metagify.load_album_art two_mp3 "a.mp3" = ErrorLoadingArt.
Proof.
  exact (mp3_and_ogg_pictures_on_the_label two_mp3 "a.mp3" (sound_file [] (ID3 ∅)) eq_refl).
Defined.

End album_art_label.

(* ===================================================================== *)
(** * Further properties: the report of the release worker *)
(* ===================================================================== *)

Module ReleaseLoopFacts.
Import Metagify ReleaseFacts.

Lemma apply_loop_world_ind (P : World → Prop) stop total d mime paths :
  (∀ i p w w' r, p ∈ paths → apply_file d mime i p w = (w', r) → P w → P w') →
  ∀ i st, P (world st) → P (world (apply_loop stop total d mime i paths st)).
Proof.
  induction paths as [|p paths IH]; intros Hstep i st HP; simpl; [done|].
  destruct (stop i); [done|].
  apply IH.
  - intros j q w w' r Hq. apply Hstep. by right.
  - unfold apply_step.
    destruct (apply_file d mime i p (world st)) as [w' r] eqn:E. simpl.
    eapply Hstep; [left|exact E|done].
Qed.

(** Every file the loop reaches either adds one to the count, or adds
    one entry to the errors, or is skipped without a trace; progress is
    emitted for the first two. *)
Lemma apply_loop_accounting stop total d mime paths : ∀ i st,
  let s := apply_loop stop total d mime i paths st in
  ∃ k, k ≤ length paths ∧
       count s + length (errs s) = count st + length (errs st) + k ∧
       length (progress s) = length (progress st) + k.
Proof.
  induction paths as [|p paths IH]; intros i st; simpl.
  { exists 0. repeat split; lia. }
  destruct (stop i) eqn:Hi.
  { exists 0. repeat split; lia. }
  destruct (IH (S i) (apply_step total d mime i p st)) as (k & Hk & Hc & Hp).
  unfold apply_step in Hc, Hp |- *.
  destruct (apply_file d mime i p (world st)) as [w' [| |e]]; simpl in *;
    rewrite ?length_app in *; simpl in *.
  - exists k. repeat split; lia.
  - exists (S k). repeat split; lia.
  - exists (S k). repeat split; lia.
Qed.

End ReleaseLoopFacts.

Section release_report.
Import Metagify ReleaseFacts ReleaseLoopFacts.

(** X23.  [process_and_save_musicbrainz] changes no path outside the list
    it is given, whatever the release, the picture and the stop flag. *)
Theorem release_worker_touches_only_its_files
    stop scaled file_paths release art_data art_mime w q :
  q ∉ file_paths →
  files (process_and_save_musicbrainz stop scaled file_paths release art_data art_mime w).1
    !! q
  = files w !! q.
Proof.
  intros Hq. unfold process_and_save_musicbrainz.
  destruct (derive scaled release art_data art_mime) as [d|e]; [|done].
  cbn [finish fst].
  apply (apply_loop_world_ind (λ w', files w' !! q = files w !! q)); [|done].
  intros i p w0 w' r Hp Ha <-.
  eapply apply_file_files_ne; [done|]. intros ->. done.
Qed.

Lemma release_worker_touches_only_its_files_witness :
  files (Metagify.process_and_save_musicbrainz (λ _, false) no_scaling ["a.mp3"]
           early_release None None two_mp3).1 !! "b.mp3"
  = Some (Audio (sound_file [] (ID3 ∅))).
Proof.
  rewrite (release_worker_touches_only_its_files (λ _, false) no_scaling ["a.mp3"]
             early_release None None two_mp3 "b.mp3"); [reflexivity|].
  apply (bool_decide_unpack _). vm_compute. reflexivity.
Defined.

(** X24.  The report of [process_and_save_musicbrainz] always names the
    number of files it was given.  Either the release could be read: then
    no [processing_error] is emitted, counted and reported files together
    are at most the files given, and one progress signal follows the
    initial one for each of them (skipped files leave no trace).  Or it
    could not: then [processing_error] is emitted, nothing is counted, the
    errors hold one entry and progress stays at the initial signal. *)
Theorem release_report_adds_up stop scaled file_paths release art_data art_mime w :
  let o := (process_and_save_musicbrainz stop scaled file_paths release art_data
              art_mime w).2 in
  total_files (processing_finished o) = length file_paths ∧
  match processing_error o with
  | None =>
      saved_count (processing_finished o) + length (errors (processing_finished o))
        ≤ length file_paths ∧
      length (processing_progress o)
        = S (saved_count (processing_finished o)
             + length (errors (processing_finished o)))
  | Some _ =>
      saved_count (processing_finished o) = 0 ∧
      length (errors (processing_finished o)) = 1 ∧
      processing_progress o = [(0, length file_paths)]
  end.
Proof.
  unfold process_and_save_musicbrainz.
  destruct (derive scaled release art_data art_mime) as [d|e]; [|done].
  cbn [finish snd processing_finished processing_error processing_progress
       total_files saved_count errors].
  split; [done|].
  destruct (apply_loop_accounting stop (length file_paths) d art_mime file_paths 0
              {| world := w; count := 0; errs := [];
                 progress := [(0, length file_paths)] |}) as (k & Hk & Hc & Hp).
  simpl in Hc, Hp. lia.
Qed.

End release_report.
